(** * Book Review API: authentication core and review handlers

    A shallow embedding of the Express handlers of [routes/auth.js]
    (signup, login, refresh-token) and of the writing handlers of
    [routes/books.js] (add book, submit / update / delete review), over an
    explicit model of the relational store laid out in the README
    ([users], [books], [reviews]).  The three GET handlers of
    [routes/books.js] (listing, search, book details) follow in [Reads],
    over the store's LOWER, LIKE, ORDER BY, LIMIT, OFFSET and AVG in
    [PgRead].

    Conventions.
    - A handler is a function from the store to a response and a store.
    - The clock ([Date.now()] in seconds) and the salt drawn by
      [bcrypt.hash] are explicit inputs; [process.env.JWT_SECRET] is a
      field of the environment record.
    - [await db.query(...)] either yields rows or rejects; a rejection
      inside [try { ... }] reaches the handler's [catch], which answers 500.
      The store rejects what its schema rejects (a value that is not an
      integer for an INTEGER column, NULL for a NOT NULL column, a duplicate
      email, a rating outside the CHECK, a dangling reference, a text that
      is too long or holds a NUL character); a store that cannot be reached
      is not modelled.
    - The request body is a JSON object of scalars, with integer-valued
      numbers; arrays and nested objects are outside the modelled inputs.
      A query string is an object of texts.
    - Rows that a SELECT without ORDER BY returns are stated up to their
      order when they are listed to the client.
    - bcryptjs and jsonwebtoken are interfaces ([Bcrypt], [Hs256]); every
      property holds for any implementation of them, and [Demo] gives one
      to run the handlers on. *)

From Stdlib Require Import ZArith String List Ascii Bool Lia.
From Stdlib Require Import DecimalString DecimalPos DecimalZ.
From stdpp Require Import base option list strings sorting.

Local Open Scope string_scope.
Local Open Scope Z_scope.

(** ** JavaScript values *)

Module Js.

Inductive jsval : Type :=
| JUndefined
| JNull
| JBool (b : bool)
| JNum (n : Z)
| JStr (s : string).

#[global] Instance jsval_eq_dec : EqDecision jsval.
Proof. solve_decision. Defined.

(** [ToBoolean]: what [!v], [v || w] and [if (v)] look at. *)
Definition truthy (v : jsval) : bool :=
  match v with
  | JUndefined | JNull => false
  | JBool b => b
  | JNum n => negb (n =? 0)
  | JStr s => negb (String.eqb s "")
  end.

(** A decimal integer literal with an optional sign. *)
Definition read_int (s : string) : option Z :=
  match NilZero.int_of_string s with
  | Some d => Some (Z.of_int d)
  | None =>
      match s with
      | String "+" t => Z.of_uint <$> NilZero.uint_of_string t
      | _ => None
      end
  end.

(** [Number.prototype.toString] on an integer. *)
Definition show_int (n : Z) : string := NilZero.string_of_int (Z.to_int n).

(** [ToNumber]; [None] stands for [NaN].  On strings only decimal integer
    literals (and the empty string, which is 0) are read. *)
Definition to_number (v : jsval) : option Z :=
  match v with
  | JUndefined => None
  | JNull => Some 0
  | JBool b => Some (if b then 1 else 0)
  | JNum n => Some n
  | JStr s => if String.eqb s "" then Some 0 else read_int s
  end.

(** [v < k] and [v > k] against a number literal: false on [NaN]. *)
Definition lt_num (v : jsval) (k : Z) : bool :=
  match to_number v with Some x => x <? k | None => false end.

Definition gt_num (v : jsval) (k : Z) : bool :=
  match to_number v with Some x => k <? x | None => false end.

(** [a || b] *)
Definition or_else (a b : jsval) : jsval := if truthy a then a else b.

(** A plain object: keys in insertion order, first binding wins. *)
Definition obj : Type := list (string * jsval).

Fixpoint get (o : obj) (k : string) : jsval :=
  match o with
  | [] => JUndefined
  | (k', v) :: o' => if String.eqb k' k then v else get o' k
  end.


(** [JSON.stringify] drops the properties whose value is [undefined]. *)
Definition drop_undefined (o : obj) : obj :=
  filter (fun kv => snd kv <> JUndefined) o.

End Js.
Export Js.

(** ** The relational store (README, step 3) *)

Module Pg.

(** What a promise returned by the driver or a library settles to. *)
Inductive outcome (A : Type) : Type :=
| Resolved (a : A)
| Rejected.
Arguments Resolved {A} a.
Arguments Rejected {A}.

Record user_row : Type := mk_user {
  u_id : Z;
  u_email : string;          (* VARCHAR(255) UNIQUE NOT NULL *)
  u_password : string;       (* VARCHAR(255) NOT NULL *)
  u_created_at : Z }.

Record book_row : Type := mk_book {
  b_id : Z;
  b_title : string;          (* VARCHAR(255) NOT NULL *)
  b_author : string;         (* VARCHAR(255) NOT NULL *)
  b_genre : option string;   (* VARCHAR(100) *)
  b_description : option string;
  b_created_at : Z }.

Record review_row : Type := mk_review {
  r_id : Z;
  r_book_id : option Z;      (* INTEGER REFERENCES books(id) *)
  r_user_id : option Z;      (* INTEGER REFERENCES users(id) *)
  r_rating : option Z;       (* INTEGER CHECK (rating >= 1 AND rating <= 5) *)
  r_comment : option string;
  r_created_at : Z }.

Record db : Type := mk_db {
  users : list user_row;
  users_id_seq : Z;
  books : list book_row;
  books_id_seq : Z;
  reviews : list review_row;
  reviews_id_seq : Z }.

#[global] Instance user_row_eq_dec : EqDecision user_row.
Proof. solve_decision. Defined.
#[global] Instance book_row_eq_dec : EqDecision book_row.
Proof. solve_decision. Defined.
#[global] Instance review_row_eq_dec : EqDecision review_row.
Proof. solve_decision. Defined.
#[global] Instance db_eq_dec : EqDecision db.
Proof. solve_decision. Defined.

(** A statement run against the store: rows or a rejection, and the store
    afterwards. *)
Definition query (A : Type) : Type := db -> outcome A * db.

Definition ret {A} (a : A) : query A := fun d => (Resolved a, d).

Definition throw {A} : query A := fun d => (Rejected, d).

Definition bind {A B} (m : query A) (k : A -> query B) : query B :=
  fun d =>
    match m d with
    | (Resolved a, d') => k a d'
    | (Rejected, d') => (Rejected, d')
    end.

(** Settling a value that does not touch the store ([bcrypt], [jwt]). *)
Definition lift {A} (o : outcome A) : query A := fun d => (o, d).

(** node-postgres [prepareValue]: [null] and [undefined] are sent as
    NULL, everything else as its text. *)
Definition param (v : jsval) : option string :=
  match v with
  | JUndefined | JNull => None
  | JBool b => Some (if b then "true" else "false")
  | JNum n => Some (show_int n)
  | JStr s => Some s
  end.

Definition int4_min : Z := -2147483648.
Definition int4_max : Z := 2147483647.

(** Input of an INTEGER parameter: NULL, a value, or a rejection
    (invalid syntax, out of range).  An integer in decimal digits is read
    and a text without a digit is refused by every version of the store;
    on other texts (blanks around the digits, [0x1], [1_0]) the versions
    differ, and nothing is stated about them. *)
Definition int4 (p : option string) : outcome (option Z) :=
  match p with
  | None => Resolved None
  | Some s =>
      match read_int s with
      | Some z =>
          if (int4_min <=? z) && (z <=? int4_max) then Resolved (Some z)
          else Rejected
      | None => Rejected
      end
  end.

Fixpoint has_nul (s : string) : bool :=
  match s with
  | EmptyString => false
  | String c t => Ascii.eqb c zero || has_nul t
  end.

(** Input of a text parameter: a NUL character is refused. *)
Definition text (p : option string) : outcome (option string) :=
  match p with
  | None => Resolved None
  | Some s => if has_nul s then Rejected else Resolved (Some s)
  end.

Fixpoint all_spaces (s : string) : bool :=
  match s with
  | EmptyString => true
  | String c t => Ascii.eqb c " " && all_spaces t
  end.

Fixpoint take (n : nat) (s : string) : string :=
  match n, s with
  | S n', String c t => String c (take n' t)
  | _, _ => EmptyString
  end.

Fixpoint drop (n : nat) (s : string) : string :=
  match n, s with
  | S n', String _ t => drop n' t
  | _, _ => s
  end.

(** Assignment to a VARCHAR(n) column: too long a value is rejected,
    unless the excess is all spaces, which is cut off.  The length is that
    of the text in bytes, which is its length in characters for an ASCII
    text and no less for any other. *)
Definition varchar (n : nat) (p : option string) : outcome (option string) :=
  match p with
  | None => Resolved None
  | Some s =>
      if (String.length s <=? n)%nat then Resolved (Some s)
      else if all_spaces (drop n s) then Resolved (Some (take n s))
      else Rejected
  end.

(** NOT NULL *)
Definition not_null {A} (o : option A) : outcome A :=
  match o with Some a => Resolved a | None => Rejected end.

End Pg.
Export Pg.

Declare Scope query_scope.
Delimit Scope query_scope with query.
Notation "x <- m ;; k" := (bind m (fun x => k))
  (at level 100, m at next level, right associativity) : query_scope.
Notation "'await' m ;; k" := (bind m (fun _ => k))
  (at level 100, m at next level, right associativity) : query_scope.

(** ** The statements the handlers send *)

Module Sql.

Local Open Scope query_scope.

Definition set_users (d : db) (us : list user_row) : db :=
  mk_db us (users_id_seq d) (books d) (books_id_seq d)
        (reviews d) (reviews_id_seq d).

Definition set_books (d : db) (bs : list book_row) : db :=
  mk_db (users d) (users_id_seq d) bs (books_id_seq d)
        (reviews d) (reviews_id_seq d).

Definition set_reviews (d : db) (rs : list review_row) : db :=
  mk_db (users d) (users_id_seq d) (books d) (books_id_seq d)
        rs (reviews_id_seq d).

(** [nextval] of a SERIAL column; it is not undone when the statement
    fails afterwards. *)
Definition nextval_users : query Z := fun d =>
  let n := users_id_seq d + 1 in
  (Resolved n,
   mk_db (users d) n (books d) (books_id_seq d) (reviews d) (reviews_id_seq d)).

Definition nextval_books : query Z := fun d =>
  let n := books_id_seq d + 1 in
  (Resolved n,
   mk_db (users d) (users_id_seq d) (books d) n (reviews d) (reviews_id_seq d)).

Definition nextval_reviews : query Z := fun d =>
  let n := reviews_id_seq d + 1 in
  (Resolved n,
   mk_db (users d) (users_id_seq d) (books d) (books_id_seq d) (reviews d) n).

Definition read {A} (f : db -> A) : query A := fun d => (Resolved (f d), d).

Definition guard (b : bool) : query unit :=
  if b then ret tt else throw.

(** SELECT * FROM users WHERE email = $1 *)
Definition select_users_by_email (email : jsval) : query (list user_row) :=
  e <- lift (text (param email)) ;;
  read (fun d =>
    match e with
    | Some s => filter (fun u => u_email u = s) (users d)
    | None => []
    end).

(** INSERT INTO users (email, password) VALUES ($1, $2).  A value too
    long for its column is refused before the row is formed, and the
    sequence does not move; NOT NULL and UNIQUE are checked on the row,
    after [nextval]. *)
Definition insert_user (now : Z) (email password : jsval) : query unit :=
  e <- lift (text (param email)) ;;
  p <- lift (text (param password)) ;;
  e <- lift (varchar 255 e) ;;
  p <- lift (varchar 255 p) ;;
  id <- nextval_users ;;
  e <- lift (not_null e) ;;
  p <- lift (not_null p) ;;
  taken <- read (fun d => existsb (fun u => String.eqb (u_email u) e) (users d)) ;;
  await guard (negb taken) ;;
  fun d => (Resolved tt, set_users d (users d ++ [mk_user id e p now])).

(** INSERT INTO books (title, author, genre, description)
    VALUES ($1, $2, $3, $4) RETURNING *; the length checks come before
    [nextval], as in [insert_user]. *)
Definition insert_book (now : Z) (title author genre description : jsval)
  : query (list book_row) :=
  t <- lift (text (param title)) ;;
  a <- lift (text (param author)) ;;
  g <- lift (text (param genre)) ;;
  ds <- lift (text (param description)) ;;
  t <- lift (varchar 255 t) ;;
  a <- lift (varchar 255 a) ;;
  g <- lift (varchar 100 g) ;;
  id <- nextval_books ;;
  t <- lift (not_null t) ;;
  a <- lift (not_null a) ;;
  let row := mk_book id t a g ds now in
  fun d => (Resolved [row], set_books d (books d ++ [row])).

Definition id_is (k : option Z) (id : Z) : bool :=
  match k with Some z => z =? id | None => false end.

(** [column = $n] on a nullable column: never true against NULL. *)
Definition col_is (k : option Z) (col : option Z) : bool :=
  match k, col with Some z, Some c => z =? c | _, _ => false end.

(** SELECT id FROM books WHERE id = $1 *)
Definition select_book_id (bookId : jsval) : query (list Z) :=
  b <- lift (int4 (param bookId)) ;;
  read (fun d => map b_id (filter (fun r => id_is b (b_id r) = true) (books d))).

(** SELECT * FROM reviews WHERE book_id = $1 AND user_id = $2 *)
Definition select_reviews_by_book_user (bookId userId : jsval)
  : query (list review_row) :=
  b <- lift (int4 (param bookId)) ;;
  u <- lift (int4 (param userId)) ;;
  read (fun d =>
    filter (fun r => col_is b (r_book_id r) && col_is u (r_user_id r) = true)
           (reviews d)).

Definition check_rating (r : option Z) : bool :=
  match r with Some z => (1 <=? z) && (z <=? 5) | None => true end.

Definition references {A} (key : A -> Z) (rows : list A) (k : option Z) : bool :=
  match k with
  | Some z => existsb (fun r => key r =? z) rows
  | None => true
  end.

(** INSERT INTO reviews (book_id, user_id, rating, comment)
    VALUES ($1, $2, $3, $4) RETURNING * *)
Definition insert_review (now : Z) (bookId userId rating comment : jsval)
  : query (list review_row) :=
  b <- lift (int4 (param bookId)) ;;
  u <- lift (int4 (param userId)) ;;
  r <- lift (int4 (param rating)) ;;
  c <- lift (text (param comment)) ;;
  id <- nextval_reviews ;;
  await guard (check_rating r) ;;
  fk_book <- read (fun d => references b_id (books d) b) ;;
  await guard fk_book ;;
  fk_user <- read (fun d => references u_id (users d) u) ;;
  await guard fk_user ;;
  let row := mk_review id b u r c now in
  fun d => (Resolved [row], set_reviews d (reviews d ++ [row])).

(** SELECT * FROM reviews WHERE id = $1 *)
Definition select_review (reviewId : jsval) : query (list review_row) :=
  k <- lift (int4 (param reviewId)) ;;
  read (fun d => filter (fun r => id_is k (r_id r) = true) (reviews d)).

Definition set_rating_comment (r : option Z) (c : option string)
           (row : review_row) : review_row :=
  mk_review (r_id row) (r_book_id row) (r_user_id row) r c (r_created_at row).

(** UPDATE reviews SET rating = $1, comment = $2 WHERE id = $3 RETURNING * *)
Definition update_review (rating comment reviewId : jsval)
  : query (list review_row) :=
  r <- lift (int4 (param rating)) ;;
  c <- lift (text (param comment)) ;;
  k <- lift (int4 (param reviewId)) ;;
  hit <- read (fun d => filter (fun row => id_is k (r_id row) = true) (reviews d)) ;;
  await guard (match hit with [] => true | _ => check_rating r end) ;;
  fun d =>
    (Resolved (map (set_rating_comment r c) hit),
     set_reviews d
       (map (fun row => if id_is k (r_id row)
                        then set_rating_comment r c row else row)
            (reviews d))).

(** DELETE FROM reviews WHERE id = $1 *)
Definition delete_review_row (reviewId : jsval) : query unit :=
  k <- lift (int4 (param reviewId)) ;;
  fun d =>
    (Resolved tt,
     set_reviews d (filter (fun r => id_is k (r_id r) <> true) (reviews d))).

End Sql.
Export Sql.

(** ** The libraries the handlers call: bcryptjs and jsonwebtoken *)

Module Lib.

(** bcrypt as the handlers rely on it: a salted hash of 60 printable
    characters, and a comparison that accepts the hash of the same
    plaintext. *)
Class Bcrypt : Type := {
  hash_with_salt : string -> string -> string;
  compare_hash : string -> string -> bool;
  compare_hash_with_salt :
    forall p salt, compare_hash p (hash_with_salt p salt) = true;
  hash_length :
    forall p salt, String.length (hash_with_salt p salt) = 60%nat;
  hash_printable :
    forall p salt, has_nul (hash_with_salt p salt) = false }.

(** [bcrypt.hash(s, 10)]: rejects unless [s] is a string. *)
Definition bcrypt_hash `{Bcrypt} (s : jsval) (salt : string) : outcome string :=
  match s with
  | JStr p => Resolved (hash_with_salt p salt)
  | _ => Rejected
  end.

(** [bcrypt.compare(s, hash)]: rejects unless [s] is a string; a mismatch
    is the value [false], not a rejection. *)
Definition bcrypt_compare `{Bcrypt} (s : jsval) (hash : string) : outcome bool :=
  match s with
  | JStr p => Resolved (compare_hash p hash)
  | _ => Rejected
  end.

(** The keyed signature (HS256) over the claims of a token. *)
Class Hs256 : Type := { hmac : string -> obj -> string }.

Record jwt : Type := mk_jwt { claims : obj; signature : string }.

(** A token as it travels: a string that decodes to a JWT, or one that
    does not (the empty string among them). *)
Inductive wire : Type :=
| Opaque (s : string)
| Token (t : jwt).

#[global] Instance jwt_eq_dec : EqDecision jwt.
Proof. solve_decision. Defined.
#[global] Instance wire_eq_dec : EqDecision wire.
Proof. solve_decision. Defined.

Definition wire_truthy (w : wire) : bool :=
  match w with
  | Opaque s => negb (String.eqb s "")
  | Token _ => true
  end.

(** [process.env.JWT_SECRET] as the library sees it: unset and empty are
    both refused. *)
Definition secret_key (secret : option string) : option string :=
  match secret with
  | Some k => if String.eqb k "" then None else Some k
  | None => None
  end.

(** ['1m'] and ['7d'] in seconds. *)
Definition span_1m : Z := 60.
Definition span_7d : Z := 7 * 24 * 60 * 60.

(** The claims [jwt.sign({ email }, _, { expiresIn })] signs at clock [now]:
    the payload as serialised, then [iat] and [exp]. *)
Definition signed_claims (email : jsval) (expiresIn : Z) (now : Z) : obj :=
  (drop_undefined [("email", email)]
     ++ [("iat", JNum now); ("exp", JNum (now + expiresIn))])%list.

Definition issue `{Hs256} (k : string) (email : jsval) (expiresIn now : Z) : jwt :=
  let payload := signed_claims email expiresIn now in
  mk_jwt payload (hmac k payload).

(** [jwt.sign({ email }, secret, { expiresIn })] at clock [now]. *)
Definition jwt_sign `{Hs256} (email : jsval) (secret : option string)
           (expiresIn : Z) (now : Z) : outcome wire :=
  match secret_key secret with
  | None => Rejected
  | Some k => Resolved (Token (issue k email expiresIn now))
  end.

Definition not_before_ok (c : obj) (now : Z) : bool :=
  match get c "nbf" with
  | JUndefined => true
  | JNum n => n <=? now
  | _ => false
  end.

Definition not_expired (c : obj) (now : Z) : bool :=
  match get c "exp" with
  | JUndefined => true
  | JNum e => now <? e
  | _ => false
  end.

(** [jwt.verify(token, secret)] at clock [now]: the decoded claims, or a
    rejection (malformed, bad signature, not yet valid, expired). *)
Definition jwt_verify `{Hs256} (token : wire) (secret : option string)
           (now : Z) : outcome obj :=
  match token with
  | Opaque _ => Rejected
  | Token t =>
      match secret_key secret with
      | None => Rejected
      | Some k =>
          if String.eqb (signature t) (hmac k (claims t))
             && not_before_ok (claims t) now
             && not_expired (claims t) now
          then Resolved (claims t)
          else Rejected
      end
  end.

End Lib.
Export Lib.

(** ** Requests and responses *)

Module Http.

Record cookie : Type := mk_cookie {
  c_name : string;
  c_value : wire;
  c_httpOnly : bool;
  c_secure : bool;
  c_sameSite : string;
  c_maxAge : Z }.

Inductive json : Type :=
| JsonError (error : string)
| JsonMessage (message : string)
| JsonAccessToken (accessToken : wire)
| JsonBook (row : option book_row)
| JsonReview (row : option review_row).

Record response : Type := mk_response {
  status : Z;
  body : json;
  cookies_set : list cookie }.

(** What a handler reads of the request: the JSON body, the [:id] path
    segment, the [refreshToken] cookie, and the identity the
    authentication middleware attached as [req.user]. *)
Record request : Type := mk_request {
  req_body : obj;
  req_params_id : string;
  req_cookies_refreshToken : option wire;
  req_user : obj }.

(** The same request with another identity attached. *)
Definition as_requester (u : obj) (req : request) : request :=
  mk_request (req_body req) (req_params_id req) (req_cookies_refreshToken req) u.

Record env : Type := mk_env { JWT_SECRET : option string }.

#[global] Instance cookie_eq_dec : EqDecision cookie.
Proof. solve_decision. Defined.
#[global] Instance json_eq_dec : EqDecision json.
Proof. solve_decision. Defined.
#[global] Instance response_eq_dec : EqDecision response.
Proof. solve_decision. Defined.

Definition handler : Type := db -> response * db.

(** [res.status(s).json(b)] with no cookie set before. *)
Definition send (s : Z) (b : json) : response := mk_response s b [].

Definition internal_error : response :=
  send 500 (JsonError "Internal server error").

(** [try { ... } catch (err) { ... }] around awaited statements. *)
Definition try_catch (block : query response) (on_error : response) : handler :=
  fun d =>
    match block d with
    | (Resolved r, d') => (r, d')
    | (Rejected, d') => (on_error, d')
    end.

End Http.
Export Http.

(** ** routes/auth.js *)

Module Auth.

Section Handlers.

Context `{Bcrypt} `{Hs256}.

Local Open Scope query_scope.

(** [router.post('/signup', ...)]; [salt] is the salt [bcrypt.hash]
    draws. *)
Definition signup (salt : string) (now : Z) (req : request) : handler :=
  let email := get (req_body req) "email" in
  let password := get (req_body req) "password" in
  try_catch
    (existingUser <- select_users_by_email email ;;
     if (0 <? length existingUser)%nat then
       ret (send 400 (JsonError "Email already exists"))
     else
       hashedPassword <- lift (bcrypt_hash password salt) ;;
       await insert_user now email (JStr hashedPassword) ;;
       ret (send 201 (JsonMessage "Signup success")))
    internal_error.

Definition refresh_cookie (refreshToken : wire) : cookie :=
  mk_cookie "refreshToken" refreshToken true false "strict"
            (7 * 24 * 60 * 60 * 1000).

(** [router.post('/login', ...)] *)
Definition login (e : env) (now : Z) (req : request) : handler :=
  let email := get (req_body req) "email" in
  let password := get (req_body req) "password" in
  try_catch
    (userResult <- select_users_by_email email ;;
     match userResult with
     | [] => ret (send 400 (JsonError "Invalid email"))
     | user :: _ =>
         valid <- lift (bcrypt_compare password (u_password user)) ;;
         if negb valid then ret (send 400 (JsonError "Invalid password"))
         else
           accessToken <- lift (jwt_sign email (JWT_SECRET e) span_1m now) ;;
           refreshToken <- lift (jwt_sign email (JWT_SECRET e) span_7d now) ;;
           ret (mk_response 200 (JsonAccessToken accessToken)
                            [refresh_cookie refreshToken])
     end)
    internal_error.

(** [router.post('/refresh-token', ...)]: no statement is sent to the
    store; both [jwt.verify] and [jwt.sign] sit inside the [try]. *)
Definition refresh_token (e : env) (now : Z) (req : request) : handler :=
  let token := req_cookies_refreshToken req in
  match token with
  | None => fun d => (send 401 (JsonError "No refresh token"), d)
  | Some token =>
      if negb (wire_truthy token) then
        fun d => (send 401 (JsonError "No refresh token"), d)
      else
        try_catch
          (decoded <- lift (jwt_verify token (JWT_SECRET e) now) ;;
           accessToken <-
             lift (jwt_sign (get decoded "email") (JWT_SECRET e) span_1m now) ;;
           ret (send 200 (JsonAccessToken accessToken)))
          (send 403 (JsonError "Invalid refresh token"))
  end.

End Handlers.

End Auth.
Export Auth.

(** ** routes/books.js: the handlers that write *)

Module Books.

Local Open Scope query_scope.

Definition rating_of (row : review_row) : jsval :=
  match r_rating row with Some z => JNum z | None => JNull end.

Definition comment_of (row : review_row) : jsval :=
  match r_comment row with Some s => JStr s | None => JNull end.

(** [router.post('/', authenticateToken, ...)] *)
Definition post_book (now : Z) (req : request) : handler :=
  let title := get (req_body req) "title" in
  let author := get (req_body req) "author" in
  let genre := get (req_body req) "genre" in
  let description := get (req_body req) "description" in
  if negb (truthy title) || negb (truthy author) then
    fun d => (send 400 (JsonError "Title and author are required"), d)
  else
    try_catch
      (result <- insert_book now title author
                   (or_else genre JNull) (or_else description JNull) ;;
       ret (send 201 (JsonBook (head result))))
      internal_error.

(** [router.post('/:id/reviews', authenticateToken, ...)] *)
Definition post_review (now : Z) (req : request) : handler :=
  let bookId := JStr (req_params_id req) in
  let userId := get (req_user req) "id" in
  let rating := get (req_body req) "rating" in
  let comment := get (req_body req) "comment" in
  if negb (truthy rating) || lt_num rating 1 || gt_num rating 5 then
    fun d => (send 400 (JsonError "Rating must be between 1 and 5"), d)
  else
    try_catch
      (bookCheck <- select_book_id bookId ;;
       if (length bookCheck =? 0)%nat then
         ret (send 404 (JsonError "Book not found"))
       else
         existingReview <- select_reviews_by_book_user bookId userId ;;
         if (0 <? length existingReview)%nat then
           ret (send 400 (JsonError "You have already reviewed this book"))
         else
           result <- insert_review now bookId userId rating
                       (or_else comment JNull) ;;
           ret (send 201 (JsonReview (head result))))
      internal_error.

(** [router.put('/reviews/:id', authenticateToken, ...)]; [userId] is
    read from the request and not used afterwards. *)
Definition put_review (req : request) : handler :=
  let reviewId := JStr (req_params_id req) in
  let userId := get (req_user req) "id" in
  let rating := get (req_body req) "rating" in
  let comment := get (req_body req) "comment" in
  if truthy rating && (lt_num rating 1 || gt_num rating 5) then
    fun d => (send 400 (JsonError "Rating must be between 1 and 5"), d)
  else
    try_catch
      (reviewResult <- select_review reviewId ;;
       match reviewResult with
       | [] => ret (send 404 (JsonError "Review not found or not yours to edit"))
       | row :: _ =>
           let updatedRating := or_else rating (rating_of row) in
           let updatedComment :=
             if decide (comment <> JUndefined) then comment else comment_of row in
           updateResult <- update_review updatedRating updatedComment reviewId ;;
           ret (send 200 (JsonReview (head updateResult)))
       end)
      internal_error.

(** [router.delete('/reviews/:id', authenticateToken, ...)]; here too
    [userId] is read and not used. *)
Definition delete_review (req : request) : handler :=
  let reviewId := JStr (req_params_id req) in
  let userId := get (req_user req) "id" in
  try_catch
    (reviewResult <- select_review reviewId ;;
     match reviewResult with
     | [] => ret (send 404 (JsonError "Review not found or not yours to delete"))
     | _ :: _ =>
         await delete_review_row reviewId ;;
         ret (send 200 (JsonMessage "Review deleted successfully"))
     end)
    internal_error.

End Books.
Export Books.

(** ** The authentication middleware *)

Module Middleware.

(** Modelled from the spec: [middleware/authenticateToken.js] is required
    by [routes/books.js] but is not among the sources.  Section 4.4: no
    bearer token is rejected with 401 "missing credential"; a token whose
    signature or expiry check fails is rejected with 403 "invalid or
    expired token"; otherwise the request proceeds with the identity
    claim of the token attached, here the decoded claims as [req.user].
    Nothing is persisted or revoked. *)
Definition authenticateToken `{Hs256} (e : env) (now : Z)
           (bearer : option wire) (req : request)
           (next : request -> handler) : handler :=
  match bearer with
  | None => fun d => (send 401 (JsonError "missing credential"), d)
  | Some token =>
      match jwt_verify token (JWT_SECRET e) now with
      | Resolved decoded =>
          next (mk_request (req_body req) (req_params_id req)
                           (req_cookies_refreshToken req) decoded)
      | Rejected =>
          fun d => (send 403 (JsonError "invalid or expired token"), d)
      end
  end.

End Middleware.
Export Middleware.

(** ** The vocabulary of the properties *)

Module Vocabulary.

(** What the UPDATE of a review does to one row of the table. *)
Definition rewrite_row (k rating : Z) (comment : string) (row : review_row)
  : review_row :=
  if k =? r_id row then set_rating_comment (Some rating) (Some comment) row
  else row.

(** What the UNIQUE and text constraints of [users.email] guarantee of a
    store. *)
Definition users_ok (d : db) : Prop :=
  NoDup (map u_email (users d))
  /\ Forall (fun u => has_nul (u_email u) = false) (users d).


(** The row a successful submission appends. *)
Definition submitted (d : db) (now : Z) (book user rating : option Z)
           (comment : option string) : review_row :=
  mk_review (reviews_id_seq d + 1) book user rating comment now.

Definition with_review (d : db) (row : review_row) : db :=
  mk_db (users d) (users_id_seq d) (books d) (books_id_seq d)
        (reviews d ++ [row]) (reviews_id_seq d + 1).

(** The (book, user) pair of a row, when both are set. *)
Definition pair_of (r : review_row) : option (Z * Z) :=
  match r_book_id r, r_user_id r with
  | Some b, Some u => Some (b, u)
  | _, _ => None
  end.

(** At most one row for each pair of a book and an identified user. *)
Definition one_review_per_pair (d : db) : Prop :=
  NoDup (omap pair_of (reviews d)).

(** At most one row for each ([book_id], [user_id]) pair, NULL included. *)
Definition one_row_per_pair (d : db) : Prop :=
  NoDup (map (fun r => (r_book_id r, r_user_id r)) (reviews d)).

(** The calls of the API that write. *)
Inductive call : Type :=
| Signup (salt : string) (now : Z) (req : request)
| Login (e : env) (now : Z) (req : request)
| RefreshToken (e : env) (now : Z) (req : request)
| PostBook (now : Z) (req : request)
| PostReview (now : Z) (req : request)
| PutReview (req : request)
| DeleteReview (req : request).

Definition run `{Bcrypt} `{Hs256} (c : call) : handler :=
  match c with
  | Signup salt now req => signup salt now req
  | Login e now req => login e now req
  | RefreshToken e now req => refresh_token e now req
  | PostBook now req => post_book now req
  | PostReview now req => post_review now req
  | PutReview req => put_review req
  | DeleteReview req => delete_review req
  end.

(** A statement, or a block of them, that leaves one table of the store
    ([users], [books] or [reviews]) as it found it. *)
Definition keeps {X A} (table : db -> X) (q : query A) : Prop :=
  forall d, table (snd (q d)) = table d.

(** The store after a sequence of calls. *)
Definition run_all `{Bcrypt} `{Hs256} (cs : list call) (d : db) : db :=
  fold_left (fun d c => snd (run c d)) cs d.

Section WithLibraries.

Context `{Bcrypt} `{Hs256}.

(** A refresh cookie that verifies under key [k] at clock [now]. *)
Definition valid_unexpired (k : string) (now : Z) (w : wire) : Prop :=
  exists t, w = Token t
            /\ signature t = hmac k (claims t)
            /\ not_before_ok (claims t) now = true
            /\ not_expired (claims t) now = true.

(** A cookie that was altered: a value that no longer decodes, the empty
    one among them, or a token whose signature does not match its
    claims. *)
Definition tampered (k : string) (w : wire) : Prop :=
  match w with
  | Opaque _ => True
  | Token t => signature t <> hmac k (claims t)
  end.

(** A well-signed token whose [exp] is reached. *)
Definition expired (k : string) (now : Z) (w : wire) : Prop :=
  exists t e, w = Token t
              /\ signature t = hmac k (claims t)
              /\ get (claims t) "exp" = JNum e
              /\ e <= now.


(** The answer of a successful login of [email] with key [k] at [now]. *)
Definition logged_in (k : string) (email : jsval) (now : Z) : response :=
  mk_response 200
    (JsonAccessToken (Token (issue k email span_1m now)))
    [refresh_cookie (Token (issue k email span_7d now))].

(** [t] was signed with key [k] at clock [now] for [email], to expire
    [ttl] seconds later: the three claims are in the signed payload, and
    the verifier, given nothing but the token, the key and a clock, accepts
    it exactly before [now + ttl]. *)
Definition issued_at (k : string) (email : jsval) (ttl now : Z) (t : jwt)
  : Prop :=
  get (claims t) "email" = email
  /\ get (claims t) "iat" = JNum now
  /\ get (claims t) "exp" = JNum (now + ttl)
  /\ signature t = hmac k (claims t)
  /\ forall secret now',
      secret_key secret = Some k ->
      jwt_verify (Token t) secret now'
      = if now' <? now + ttl then Resolved (claims t) else Rejected.

End WithLibraries.

End Vocabulary.
Export Vocabulary.

(** ** An instance of the library interfaces, to run the handlers on *)

Module Demo.

(** [fit n s]: [s] cut or padded with dots to [n] printable characters. *)
Fixpoint fit (n : nat) (s : string) : string :=
  match n with
  | O => EmptyString
  | S n' =>
      match s with
      | EmptyString => String "." (fit n' EmptyString)
      | String c t =>
          String (if Ascii.eqb c zero then "."%char else c) (fit n' t)
      end
  end.

Definition demo_hash (p salt : string) : string :=
  (fit 22 salt ++ fit 38 p)%string.

Definition demo_compare (p h : string) : bool :=
  String.eqb (drop 22 h) (fit 38 p).

Fixpoint show_claims (o : obj) : string :=
  match o with
  | [] => EmptyString
  | (k, v) :: o' =>
      (k ++ "="
         ++ match v with
            | JStr s => s
            | JNum n => show_int n
            | JBool true => "true"
            | JBool false => "false"
            | JNull => "null"
            | JUndefined => ""
            end
         ++ ";" ++ show_claims o')%string
  end.

#[export] Instance demo_hs256 : Hs256 :=
  {| hmac := fun k o => (k ++ "|" ++ show_claims o)%string |}.

Definition demo_env : env := mk_env (Some "s3cr3t").

Definition empty_db : db := mk_db [] 0 [] 0 [] 0.

Definition alice : user_row := mk_user 1 "a@x.com" (demo_hash "p1" "salt") 100.
Definition bob : obj := [("id", JNum 2); ("email", JStr "b@x.com")].
Definition dune : book_row := mk_book 1 "Dune" "Herbert" None None 150.
Definition alice_on_dune : review_row :=
  mk_review 1 (Some 1) (Some 1) (Some 4) (Some "fine") 160.

Definition members : db := mk_db [alice] 1 [] 0 [] 0.
Definition library : db := mk_db [alice] 1 [dune] 1 [alice_on_dune] 1.

Definition credentials (email password : string) : request :=
  mk_request [("email", JStr email); ("password", JStr password)] "" None [].

Definition with_cookie (ck : option wire) : request :=
  mk_request [] "" ck [].

(** The refresh token a login of alice at clock 200 sets. *)
Definition alice_refresh : jwt := issue "s3cr3t" (JStr "a@x.com") span_7d 200.

End Demo.

(** ** Invariants of the store, and triples over statements *)

Module Invariants.

(** The rating of a row is set and lies between 1 and 5. *)
Definition rating_in_range (r : review_row) : Prop :=
  exists z, r_rating r = Some z /\ 1 <= z <= 5.

Definition ratings_ok (d : db) : Prop := Forall rating_in_range (reviews d).

(** Primary keys: in each table the ids are pairwise distinct and none is
    beyond the last value its sequence handed out. *)
Definition keys_ok (d : db) : Prop :=
  (NoDup (map u_id (users d))
   /\ Forall (fun u => u_id u <= users_id_seq d) (users d))
  /\ (NoDup (map b_id (books d))
      /\ Forall (fun b => b_id b <= books_id_seq d) (books d))
  /\ (NoDup (map r_id (reviews d))
      /\ Forall (fun r => r_id r <= reviews_id_seq d) (reviews d)).

(** Foreign keys: every review names a stored book, and a stored user
    whenever it names a user at all. *)
Definition refers (d : db) (r : review_row) : Prop :=
  (exists b, r_book_id r = Some b /\ b ∈ map b_id (books d))
  /\ (forall u, r_user_id r = Some u -> u ∈ map u_id (users d)).

Definition refs_ok (d : db) : Prop := Forall (refers d) (reviews d).

(** [d'] has the rows of [d]; its sequences may have moved on. *)
Definition same_rows (d d' : db) : Prop :=
  users d' = users d /\ books d' = books d /\ reviews d' = reviews d
  /\ users_id_seq d <= users_id_seq d'
  /\ books_id_seq d <= books_id_seq d'
  /\ reviews_id_seq d <= reviews_id_seq d'.

(** [d'] has at least the users and books of [d], in the same order. *)
Definition grown (d d' : db) : Prop :=
  (exists us, users d' = (users d ++ us)%list)
  /\ (exists bs, books d' = (books d ++ bs)%list).

(** The ways one call can change the store: nothing but a sequence moves;
    a user, a book or a review is appended under a fresh id; the reviews
    with one id are rewritten in rating and comment; reviews are removed. *)
Inductive step (d d' : db) : Prop :=
| step_same :
    same_rows d d' -> step d d'
| step_user (e p : string) (now : Z) :
    has_nul e = false ->
    e ∉ map u_email (users d) ->
    d' = mk_db (users d ++ [mk_user (users_id_seq d + 1) e p now])
               (users_id_seq d + 1) (books d) (books_id_seq d)
               (reviews d) (reviews_id_seq d) ->
    step d d'
| step_book (row : book_row) :
    b_id row = books_id_seq d + 1 ->
    d' = mk_db (users d) (users_id_seq d) (books d ++ [row])
               (books_id_seq d + 1) (reviews d) (reviews_id_seq d) ->
    step d d'
| step_review (row : review_row) :
    r_id row = reviews_id_seq d + 1 ->
    refers d row ->
    rating_in_range row ->
    d' = mk_db (users d) (users_id_seq d) (books d) (books_id_seq d)
               (reviews d ++ [row]) (reviews_id_seq d + 1) ->
    step d d'
| step_update (g : review_row -> review_row) :
    (forall r, r_id (g r) = r_id r
               /\ r_book_id (g r) = r_book_id r
               /\ r_user_id (g r) = r_user_id r
               /\ r_created_at (g r) = r_created_at r) ->
    (ratings_ok d -> forall r, r ∈ reviews d -> rating_in_range (g r)) ->
    d' = set_reviews d (map g (reviews d)) ->
    step d d'
| step_delete (P : review_row -> Prop) `{!forall r, Decision (P r)} :
    d' = set_reviews d (filter P (reviews d)) ->
    step d d'.

(** A triple over a statement or block: from a store satisfying [P], a
    resolved run ends in [Q], a rejected one in [E]. *)
Definition triple {A} (P : db -> Prop) (q : query A)
           (Q : A -> db -> Prop) (E : db -> Prop) : Prop :=
  forall d, P d ->
            match q d with
            | (Resolved a, d') => Q a d'
            | (Rejected, d') => E d'
            end.

(** An invariant that every block of a handler keeps, whether it resolves
    or rejects. *)
Definition invariant {A} (I : db -> Prop) (q : query A) : Prop :=
  triple I q (fun _ => I) I.

End Invariants.
Export Invariants.

(** ** Reading the store: LOWER, LIKE, ORDER BY, LIMIT and OFFSET *)

Module PgRead.

(** [LOWER] on ASCII texts: the letters A to Z are folded and nothing
    else.  On other texts the store's LOWER depends on the locale of the
    database (it folds accented capitals too); what is stated through
    [lower] is stated for ASCII texts. *)
Definition lower_ascii (c : ascii) : ascii :=
  let n := nat_of_ascii c in
  if (65 <=? n)%nat && (n <=? 90)%nat then ascii_of_nat (n + 32) else c.

Fixpoint lower (s : string) : string :=
  match s with
  | EmptyString => EmptyString
  | String c t => String (lower_ascii c) (lower t)
  end.

(** A LIKE pattern, read: [%] is any run of characters, [_] any one
    character, a backslash takes the next character literally. *)
Inductive tok : Type :=
| Any
| One
| Lit (c : ascii).

(** [None]: the pattern ends in a lone backslash, which the store refuses
    once matching gets there.  The handlers wrap what they send in
    [%...%], so that no pattern of theirs ends that way. *)
Fixpoint tokens (p : string) : option (list tok) :=
  match p with
  | EmptyString => Some []
  | String c t =>
      if Ascii.eqb c "\" then
        match t with
        | EmptyString => None
        | String c' t' => cons (Lit c') <$> tokens t'
        end
      else if Ascii.eqb c "%" then cons Any <$> tokens t
      else if Ascii.eqb c "_" then cons One <$> tokens t
      else cons (Lit c) <$> tokens t
  end.

Fixpoint matches (ts : list tok) (s : string) : bool :=
  match ts with
  | [] => match s with EmptyString => true | _ => false end
  | Lit c :: ts' =>
      match s with
      | String c' s' => Ascii.eqb c c' && matches ts' s'
      | EmptyString => false
      end
  | One :: ts' =>
      match s with
      | String _ s' => matches ts' s'
      | EmptyString => false
      end
  | Any :: ts' =>
      (fix skip (s : string) : bool :=
         matches ts' s
         || match s with
            | String _ s' => skip s'
            | EmptyString => false
            end) s
  end.

(** The pattern parameter of [LOWER(column) LIKE LOWER($n)]: a text,
    lowered, then read; NULL stays NULL. *)
Definition pattern (p : option string) : outcome (option (list tok)) :=
  match text p with
  | Resolved (Some s) =>
      match tokens (lower s) with
      | Some ts => Resolved (Some ts)
      | None => Rejected
      end
  | Resolved None => Resolved None
  | Rejected => Rejected
  end.

(** [LOWER(column) LIKE LOWER($n)] on one row: NULL on either side is not
    true. *)
Definition lower_like (column : option string) (ts : option (list tok)) : bool :=
  match column, ts with
  | Some s, Some ts => matches ts (lower s)
  | _, _ => false
  end.

Definition int8_min : Z := -9223372036854775808.
Definition int8_max : Z := 9223372036854775807.

(** Input of a BIGINT parameter, as LIMIT and OFFSET take. *)
Definition int8 (p : option string) : outcome (option Z) :=
  match p with
  | None => Resolved None
  | Some s =>
      match read_int s with
      | Some z =>
          if (int8_min <=? z) && (z <=? int8_max) then Resolved (Some z)
          else Rejected
      | None => Rejected
      end
  end.

(** [LIMIT l OFFSET o]: a negative count is refused, NULL is no limit and
    no offset. *)
Definition limit_offset {A} (l o : option Z) (rows : list A)
  : outcome (list A) :=
  let negative (x : option Z) :=
    match x with Some z => z <? 0 | None => false end in
  if negative l || negative o then Rejected
  else
    let rest :=
      match o with Some z => skipn (Z.to_nat z) rows | None => rows end in
    Resolved (match l with Some z => firstn (Z.to_nat z) rest | None => rest end).

(** [a] may come before [b] under [ORDER BY created_at DESC]. *)
Definition not_older {A} (created_at : A -> Z) : relation A :=
  fun a b => created_at b <= created_at a.

#[global] Instance not_older_dec {A} (created_at : A -> Z) :
  RelDecision (not_older created_at).
Proof. intros a b. unfold not_older. apply _. Defined.

(** [ORDER BY created_at DESC]; rows created at the same instant come in
    an order the store is free to choose, here the one the sort leaves. *)
Definition newest_first {A} (created_at : A -> Z) (rows : list A) : list A :=
  merge_sort (not_older created_at) rows.

(** A filter a statement may or may not have: [None] when its text has no
    such condition. *)
Definition optional_pattern (p : option (option string))
  : outcome (option (option (list tok))) :=
  match p with
  | None => Resolved None
  | Some p =>
      match pattern p with
      | Resolved ts => Resolved (Some ts)
      | Rejected => Rejected
      end
  end.

Definition passes (column : option string) (f : option (option (list tok)))
  : bool :=
  match f with
  | None => true
  | Some ts => lower_like column ts
  end.

(** A numeric(10,2), as a count of hundredths: [n / c] rounded to the
    nearest integer, a tie away from zero ([c] positive). *)
Definition round_div (n c : Z) : Z :=
  if 0 <=? n then (2 * n + c) / (2 * c) else - ((2 * (- n) + c) / (2 * c)).

End PgRead.
Export PgRead.

(** ** routes/books.js: the handlers that read *)

Module Reads.

Local Open Scope query_scope.

(** [`${v}`] *)
Definition to_string (v : jsval) : string :=
  match v with
  | JUndefined => "undefined"
  | JNull => "null"
  | JBool b => if b then "true" else "false"
  | JNum n => show_int n
  | JStr s => s
  end.

(** [const { k = d } = ...]: the default stands in for [undefined] only. *)
Definition default_to (v d : jsval) : jsval :=
  match v with JUndefined => d | _ => v end.

(** Numbers computed by the handlers; [None] is [NaN].  The arithmetic is
    that of the integers, as that of doubles is as long as no value leaves
    the range of -2^53 to 2^53. *)
Definition sub_num (a b : option Z) : option Z :=
  match a, b with Some x, Some y => Some (x - y) | _, _ => None end.

Definition mul_num (a b : option Z) : option Z :=
  match a, b with Some x, Some y => Some (x * y) | _, _ => None end.

(** A number as the driver sends it. *)
Definition param_num (n : option Z) : option string :=
  Some match n with Some z => show_int z | None => "NaN" end.

(** What a reading handler reads of the request: the query string and the
    [:id] path segment. *)
Record read_request : Type := mk_read_request {
  rq_query : obj;
  rq_params_id : string }.

(** A review as GET /books/:id lists it. *)
Record review_view : Type := mk_view {
  v_id : Z;
  v_rating : option Z;
  v_comment : option string;
  v_created_at : Z;
  v_email : string }.

(** The bodies of the answers; a number that is [NaN] goes out as
    [null]. *)
Inductive read_json : Type :=
| ReadError (error : string)
| FoundBooks (rows : list book_row)
| PageOfBooks (page limit : option Z) (books : list book_row)
| BookDetail (book : book_row) (average_rating : Z)
             (reviews : list review_view) (reviewPage reviewLimit : option Z).

Record answer : Type := mk_answer { a_status : Z; a_body : read_json }.

Definition reader : Type := db -> answer * db.

Definition read_failed : answer :=
  mk_answer 500 (ReadError "Internal server error").

Definition try_read (block : query answer) (on_error : answer) : reader :=
  fun d =>
    match block d with
    | (Resolved r, d') => (r, d')
    | (Rejected, d') => (on_error, d')
    end.

(** A statement as handed to [db.query]: its text and its parameters, as
    the driver sends them. *)
Record statement : Type := mk_statement {
  sql : string;
  params : list (option string) }.

Definition placeholder (i : Z) : string := ("$" ++ show_int i)%string.

(** The statement [router.get('/', ...)] builds: [conditions], [params]
    and [paramIndex] as the handler threads them. *)
Definition list_books_statement (query : obj) : statement :=
  let page := default_to (get query "page") (JNum 1) in
  let limit := default_to (get query "limit") (JNum 10) in
  let author := get query "author" in
  let genre := get query "genre" in
  let offset := mul_num (sub_num (to_number page) (Some 1)) (to_number limit) in
  let baseQuery := "SELECT * FROM books" in
  let conditions : list string := [] in
  let params : list (option string) := [] in
  let paramIndex := 1 in
  let '(conditions, params, paramIndex) :=
    if truthy author then
      ((conditions
          ++ [("LOWER(author) LIKE LOWER(" ++ placeholder paramIndex ++ ")")%string])%list,
       (params ++ [Some ("%" ++ to_string author ++ "%")%string])%list,
       paramIndex + 1)
    else (conditions, params, paramIndex) in
  let '(conditions, params, paramIndex) :=
    if truthy genre then
      ((conditions
          ++ [("LOWER(genre) LIKE LOWER(" ++ placeholder paramIndex ++ ")")%string])%list,
       (params ++ [Some ("%" ++ to_string genre ++ "%")%string])%list,
       paramIndex + 1)
    else (conditions, params, paramIndex) in
  let baseQuery :=
    if (0 <? length conditions)%nat
    then (baseQuery ++ " WHERE " ++ String.concat " AND " conditions)%string
    else baseQuery in
  let baseQuery :=
    (baseQuery ++ " ORDER BY created_at DESC LIMIT " ++ placeholder paramIndex
       ++ " OFFSET " ++ placeholder (paramIndex + 1))%string in
  let params := (params ++ [param limit; param_num offset])%list in
  mk_statement baseQuery params.

(** SELECT * FROM books [WHERE LOWER(author) LIKE LOWER($a)]
    [AND LOWER(genre) LIKE LOWER($g)] ORDER BY created_at DESC
    LIMIT $l OFFSET $o.  [None] for a filter the text does not have. *)
Definition select_books_page (author genre : option (option string))
           (limit offset : option string) : query (list book_row) :=
  a <- lift (optional_pattern author) ;;
  g <- lift (optional_pattern genre) ;;
  l <- lift (int8 limit) ;;
  o <- lift (int8 offset) ;;
  rows <- read (fun d =>
            newest_first b_created_at
              (filter (fun b => passes (Some (b_author b)) a
                                && passes (b_genre b) g = true)
                      (books d))) ;;
  lift (limit_offset l o rows).

(** The four texts [router.get('/', ...)] can send. *)
Definition books_all : string :=
  "SELECT * FROM books ORDER BY created_at DESC LIMIT $1 OFFSET $2".

Definition books_by_author : string :=
  "SELECT * FROM books WHERE LOWER(author) LIKE LOWER($1) ORDER BY created_at DESC LIMIT $2 OFFSET $3".

Definition books_by_genre : string :=
  "SELECT * FROM books WHERE LOWER(genre) LIKE LOWER($1) ORDER BY created_at DESC LIMIT $2 OFFSET $3".

Definition books_by_author_and_genre : string :=
  "SELECT * FROM books WHERE LOWER(author) LIKE LOWER($1) AND LOWER(genre) LIKE LOWER($2) ORDER BY created_at DESC LIMIT $3 OFFSET $4".

(** [db.query(baseQuery, params)] for the listing: the store runs the text
    it is sent with the parameters it is sent, and refuses a text it cannot
    read or a number of parameters that is not that of the text. *)
Definition db_query_books (st : statement) : query (list book_row) :=
  if String.eqb (sql st) books_all then
    match params st with
    | [l; o] => select_books_page None None l o
    | _ => throw
    end
  else if String.eqb (sql st) books_by_author then
    match params st with
    | [a; l; o] => select_books_page (Some a) None l o
    | _ => throw
    end
  else if String.eqb (sql st) books_by_genre then
    match params st with
    | [g; l; o] => select_books_page None (Some g) l o
    | _ => throw
    end
  else if String.eqb (sql st) books_by_author_and_genre then
    match params st with
    | [a; g; l; o] => select_books_page (Some a) (Some g) l o
    | _ => throw
    end
  else throw.

(** [router.get('/', ...)] *)
Definition get_books (req : read_request) : reader :=
  let page := default_to (get (rq_query req) "page") (JNum 1) in
  let limit := default_to (get (rq_query req) "limit") (JNum 10) in
  try_read
    (result <- db_query_books (list_books_statement (rq_query req)) ;;
     ret (mk_answer 200
            (PageOfBooks (to_number page) (to_number limit) result)))
    read_failed.

(** SELECT * FROM books WHERE LOWER(title) LIKE LOWER($1)
    OR LOWER(author) LIKE LOWER($1); the rows come in the order of the
    table. *)
Definition search_books (p : option string) : query (list book_row) :=
  ts <- lift (pattern p) ;;
  read (fun d =>
    filter (fun b => lower_like (Some (b_title b)) ts
                     || lower_like (Some (b_author b)) ts = true)
           (books d)).

(** [router.get('/search', ...)] *)
Definition get_search (req : read_request) : reader :=
  let searchQuery := get (rq_query req) "query" in
  if negb (truthy searchQuery) then
    fun d => (mk_answer 400 (ReadError "Missing search query"), d)
  else
    try_read
      (result <- search_books (Some ("%" ++ to_string searchQuery ++ "%")%string) ;;
       ret (mk_answer 200 (FoundBooks result)))
      read_failed.

(** SELECT * FROM books WHERE id = $1 *)
Definition select_book (bookId : jsval) : query (list book_row) :=
  b <- lift (int4 (param bookId)) ;;
  read (fun d => filter (fun r => id_is b (b_id r) = true) (books d)).

Definition sum_of (l : list Z) : Z := fold_right Z.add 0 l.

(** SELECT AVG(rating)::numeric(10,2) AS average_rating FROM reviews
    WHERE book_id = $1, in hundredths; NULL when no rating counts, and a
    rejection when the value does not fit ten digits.  AVG itself carries
    sixteen significant digits into the cast, which with fewer than 10^13
    ratings rounds the exact average. *)
Definition select_average_rating (bookId : jsval) : query (option Z) :=
  b <- lift (int4 (param bookId)) ;;
  ratings <- read (fun d =>
               omap r_rating
                    (filter (fun r => col_is b (r_book_id r) = true) (reviews d))) ;;
  match ratings with
  | [] => ret None
  | _ =>
      let average := round_div (100 * sum_of ratings) (Z.of_nat (length ratings)) in
      if Z.abs average <? 10 ^ 10 then ret (Some average) else throw
  end.

Definition view (r : review_row) (u : user_row) : review_view :=
  mk_view (r_id r) (r_rating r) (r_comment r) (r_created_at r) (u_email u).

(** SELECT r.id, r.rating, r.comment, r.created_at, u.email
    FROM reviews r JOIN users u ON r.user_id = u.id WHERE r.book_id = $1
    ORDER BY r.created_at DESC LIMIT $2 OFFSET $3 *)
Definition select_book_reviews (bookId : jsval) (limit offset : option string)
  : query (list review_view) :=
  b <- lift (int4 (param bookId)) ;;
  l <- lift (int8 limit) ;;
  o <- lift (int8 offset) ;;
  rows <- read (fun d =>
            newest_first v_created_at
              (flat_map
                 (fun r =>
                    map (view r)
                        (filter (fun u => col_is (Some (u_id u)) (r_user_id r) = true)
                                (users d)))
                 (filter (fun r => col_is b (r_book_id r) = true) (reviews d)))) ;;
  lift (limit_offset l o rows).

(** [router.get('/:id', ...)]; [average_rating || 0] and [parseFloat] make
    of a NULL average the number 0. *)
Definition get_book (req : read_request) : reader :=
  let bookId := JStr (rq_params_id req) in
  let reviewPage := default_to (get (rq_query req) "reviewPage") (JNum 1) in
  let reviewLimit := default_to (get (rq_query req) "reviewLimit") (JNum 5) in
  let reviewOffset :=
    mul_num (sub_num (to_number reviewPage) (Some 1)) (to_number reviewLimit) in
  try_read
    (bookResult <- select_book bookId ;;
     match bookResult with
     | [] => ret (mk_answer 404 (ReadError "Book not found"))
     | book :: _ =>
         avgRatingResult <- select_average_rating bookId ;;
         let average_rating :=
           match avgRatingResult with Some a => a | None => 0 end in
         reviewsResult <-
           select_book_reviews bookId (param reviewLimit) (param_num reviewOffset) ;;
         ret (mk_answer 200
                (BookDetail book average_rating reviewsResult
                            (to_number reviewPage) (to_number reviewLimit)))
     end)
    read_failed.

End Reads.
Export Reads.

(** ** A shelf to read from *)

Module DemoReads.

Import Demo.

Definition emma : book_row :=
  mk_book 2 "Emma" "Jane Austen" (Some "Novel") None 170.

Definition persuasion : book_row :=
  mk_book 3 "Persuasion" "Jane Austen" (Some "novel") None 180.

Definition shelf : db :=
  mk_db [alice] 1 [dune; emma; persuasion] 3 [alice_on_dune] 1.


Definition asking (q : obj) (id : string) : read_request :=
  mk_read_request q id.

Definition titled (title author : string) : request :=
  mk_request [("title", JStr title); ("author", JStr author)] "" None [].

(** A request on the path parameter [id] by the requester [user]. *)
Definition reviewing (body : obj) (id : string) (user : obj) : request :=
  mk_request body id None user.

(** Some calls, of which some succeed and some are refused. *)
Definition traffic : list call :=
  [ Signup "salt" 300 (credentials "b@x.com" "p2");
    PostBook 310 (titled "Emma" "Jane Austen");
    PostReview 320 (reviewing [("rating", JNum 5)] "2" [("id", JNum 2)]);
    PostReview 330 (reviewing [("rating", JNum 9)] "2" [("id", JNum 2)]);
    PutReview (reviewing [("rating", JNum 1)] "1" []);
    DeleteReview (reviewing [] "2" []) ].

End DemoReads.

(** ** What the answers are stated against *)

Module Expected.


(** The rating and the comment a PUT leaves in the row: what the body
    gives, and the stored one for what it omits; [null] clears the
    comment. *)
Definition merged_rating (rating : option Z) (row : review_row) : option Z :=
  match rating with Some z => Some z | None => r_rating row end.

Definition merged_comment (comment : option (option string)) (row : review_row)
  : option string :=
  match comment with Some c => c | None => r_comment row end.

(** A text without a digit: what no version of the store reads as an
    integer. *)
Definition is_digit (c : ascii) : bool :=
  let n := nat_of_ascii c in (48 <=? n)%nat && (n <=? 57)%nat.

Fixpoint no_digit (s : string) : bool :=
  match s with
  | EmptyString => true
  | String c t => negb (is_digit c) && no_digit t
  end.

(** A text of ASCII characters alone. *)
Fixpoint ascii_text (s : string) : bool :=
  match s with
  | EmptyString => true
  | String c t => (nat_of_ascii c <? 128)%nat && ascii_text t
  end.

Definition ascii_column (column : option string) : bool :=
  match column with
  | Some s => ascii_text s
  | None => true
  end.

(** A character that LIKE does not read as itself. *)
Definition wildcard (c : ascii) : bool :=
  Ascii.eqb c "%" || Ascii.eqb c "_" || Ascii.eqb c "\".

(** A text without such characters. *)
Fixpoint plain (s : string) : bool :=
  match s with
  | EmptyString => true
  | String c t => negb (wildcard c) && plain t
  end.

(** A text as a pattern that stands for itself. *)
Definition lits (k : string) : list tok := map Lit (list_ascii_of_string k).

(** A text of nothing but [%]. *)
Fixpoint all_percent (s : string) : bool :=
  match s with
  | EmptyString => true
  | String c t => Ascii.eqb c "%" && all_percent t
  end.

(** [k] occurs in [s]. *)
Fixpoint contains (k s : string) : bool :=
  String.prefix k s
  || match s with
     | String _ s' => contains k s'
     | EmptyString => false
     end.

(** [k] occurs in the column, letter case apart; never in a NULL. *)
Definition mentions (k : string) (column : option string) : bool :=
  match column with
  | Some s => contains (lower k) (lower s)
  | None => false
  end.

(** The keyword a query parameter gives, if it gives one. *)
Definition keyword (v : jsval) : option string :=
  if truthy v then Some (to_string v) else None.

Definition wanted (k : option string) (column : option string) : bool :=
  match k with
  | Some k => mentions k column
  | None => true
  end.

(** The books a listing with these [author] and [genre] parameters is
    about. *)
Definition listed (author genre : jsval) (b : book_row) : bool :=
  wanted (keyword author) (Some (b_author b))
  && wanted (keyword genre) (b_genre b).

(** What the listing pushes on [params] for a keyword. *)
Definition pushed (k : option string) : list (option string) :=
  match k with
  | Some k => [Some ("%" ++ k ++ "%")%string]
  | None => []
  end.

(** A numeric query parameter: left out, so that the default stands, or
    the decimal digits of [n]. *)
Definition given (v : jsval) (default n : Z) : Prop :=
  (v = JUndefined /\ n = default) \/ v = JStr (show_int n).

(** The numbers on which the arithmetic of the handlers is exact. *)
Definition exact (n : Z) : Prop := - 2 ^ 53 <= n <= 2 ^ 53.

(** The ratings of the reviews of a book. *)
Definition ratings_of (k : Z) (d : db) : list Z :=
  omap r_rating (filter (fun r => r_book_id r = Some k) (reviews d)).

Section WithLibraries.

Context `{Bcrypt} `{Hs256}.

(** The clocks of a run of renewals: each less than a minute after the
    one before. *)
Fixpoint each_within_a_minute (t0 : Z) (clocks : list Z) : Prop :=
  match clocks with
  | [] => True
  | t :: rest => t < t0 + 60 /\ each_within_a_minute t rest
  end.

(** Renewing over and over: the access token of one answer is the cookie
    of the next request. *)
Fixpoint renew_repeatedly (e : env) (token : wire) (clocks : list Z) (d : db)
  : option wire :=
  match clocks with
  | [] => Some token
  | now :: rest =>
      match body (fst (refresh_token e now
                         (mk_request [] "" (Some token) []) d)) with
      | JsonAccessToken t => renew_repeatedly e t rest d
      | _ => None
      end
  end.

End WithLibraries.

End Expected.
Export Expected.

(** * Properties *)

(** ** Texts *)

Module TextFacts.

Lemma has_nul_take (n : nat) (s : string) :
  has_nul s = false -> has_nul (take n s) = false.
Proof.
  revert s; induction n as [|n IH]; intros s; [now destruct s|].
  destruct s as [|c t]; simpl; [reflexivity|].
  intros E. apply orb_false_iff in E as [Ec Et].
  now rewrite Ec, IH.
Qed.

End TextFacts.

(** ** The demo libraries satisfy the interface *)

Module DemoFacts.

Import Demo.

Lemma length_fit n s : String.length (fit n s) = n.
Proof.
  revert s; induction n as [|n IH]; intros s; simpl; [reflexivity|].
  destruct s; simpl; now rewrite IH.
Qed.

Lemma has_nul_fit n s : has_nul (fit n s) = false.
Proof.
  revert s; induction n as [|n IH]; intros s; simpl; [reflexivity|].
  destruct s as [|c t]; simpl; [apply IH|].
  rewrite IH, orb_false_r.
  destruct (Ascii.eqb c zero) eqn:E; [reflexivity | exact E].
Qed.

Lemma has_nul_append a b : has_nul (a ++ b)%string = has_nul a || has_nul b.
Proof.
  induction a as [|c a IH]; simpl; [reflexivity|].
  now rewrite IH, orb_assoc.
Qed.

Lemma drop_fit_append n s b : drop n (fit n s ++ b)%string = b.
Proof.
  revert s; induction n as [|n IH]; intros s; simpl.
  - now destruct b.
  - destruct s; simpl; apply IH.
Qed.

Lemma length_append a b :
  String.length (a ++ b)%string = (String.length a + String.length b)%nat.
Proof. induction a as [|c a IH]; simpl; [reflexivity | now rewrite IH]. Qed.

#[export] Instance demo_bcrypt : Bcrypt.
Proof.
  refine {| hash_with_salt := demo_hash; compare_hash := demo_compare |}.
  - intros p salt. unfold demo_compare, demo_hash.
    rewrite drop_fit_append. apply String.eqb_refl.
  - intros p salt. unfold demo_hash.
    now rewrite length_append, !length_fit.
  - intros p salt. unfold demo_hash.
    now rewrite has_nul_append, !has_nul_fit.
Defined.

End DemoFacts.

(** ** Values, parameters and statements *)

Module Facts.

#[global] Arguments int4 : simpl never.
#[global] Arguments show_int : simpl never.
#[global] Arguments read_int : simpl never.
#[global] Arguments has_nul : simpl never.
#[global] Arguments varchar : simpl never.

Lemma read_int_show_int (n : Z) : read_int (show_int n) = Some n.
Proof.
  unfold read_int, show_int.
  rewrite NilZero.isi.
  - now rewrite DecimalZ.of_to.
  - destruct n; cbn; try discriminate.
    intros [= E]. now apply DecimalPos.Unsigned.to_uint_nonnil in E.
  - destruct n; cbn; try discriminate.
    intros [= E]. now apply DecimalPos.Unsigned.to_uint_nonnil in E.
Qed.

Lemma int4_show_int (n : Z) :
  int4_min <= n <= int4_max -> int4 (Some (show_int n)) = Resolved (Some n).
Proof.
  intros [Hlo Hhi]. unfold int4. rewrite read_int_show_int.
  apply Z.leb_le in Hlo, Hhi. now rewrite Hlo, Hhi.
Qed.

Lemma id_is_true (k : option Z) (id : Z) : id_is k id = true <-> k = Some id.
Proof.
  destruct k as [z|]; simpl; [|split; discriminate].
  rewrite Z.eqb_eq. split; congruence.
Qed.

Lemma head_filter_hit {A} (P : A -> Prop) `{!forall x, Decision (P x)}
      (l : list A) (x : A) :
  x ∈ l -> P x -> exists y l', filter P l = y :: l' /\ P y /\ y ∈ l.
Proof.
  intros Hin HP.
  destruct (filter P l) as [|y l'] eqn:E.
  - exfalso. eapply filter_nil_not_elem_of; eauto.
  - exists y, l'. split; [reflexivity|].
    assert (Hy : y ∈ filter P l) by (rewrite E; left).
    apply list_elem_of_filter in Hy. tauto.
Qed.

End Facts.

(** ** Statements that leave a table alone *)

Module StoreFacts.

Section Frame.

Context {X : Type} (table : db -> X).

Lemma keeps_ret {A} (a : A) : keeps table (ret a).
Proof. now intros d. Qed.

Lemma keeps_throw {A} : keeps table (@throw A).
Proof. now intros d. Qed.

Lemma keeps_lift {A} (o : outcome A) : keeps table (lift o).
Proof. now intros d. Qed.

Lemma keeps_read {A} (f : db -> A) : keeps table (read f).
Proof. now intros d. Qed.

Lemma keeps_guard (b : bool) : keeps table (guard b).
Proof. now destruct b; intros d. Qed.

Lemma keeps_bind {A B} (m : query A) (k : A -> query B) :
  keeps table m -> (forall a, keeps table (k a)) -> keeps table (bind m k).
Proof.
  intros Hm Hk d. unfold bind. specialize (Hm d).
  destruct (m d) as [[a|] d']; cbn [snd] in *; [|exact Hm].
  now rewrite Hk.
Qed.

Lemma keeps_try_catch (block : query response) (on_error : response) (d : db) :
  keeps table block -> table (snd (try_catch block on_error d)) = table d.
Proof.
  intros Hb. unfold try_catch. specialize (Hb d).
  now destruct (block d) as [[r|] d'].
Qed.

End Frame.

Create HintDb frame discriminated.
#[export] Hint Resolve keeps_ret keeps_throw keeps_lift keeps_read keeps_guard
  : frame.

(** Walks a block of statements: binds, branches, and at the leaves either a
    statement of the hint base or one that visibly rebuilds the table as it
    was. *)
Ltac frame :=
  repeat first
    [ solve [auto with frame]
    | apply keeps_bind; [|intros ?]
    | match goal with
      | |- keeps _ (if ?b then _ else _) => destruct b
      | |- keeps _ (match ?x with _ => _ end) => destruct x
      end
    | solve [intros ?; reflexivity] ].

End StoreFacts.

(** ** Review update and delete: the requester plays no part *)

Module ReviewOwnership.

Import Facts.

(** C1.  PUT /books/reviews/:id and DELETE /books/reviews/:id select the
    review by its id alone and never compare its [user_id] with the acting
    user.  (1) Two runs that differ only in [req.user] give the same
    response and the same store.  (2) For every stored review and every
    requester, the delete handler answers 200 and removes every row with
    that id, and the update handler, given an in-range rating and a
    comment, answers 200 with the rewritten row and rewrites every row
    with that id: whoever the requester is. *)
Theorem update_delete_ignore_requester :
  (forall (req : request) (u1 u2 : obj) (d : db),
      put_review (as_requester u1 req) d = put_review (as_requester u2 req) d
      /\ delete_review (as_requester u1 req) d
         = delete_review (as_requester u2 req) d)
  /\
  (forall (row : review_row) (d : db) (requester body : obj)
          (ck : option wire),
      row ∈ reviews d ->
      int4_min <= r_id row <= int4_max ->
      delete_review (mk_request body (show_int (r_id row)) ck requester) d
      = (send 200 (JsonMessage "Review deleted successfully"),
         set_reviews d (filter (fun r => r_id r <> r_id row) (reviews d)))
      /\
      forall (rating : Z) (comment : string),
        1 <= rating <= 5 ->
        has_nul comment = false ->
        exists row',
          row' ∈ reviews d /\ r_id row' = r_id row /\
          put_review
            (mk_request [("rating", JNum rating); ("comment", JStr comment)]
                        (show_int (r_id row)) ck requester) d
          = (send 200 (JsonReview
                         (Some (set_rating_comment (Some rating) (Some comment) row'))),
             set_reviews d (map (rewrite_row (r_id row) rating comment) (reviews d)))).
Proof.
  split; [intros; split; reflexivity|].
  intros row d requester body ck Hin Hrange.
  pose proof (int4_show_int _ Hrange) as Hk.
  destruct (head_filter_hit (fun r => id_is (Some (r_id row)) (r_id r) = true)
              (reviews d) row Hin) as (y & l' & Hf & Hy & Hyin).
  { now apply id_is_true. }
  split.
  - unfold delete_review, try_catch, select_review, delete_review_row,
      bind, lift, read, ret; simpl.
    rewrite Hk, Hf. simpl. do 2 f_equal.
    apply list_filter_iff. intros r.
    destruct (Z.eqb_spec (r_id row) (r_id r)); split; congruence.
  - intros rating comment Hr Hc.
    exists y. split; [exact Hyin|]. split.
    { apply id_is_true in Hy. congruence. }
    unfold put_review. simpl.
    assert (Hlt : lt_num (JNum rating) 1 = false)
      by (unfold lt_num; simpl; apply Z.ltb_ge; lia).
    assert (Hgt : gt_num (JNum rating) 5 = false)
      by (unfold gt_num; simpl; apply Z.ltb_ge; lia).
    rewrite Hlt, Hgt. simpl. rewrite andb_false_r.
    assert (Hz : (rating =? 0) = false) by (apply Z.eqb_neq; lia).
    unfold try_catch, select_review, update_review, bind, lift, read, ret,
      guard, or_else; simpl.
    rewrite Hk, Hf, Hz. cbn [negb param].
    rewrite (int4_show_int rating) by (unfold int4_min, int4_max; lia).
    rewrite Hc.
    assert (Hck : (1 <=? rating) && (rating <=? 5) = true)
      by (apply andb_true_iff; split; apply Z.leb_le; lia).
    cbn [check_rating]. rewrite Hf, Hck. reflexivity.
Qed.

End ReviewOwnership.

(** ** Tokens as issued and as verified *)

Module TokenFacts.

Section WithSignature.

Context `{Hs256}.

Lemma get_signed_email (email : jsval) (ttl now : Z) :
  get (signed_claims email ttl now) "email" = email.
Proof. destruct email; reflexivity. Qed.

Lemma get_signed_iat (email : jsval) (ttl now : Z) :
  get (signed_claims email ttl now) "iat" = JNum now.
Proof. destruct email; reflexivity. Qed.

Lemma get_signed_exp (email : jsval) (ttl now : Z) :
  get (signed_claims email ttl now) "exp" = JNum (now + ttl).
Proof. destruct email; reflexivity. Qed.

Lemma get_signed_nbf (email : jsval) (ttl now : Z) :
  get (signed_claims email ttl now) "nbf" = JUndefined.
Proof. destruct email; reflexivity. Qed.



Lemma jwt_sign_resolved (email : jsval) (secret : option string)
      (ttl now : Z) (w : wire) :
  jwt_sign email secret ttl now = Resolved w <->
  exists k, secret_key secret = Some k /\ w = Token (issue k email ttl now).
Proof.
  unfold jwt_sign. destruct (secret_key secret) as [k|].
  - split; [intros [= <-]; eauto | intros (k' & [= <-] & ->); reflexivity].
  - split; [discriminate | intros (k' & [=] & _)].
Qed.

(** A token the server issued verifies under the same secret exactly until
    its [exp]. *)
Lemma jwt_verify_issued (k : string) (secret : option string)
      (email : jsval) (ttl now now' : Z) :
  secret_key secret = Some k ->
  jwt_verify (Token (issue k email ttl now)) secret now'
  = if now' <? now + ttl then Resolved (signed_claims email ttl now)
    else Rejected.
Proof.
  intros Hk. unfold jwt_verify, issue. cbn [claims signature].
  rewrite Hk, String.eqb_refl.
  unfold not_before_ok, not_expired.
  rewrite get_signed_nbf, get_signed_exp. reflexivity.
Qed.

End WithSignature.

End TokenFacts.

(** ** What the auth handlers can answer *)

Module AuthFacts.

Section WithLibraries.

Context `{Bcrypt} `{Hs256}.

(** The refresh handler, branch by branch; the store comes back as it
    went in. *)
Lemma refresh_token_unfold (e : env) (now : Z) (req : request) (d : db) :
  refresh_token e now req d =
  (match req_cookies_refreshToken req with
   | None => send 401 (JsonError "No refresh token")
   | Some w =>
       if wire_truthy w then
         match jwt_verify w (JWT_SECRET e) now with
         | Resolved decoded =>
             match secret_key (JWT_SECRET e) with
             | Some k =>
                 send 200 (JsonAccessToken
                             (Token (issue k (get decoded "email") span_1m now)))
             | None => send 403 (JsonError "Invalid refresh token")
             end
         | Rejected => send 403 (JsonError "Invalid refresh token")
         end
       else send 401 (JsonError "No refresh token")
   end, d).
Proof.
  unfold refresh_token, try_catch, bind, lift, ret, jwt_sign.
  destruct (req_cookies_refreshToken req) as [w|]; [|reflexivity].
  destruct (wire_truthy w); [|reflexivity]. cbn [negb].
  destruct (jwt_verify w (JWT_SECRET e) now); [|reflexivity].
  destruct (secret_key (JWT_SECRET e)); reflexivity.
Qed.

(** Signup with an email some stored user has stops at the first check. *)
Lemma signup_email_taken (salt : string) (now : Z) (req : request) (d : db)
      (u : user_row) :
  u ∈ users d ->
  has_nul (u_email u) = false ->
  param (get (req_body req) "email") = Some (u_email u) ->
  signup salt now req d = (send 400 (JsonError "Email already exists"), d).
Proof.
  intros Hin Hclean He.
  unfold signup, try_catch, select_users_by_email, bind, lift, read, ret.
  rewrite He. cbn [text]. rewrite Hclean.
  destruct (filter (fun u0 => u_email u0 = u_email u) (users d)) as [|x l] eqn:E.
  - exfalso. eapply filter_nil_not_elem_of; [exact E | reflexivity | exact Hin].
  - reflexivity.
Qed.

(** The login handler never writes, and answers in one of four ways. *)
Lemma login_cases (e : env) (now : Z) (req : request) (d : db) :
  snd (login e now req d) = d /\
  (fst (login e now req d) = send 400 (JsonError "Invalid email")
   \/ fst (login e now req d) = send 400 (JsonError "Invalid password")
   \/ fst (login e now req d) = internal_error
   \/ exists k,
       secret_key (JWT_SECRET e) = Some k /\
       fst (login e now req d)
       = mk_response 200
           (JsonAccessToken
              (Token (issue k (get (req_body req) "email") span_1m now)))
           [refresh_cookie
              (Token (issue k (get (req_body req) "email") span_7d now))]).
Proof.
  unfold login, try_catch, select_users_by_email, bind, lift, read, ret,
    text, bcrypt_compare, jwt_sign.
  repeat (case_match; simplify_eq/=); eauto 10.
Qed.

End WithLibraries.

End AuthFacts.

(** ** POST /auth/refresh-token *)

Module RefreshEndpoint.

Import TokenFacts AuthFacts.

Section WithLibraries.

Context `{Bcrypt} `{Hs256}.

Lemma tampered_or_expired_not_valid (k : string) (now : Z) (w : wire) :
  tampered k w \/ expired k now w -> ~ valid_unexpired k now w.
Proof.
  intros [Ht | (t & x & -> & Hs & Hx & Hle)] (t0 & E & Hs0 & Hn0 & Hx0).
  - subst w. now apply Ht.
  - injection E as <-. unfold not_expired in Hx0. rewrite Hx in Hx0.
    apply Z.ltb_lt in Hx0. lia.
Qed.

Lemma rejected_when_not_valid (k : string) (secret : option string)
      (now : Z) (w : wire) :
  secret_key secret = Some k ->
  ~ valid_unexpired k now w ->
  jwt_verify w secret now = Rejected.
Proof.
  intros Hk Hno. destruct w as [s|t]; [reflexivity|].
  cbn [jwt_verify]. rewrite Hk.
  destruct (String.eqb (signature t) (hmac k (claims t))) eqn:Es;
    [|reflexivity].
  destruct (not_before_ok (claims t) now) eqn:En; [|reflexivity].
  destruct (not_expired (claims t) now) eqn:Ex; [|reflexivity].
  exfalso. apply Hno. exists t. apply String.eqb_eq in Es. now repeat split.
Qed.

Lemma present_cookie_truthy (w : wire) : w <> Opaque "" -> wire_truthy w = true.
Proof.
  destruct w as [s|t]; [|reflexivity]. intros Hne. cbn [wire_truthy].
  apply negb_true_iff, String.eqb_neq. intros ->. now apply Hne.
Qed.

(** C2.  With a refresh cookie that verifies (well signed, not expired)
    the handler answers 200 with a new access token: the one signed at this
    clock for the [email] claim of the presented token, with [iat] now and
    [exp] a minute later whatever the dates of the presented one, and
    itself valid.  With no [refreshToken] cookie it answers 401, and so it
    does with a cookie that is present with an empty value.  With a cookie
    of any other value that is tampered (it does not decode, or its
    signature does not match), expired, or fails verification for any other
    reason, it answers 403.  The store is never touched. *)
Theorem refresh_token_status (e : env) (k : string) (now : Z)
        (req : request) (d : db) :
  secret_key (JWT_SECRET e) = Some k ->
  (forall t,
      req_cookies_refreshToken req = Some (Token t) ->
      valid_unexpired k now (Token t) ->
      exists t',
        refresh_token e now req d = (send 200 (JsonAccessToken (Token t')), d)
        /\ t' = issue k (get (claims t) "email") span_1m now
        /\ get (claims t') "email" = get (claims t) "email"
        /\ get (claims t') "iat" = JNum now
        /\ get (claims t') "exp" = JNum (now + 60)
        /\ signature t' = hmac k (claims t')
        /\ valid_unexpired k now (Token t'))
  /\ (req_cookies_refreshToken req = None
      \/ req_cookies_refreshToken req = Some (Opaque "") ->
      refresh_token e now req d = (send 401 (JsonError "No refresh token"), d))
  /\ (forall w,
         req_cookies_refreshToken req = Some w ->
         w <> Opaque "" ->
         tampered k w \/ expired k now w \/ ~ valid_unexpired k now w ->
         refresh_token e now req d
         = (send 403 (JsonError "Invalid refresh token"), d)).
Proof.
  intros Hk. rewrite refresh_token_unfold. split; [|split].
  - intros t Hc (t0 & [= <-] & Hs & Hn & Hx). rewrite Hc.
    cbn [wire_truthy jwt_verify]. rewrite Hk, Hs, String.eqb_refl, Hn, Hx.
    cbn [andb].
    exists (issue k (get (claims t) "email") span_1m now).
    split; [reflexivity|]. split; [reflexivity|].
    cbn [issue claims signature].
    split; [apply get_signed_email|].
    split; [apply get_signed_iat|].
    split; [apply get_signed_exp|].
    split; [reflexivity|].
    eexists. split; [reflexivity|]. cbn [issue claims signature].
    split; [reflexivity|]. unfold not_before_ok, not_expired.
    rewrite get_signed_nbf, get_signed_exp. split; [reflexivity|].
    apply Z.ltb_lt. unfold span_1m. lia.
  - intros [-> | ->]; reflexivity.
  - intros w Hc Hne Hbad. rewrite Hc, (present_cookie_truthy w Hne).
    assert (Hno : ~ valid_unexpired k now w).
    { destruct Hbad as [Ht | [Hx | Hno]]; [| |exact Hno];
        apply tampered_or_expired_not_valid; [now left | now right]. }
    now rewrite (rejected_when_not_valid k _ now w Hk Hno).
Qed.

(** The guard [if (!token)] also catches a cookie that is present with an
    empty value: it is answered like an absent one. *)
Lemma refresh_token_empty_cookie (e : env) (now : Z) (req : request) (d : db) :
  req_cookies_refreshToken req = Some (Opaque "") ->
  refresh_token e now req d = (send 401 (JsonError "No refresh token"), d).
Proof. intros Hc. rewrite refresh_token_unfold, Hc. reflexivity. Qed.

(** C9.  The refresh handler never sets a cookie and never writes to the
    store; when it answers 200 its body is a newly signed access token (one
    minute to live, issued now), and nothing else: the refresh token in the
    client's cookie is neither replaced nor re-issued. *)
Theorem refresh_token_sets_no_cookie (e : env) (now : Z) (req : request)
        (d : db) :
  cookies_set (fst (refresh_token e now req d)) = []
  /\ snd (refresh_token e now req d) = d
  /\ (status (fst (refresh_token e now req d)) = 200 ->
      exists k decoded w,
        req_cookies_refreshToken req = Some w
        /\ secret_key (JWT_SECRET e) = Some k
        /\ jwt_verify w (JWT_SECRET e) now = Resolved decoded
        /\ body (fst (refresh_token e now req d))
           = JsonAccessToken
               (Token (issue k (get decoded "email") span_1m now))).
Proof.
  rewrite refresh_token_unfold. cbn [fst snd].
  repeat split; repeat case_match; try reflexivity; cbn; try discriminate.
  intros _. eauto 10.
Qed.

(** The answer of the refresh handler is the same on any two stores, and
    the store is handed back untouched. *)
Lemma refresh_token_stateless (e : env) (now : Z) (req : request)
      (d1 d2 : db) :
  fst (refresh_token e now req d1) = fst (refresh_token e now req d2)
  /\ snd (refresh_token e now req d1) = d1.
Proof. now rewrite !refresh_token_unfold. Qed.

(** C6.  The refresh handler reads and writes no persisted state: same
    cookie, same clock, same process secret give the same response on any
    two stores, and the store is handed back as it was.  And a refresh
    token issued by a successful login at clock [t0] is accepted (200, a
    new access token for the same email) at every clock before
    [t0 + 7 days], whatever the store has become, and refused (403) from
    then on: nothing but its expiry ends its life. *)
Theorem refresh_token_lives_seven_days :
  (forall (e : env) (now : Z) (req : request) (d1 d2 : db),
      fst (refresh_token e now req d1) = fst (refresh_token e now req d2)
      /\ snd (refresh_token e now req d1) = d1)
  /\
  (forall (e : env) (t0 : Z) (lreq : request) (d0 : db) (c : cookie),
      status (fst (login e t0 lreq d0)) = 200 ->
      c ∈ cookies_set (fst (login e t0 lreq d0)) ->
      forall (now : Z) (req : request) (d : db),
        req_cookies_refreshToken req = Some (c_value c) ->
        (now < t0 + 7 * 24 * 60 * 60 ->
         exists t,
           refresh_token e now req d = (send 200 (JsonAccessToken (Token t)), d)
           /\ get (claims t) "email" = get (req_body lreq) "email")
        /\ (t0 + 7 * 24 * 60 * 60 <= now ->
            refresh_token e now req d
            = (send 403 (JsonError "Invalid refresh token"), d))).
Proof.
  split; [intros; apply refresh_token_stateless|].
  intros e t0 lreq d0 c Hst Hc now req d Hck.
  destruct (login_cases e t0 lreq d0) as [_ [E | [E | [E | (k & Hk & E)]]]];
    rewrite E in Hst, Hc; try discriminate Hst.
  cbn [cookies_set] in Hc. apply list_elem_of_singleton in Hc. subst c.
  cbn [refresh_cookie c_value] in Hck.
  rewrite refresh_token_unfold, Hck. cbn [wire_truthy].
  rewrite (jwt_verify_issued k _ _ _ _ _ Hk), Hk.
  change span_7d with (7 * 24 * 60 * 60).
  split; intros Hnow.
  - assert (L : (now <? t0 + 7 * 24 * 60 * 60) = true) by (apply Z.ltb_lt; lia).
    rewrite L. eexists. split; [reflexivity|].
    cbn [issue claims]. now rewrite !get_signed_email.
  - assert (L : (now <? t0 + 7 * 24 * 60 * 60) = false) by (apply Z.ltb_ge; lia).
    now rewrite L.
Qed.

End WithLibraries.

End RefreshEndpoint.

(** ** The users table *)

Module UsersFacts.

Lemma filter_email_absent (email : string) (us : list user_row) :
  (forall u, u ∈ us -> u_email u <> email) ->
  filter (fun u => u_email u = email) us = [].
Proof.
  induction us as [|u us IH]; intros Hno; [reflexivity|].
  rewrite filter_cons_False by (apply Hno; left).
  apply IH. intros u' Hu'. apply Hno. now right.
Qed.

Lemma filter_email_unique (u : user_row) (us : list user_row) :
  NoDup (map u_email us) -> u ∈ us ->
  filter (fun u' => u_email u' = u_email u) us = [u].
Proof.
  induction us as [|x us IH]; intros Hnd Hin; [now apply elem_of_nil in Hin|].
  cbn [map] in Hnd. apply NoDup_cons in Hnd as [Hx Hnd].
  apply elem_of_cons in Hin as [-> | Hin].
  - rewrite filter_cons_True by reflexivity. f_equal.
    apply filter_email_absent. intros u' Hu' E. apply Hx.
    rewrite <- E. apply list_elem_of_fmap. now exists u'.
  - rewrite filter_cons_False.
    + now apply IH.
    + intros E. apply Hx. rewrite E. apply list_elem_of_fmap. now exists u.
Qed.

Lemma existsb_email_absent (email : string) (us : list user_row) :
  (forall u, u ∈ us -> u_email u <> email) ->
  existsb (fun u => String.eqb (u_email u) email) us = false.
Proof.
  induction us as [|u us IH]; intros Hno; [reflexivity|]. cbn [existsb].
  rewrite IH by (intros u' Hu'; apply Hno; now right).
  rewrite orb_false_r. apply String.eqb_neq. apply Hno. left.
Qed.

Lemma existsb_email_false (email : string) (us : list user_row) :
  existsb (fun u => String.eqb (u_email u) email) us = false ->
  email ∉ map u_email us.
Proof.
  induction us as [|u us IH]; cbn [existsb map]; intros E.
  - apply not_elem_of_nil.
  - apply orb_false_iff in E as [E1 E2]. apply not_elem_of_cons. split.
    + apply String.eqb_neq in E1. congruence.
    + now apply IH.
Qed.

End UsersFacts.

(** ** The users table under the calls of the API *)

Module UsersInvariant.

Import Facts TextFacts StoreFacts UsersFacts AuthFacts.

Section WithLibraries.

Context `{Bcrypt} `{Hs256}.

(** A signup leaves [users] alone or appends one row, whose email is a
    clean text that no stored user has. *)
Lemma users_after_signup (salt : string) (now : Z) (req : request) (d : db) :
  users (snd (signup salt now req d)) = users d
  \/ exists e p,
      users (snd (signup salt now req d))
      = (users d ++ [mk_user (users_id_seq d + 1) e p now])%list
      /\ has_nul e = false
      /\ e ∉ map u_email (users d).
Proof.
  unfold signup, try_catch, select_users_by_email, insert_user,
    nextval_users, guard, bind, lift, read, ret, throw, text.
  destruct (param (get (req_body req) "email")) as [s|]; cbn iota beta.
  - destruct (has_nul s) eqn:Hs; [now left|]. cbn iota beta.
    destruct (0 <? length _)%nat; [now left|].
    destruct (bcrypt_hash _ salt) as [h|]; [|now left]. cbn [param].
    cbn iota beta.
    destruct (has_nul h); [now left|]. cbn iota beta.
    assert (Hstored :
      forall e, varchar 255 (Some s) = Resolved (Some e) -> has_nul e = false).
    { unfold varchar. intros e.
      destruct (String.length s <=? 255)%nat; [now intros [= <-]|].
      destruct (all_spaces _); [|discriminate].
      intros E. assert (E' : e = take 255 s) by congruence.
      rewrite E'. now apply has_nul_take. }
    destruct (varchar 255 (Some s)) as [[e|]|];
      destruct (varchar 255 (Some h)) as [[p|]|]; try (now left).
    cbn [not_null users]. cbn iota beta.
    destruct (existsb _ (users d)) eqn:Ex; [now left|].
    right. exists e, p. split; [reflexivity|]. split.
    + now apply Hstored.
    + now apply existsb_email_false.
  - cbn [length Nat.ltb Nat.leb].
    destruct (bcrypt_hash _ salt) as [h|]; [|now left]. cbn [param].
    destruct (has_nul h); [now left|].
    change (varchar 255 None) with (@Resolved (option string) None).
    cbn iota beta. destruct (varchar 255 (Some h)) as [[p|]|]; now left.
Qed.

(** No other call writes to [users]. *)
Lemma users_after_other_calls (c : call) (d : db) :
  match c with
  | Signup _ _ _ => True
  | _ => users (snd (run c d)) = users d
  end.
Proof.
  destruct c as [salt now req|e now req|e now req|now req|now req|req|req];
    cbn [run]; trivial.
  - now destruct (login_cases e now req d) as [-> _].
  - now rewrite refresh_token_unfold.
  - unfold post_book.
    destruct (negb _ || negb _); [reflexivity|].
    apply keeps_try_catch. unfold insert_book. frame.
  - unfold post_review.
    destruct (negb _ || _ || _); [reflexivity|].
    apply keeps_try_catch.
    unfold select_book_id, select_reviews_by_book_user, insert_review. frame.
  - unfold put_review.
    destruct (_ && _); [reflexivity|].
    apply keeps_try_catch. unfold select_review, update_review. frame.
  - unfold delete_review.
    apply keeps_try_catch. unfold select_review, delete_review_row. frame.
Qed.

Lemma users_ok_initial (a b c : Z) : users_ok (mk_db [] a [] b [] c).
Proof. split; cbn; [apply NoDup_nil_2 | constructor]. Qed.

(** The invariant of the users table is kept by every call. *)
Lemma users_ok_preserved (c : call) (d : db) :
  users_ok d -> users_ok (snd (run c d)).
Proof.
  intros [Hnd Hclean]. unfold users_ok.
  pose proof (users_after_other_calls c d) as Hc.
  destruct c as [salt now req|e now req|e now req|now req|now req|req|req];
    try (rewrite Hc; now split); cbn [run]; clear Hc.
  destruct (users_after_signup salt now req d) as [-> | (e & p & -> & He & Hfresh)];
    [now split|].
  split.
  - rewrite map_app. cbn [map u_email]. apply NoDup_app.
    split; [exact Hnd|]. split; [|apply NoDup_singleton].
    intros x Hx Hin. apply list_elem_of_singleton in Hin. now subst x.
  - apply Forall_app. split; [exact Hclean|]. now repeat constructor.
Qed.

(** Rows of [users] are never removed or changed. *)
Lemma users_grow (c : call) (d : db) (u : user_row) :
  u ∈ users d -> u ∈ users (snd (run c d)).
Proof.
  intros Hin. pose proof (users_after_other_calls c d) as Hc.
  destruct c as [salt now req|e now req|e now req|now req|now req|req|req];
    try (now rewrite Hc); cbn [run]; clear Hc.
  destruct (users_after_signup salt now req d) as [-> | (e & p & -> & _)];
    [exact Hin|].
  apply elem_of_app. now left.
Qed.

Lemma run_all_users (cs : list call) (d : db) (u : user_row) :
  users_ok d -> u ∈ users d ->
  users_ok (run_all cs d) /\ u ∈ users (run_all cs d).
Proof.
  revert d. induction cs as [|c cs IH]; intros d Hok Hin; [now split|].
  cbn [run_all fold_left]. apply IH.
  - now apply users_ok_preserved.
  - now apply users_grow.
Qed.

(** A stored user logs in with a password the stored hash accepts. *)
Lemma login_stored_user (e : env) (k : string) (now : Z) (req : request)
      (d : db) (u : user_row) (password : string) :
  users_ok d ->
  u ∈ users d ->
  get (req_body req) "email" = JStr (u_email u) ->
  get (req_body req) "password" = JStr password ->
  compare_hash password (u_password u) = true ->
  secret_key (JWT_SECRET e) = Some k ->
  login e now req d = (logged_in k (JStr (u_email u)) now, d).
Proof.
  intros [Hnd Hclean] Hin He Hp Hcmp Hk.
  unfold login, try_catch, select_users_by_email, bind, lift, read, ret.
  rewrite He, Hp. cbn [param text].
  rewrite Forall_forall in Hclean. rewrite (Hclean u Hin).
  rewrite (filter_email_unique u (users d) Hnd Hin).
  cbn [bcrypt_compare]. rewrite Hcmp. cbn [negb].
  unfold jwt_sign. rewrite Hk. reflexivity.
Qed.

(** Once signed up, the user can log in after any further calls. *)
Lemma login_after_signup_and_calls (salt : string) (now : Z) (req : request)
      (d : db) (email password : string) (cs : list call)
      (e : env) (k : string) (now' : Z) (req' : request) :
  users_ok d ->
  get (req_body req) "email" = JStr email ->
  get (req_body req) "password" = JStr password ->
  has_nul email = false ->
  (String.length email <= 255)%nat ->
  (forall u, u ∈ users d -> u_email u <> email) ->
  secret_key (JWT_SECRET e) = Some k ->
  get (req_body req') "email" = JStr email ->
  get (req_body req') "password" = JStr password ->
  let d' := run_all cs (snd (signup salt now req d)) in
  login e now' req' d' = (logged_in k (JStr email) now', d').
Proof.
  intros Hok He Hp Hclean Hlen Hfresh Hk He' Hp'. cbv zeta.
  set (row := mk_user (users_id_seq d + 1) email
                      (hash_with_salt password salt) now).
  assert (Hs : users_ok (snd (signup salt now req d))
               /\ row ∈ users (snd (signup salt now req d))).
  { split; [exact (users_ok_preserved (Signup salt now req) d Hok)|].
    destruct (users_after_signup salt now req d) as [E | (e0 & p0 & E & _)].
    - exfalso. revert E.
      unfold signup, try_catch, select_users_by_email, insert_user,
        nextval_users, guard, bind, lift, read, ret.
      rewrite He, Hp. cbn [param text]. rewrite Hclean.
      rewrite (filter_email_absent email (users d) Hfresh).
      cbn [length Nat.ltb Nat.leb bcrypt_hash param text].
      rewrite hash_printable. unfold varchar.
      apply Nat.leb_le in Hlen. rewrite Hlen, hash_length.
      cbn [Nat.leb not_null users].
      rewrite (existsb_email_absent email (users d) Hfresh).
      cbn. intros E. apply (f_equal (@length _)) in E.
      rewrite length_app in E. cbn in E. lia.
    - revert E.
      unfold signup, try_catch, select_users_by_email, insert_user,
        nextval_users, guard, bind, lift, read, ret.
      rewrite He, Hp. cbn [param text]. rewrite Hclean.
      rewrite (filter_email_absent email (users d) Hfresh).
      cbn [length Nat.ltb Nat.leb bcrypt_hash param text].
      rewrite hash_printable. unfold varchar.
      rewrite (proj2 (Nat.leb_le _ _) Hlen), hash_length.
      cbn [Nat.leb not_null users].
      rewrite (existsb_email_absent email (users d) Hfresh).
      cbn. intros _. apply elem_of_app. right. left. }
  destruct Hs as [Hok' Hrow].
  destruct (run_all_users cs _ row Hok' Hrow) as [Hok'' Hrow''].
  apply (login_stored_user e k now' req' _ row password Hok'' Hrow'');
    try assumption.
  apply compare_hash_with_salt.
Qed.

End WithLibraries.

End UsersInvariant.

(** ** POST /auth/signup and POST /auth/login *)

Module Credentials.

Import TokenFacts AuthFacts UsersFacts.

Section WithLibraries.

Context `{Bcrypt} `{Hs256}.

(** C3.  For every stored user, a login with that user's email and a
    password that [bcrypt.compare] does not accept against the stored hash
    is answered 400 "Invalid password": the body carries no access token,
    no cookie is set, and the store is unchanged. *)
Theorem login_wrong_password (e : env) (now : Z) (req : request) (d : db)
        (u : user_row) (password : string) :
  users_ok d ->
  u ∈ users d ->
  get (req_body req) "email" = JStr (u_email u) ->
  get (req_body req) "password" = JStr password ->
  compare_hash password (u_password u) = false ->
  login e now req d = (send 400 (JsonError "Invalid password"), d)
  /\ status (fst (login e now req d)) = 400
  /\ (forall a, body (fst (login e now req d)) <> JsonAccessToken a)
  /\ cookies_set (fst (login e now req d)) = []
  /\ snd (login e now req d) = d.
Proof.
  intros [Hnd Hclean] Hin He Hp Hcmp.
  assert (E : login e now req d = (send 400 (JsonError "Invalid password"), d)).
  { unfold login, try_catch, select_users_by_email, bind, lift, read, ret.
    rewrite He, Hp. cbn [param text].
    rewrite Forall_forall in Hclean. rewrite (Hclean u Hin).
    rewrite (filter_email_unique u (users d) Hnd Hin).
    cbn [bcrypt_compare]. rewrite Hcmp. reflexivity. }
  rewrite E. repeat split. intros a. discriminate.
Qed.


(** C8, amended to what the handlers do.  The auth handlers do not
    validate their input; a missing field is answered by whatever path it
    falls into.  Signup with a missing email is answered 500; signup with a
    missing password is answered 500 unless the email is taken, and then
    400 "Email already exists"; no user is inserted in either case.  Login
    with a missing email is answered 400 "Invalid email"; login with a
    missing password for a stored email is answered 500. *)
Theorem missing_input_is_not_validated (salt : string) (e : env) (now : Z)
        (req : request) (d : db) :
  (get (req_body req) "email" = JUndefined ->
   status (fst (signup salt now req d)) = 500
   /\ users (snd (signup salt now req d)) = users d)
  /\
  (get (req_body req) "password" = JUndefined ->
   (fst (signup salt now req d) = internal_error
    \/ fst (signup salt now req d) = send 400 (JsonError "Email already exists"))
   /\ ((forall u, u ∈ users d ->
                  param (get (req_body req) "email") <> Some (u_email u)) ->
       fst (signup salt now req d) = internal_error)
   /\ (forall u, u ∈ users d ->
                 has_nul (u_email u) = false ->
                 param (get (req_body req) "email") = Some (u_email u) ->
                 fst (signup salt now req d)
                 = send 400 (JsonError "Email already exists"))
   /\ users (snd (signup salt now req d)) = users d)
  /\
  (get (req_body req) "email" = JUndefined ->
   login e now req d = (send 400 (JsonError "Invalid email"), d))
  /\
  (get (req_body req) "password" = JUndefined ->
   forall u, users_ok d -> u ∈ users d ->
             get (req_body req) "email" = JStr (u_email u) ->
             login e now req d = (internal_error, d)).
Proof.
  split; [|split; [|split]].
  - intros He. unfold signup, try_catch, select_users_by_email, insert_user,
      nextval_users, guard, bind, lift, read, ret, bcrypt_hash.
    rewrite He. cbn [param text length Nat.ltb Nat.leb].
    destruct (get (req_body req) "password"); try (split; reflexivity).
    cbn [param text]. rewrite hash_printable. unfold varchar.
    rewrite hash_length. split; reflexivity.
  - intros Hp.
    assert (Htaken :
      forall u, u ∈ users d -> has_nul (u_email u) = false ->
                param (get (req_body req) "email") = Some (u_email u) ->
                fst (signup salt now req d)
                = send 400 (JsonError "Email already exists")).
    { intros u Hin Hclean He.
      now rewrite (signup_email_taken salt now req d u Hin Hclean He). }
    revert Htaken.
    unfold signup, try_catch, select_users_by_email,
      bind, lift, read, ret, bcrypt_hash.
    rewrite Hp. unfold text.
    destruct (param (get (req_body req) "email")) as [s|] eqn:Es.
    + destruct (has_nul s); [repeat split; auto|].
      destruct (filter (fun u => u_email u = s) (users d)) as [|x l] eqn:Ef.
      * repeat split; auto.
      * cbn [length Nat.ltb Nat.leb fst snd]. intros Htaken.
        split; [auto|]. split; [|split; [exact Htaken | reflexivity]].
        intros Hfresh. exfalso.
        assert (Hx : x ∈ filter (fun u => u_email u = s) (users d))
          by (rewrite Ef; left).
        apply list_elem_of_filter in Hx as [Hxe Hxin].
        apply (Hfresh x Hxin). now rewrite Hxe.
    + repeat split; auto.
  - intros He. unfold login, try_catch, select_users_by_email,
      bind, lift, read, ret.
    rewrite He. reflexivity.
  - intros Hp u [Hnd Hclean] Hin He.
    unfold login, try_catch, select_users_by_email, bind, lift, read, ret.
    rewrite He, Hp. cbn [param text].
    rewrite Forall_forall in Hclean. rewrite (Hclean u Hin).
    rewrite (filter_email_unique u (users d) Hnd Hin). reflexivity.
Qed.

End WithLibraries.

End Credentials.

(** ** What the issued tokens carry *)

Module IssuedTokens.

Import TokenFacts AuthFacts Facts.

Section WithLibraries.

Context `{Bcrypt} `{Hs256}.

Lemma issue_issued_at (k : string) (email : jsval) (ttl now : Z) :
  issued_at k email ttl now (issue k email ttl now).
Proof.
  unfold issued_at. cbn [issue claims signature].
  rewrite get_signed_email, get_signed_iat, get_signed_exp.
  repeat split. intros secret now' Hk.
  now rewrite <- (jwt_verify_issued k secret email ttl now now' Hk).
Qed.


(** Every token the two handlers hand out is an [issue], under the process
    secret, at the handler's clock. *)
Lemma login_access_token (e : env) (now : Z) (req : request) (d : db)
      (a : wire) :
  body (fst (login e now req d)) = JsonAccessToken a ->
  exists k, secret_key (JWT_SECRET e) = Some k
            /\ a = Token (issue k (get (req_body req) "email") span_1m now).
Proof.
  destruct (login_cases e now req d) as [_ [E | [E | [E | (k & Hk & E)]]]];
    rewrite E; cbn; intros [=]. subst a. eauto.
Qed.

Lemma login_refresh_cookie (e : env) (now : Z) (req : request) (d : db)
      (c : cookie) :
  c ∈ cookies_set (fst (login e now req d)) ->
  exists k, secret_key (JWT_SECRET e) = Some k
            /\ c = refresh_cookie
                     (Token (issue k (get (req_body req) "email") span_7d now)).
Proof.
  destruct (login_cases e now req d) as [_ [E | [E | [E | (k & Hk & E)]]]];
    rewrite E; cbn; intros Hc; try (now apply elem_of_nil in Hc).
  apply list_elem_of_singleton in Hc. eauto.
Qed.

Lemma refresh_access_token (e : env) (now : Z) (req : request) (d : db)
      (a : wire) :
  body (fst (refresh_token e now req d)) = JsonAccessToken a ->
  exists k w decoded,
    secret_key (JWT_SECRET e) = Some k
    /\ req_cookies_refreshToken req = Some w
    /\ jwt_verify w (JWT_SECRET e) now = Resolved decoded
    /\ a = Token (issue k (get decoded "email") span_1m now).
Proof.
  rewrite refresh_token_unfold. cbn [fst].
  repeat case_match; cbn; intros [=]. subst a. eauto 10.
Qed.

(** C7.  Every access token handed out by login and by refresh carries
    [iat] = the clock of issuance and [exp] = [iat] + 60 seconds; every
    refresh token set as a cookie by login carries [exp] = [iat] + 7 days;
    each embeds the email as its identity claim and is signed with the
    process secret [JWT_SECRET], and is accepted by the verifier, from the
    token, that secret and the clock alone, exactly until its [exp]. *)
Theorem issued_tokens_expire_on_time (e : env) (now : Z) (req : request)
        (d : db) :
  (forall a,
      body (fst (login e now req d)) = JsonAccessToken a ->
      exists k t, secret_key (JWT_SECRET e) = Some k /\ a = Token t
                  /\ issued_at k (get (req_body req) "email") 60 now t)
  /\
  (forall c,
      c ∈ cookies_set (fst (login e now req d)) ->
      exists k t, secret_key (JWT_SECRET e) = Some k /\ c_value c = Token t
                  /\ c_name c = "refreshToken"
                  /\ issued_at k (get (req_body req) "email")
                               (7 * 24 * 60 * 60) now t)
  /\
  (forall a,
      body (fst (refresh_token e now req d)) = JsonAccessToken a ->
      exists k w decoded t,
        secret_key (JWT_SECRET e) = Some k
        /\ req_cookies_refreshToken req = Some w
        /\ jwt_verify w (JWT_SECRET e) now = Resolved decoded
        /\ a = Token t
        /\ issued_at k (get decoded "email") 60 now t).
Proof.
  split; [|split].
  - intros a Ha. apply login_access_token in Ha as (k & Hk & ->).
    exists k, (issue k (get (req_body req) "email") span_1m now).
    repeat split; try assumption; apply issue_issued_at.
  - intros c Hc. apply login_refresh_cookie in Hc as (k & Hk & ->).
    exists k, (issue k (get (req_body req) "email") span_7d now).
    repeat split; try assumption; apply issue_issued_at.
  - intros a Ha. apply refresh_access_token in Ha as (k & w & dec & Hk & Hw & Hv & ->).
    exists k, w, dec, (issue k (get dec "email") span_1m now).
    repeat split; try assumption; apply issue_issued_at.
Qed.

End WithLibraries.

End IssuedTokens.

(** ** POST /books/:id/reviews *)

Module ReviewFacts.

Import Facts.




Lemma book_found (k : Z) (bs : list book_row) :
  (exists b, b ∈ bs /\ b_id b = k) ->
  (length (map b_id (filter (fun r => id_is (Some k) (b_id r) = true) bs)) =? 0)%nat
  = false
  /\ references b_id bs (Some k) = true.
Proof.
  intros (b & Hin & Hb). split.
  - destruct (head_filter_hit (fun r => id_is (Some k) (b_id r) = true) bs b Hin)
      as (y & l' & -> & _); [apply id_is_true; congruence | reflexivity].
  - cbn [references]. apply existsb_exists. exists b. split.
    + now apply list_elem_of_In.
    + now apply Z.eqb_eq.
Qed.


End ReviewFacts.

(** ** The identity in the tokens and the identity the handlers read *)

Module IdentityClaim.

Import TokenFacts AuthFacts Facts IssuedTokens ReviewFacts.

Section WithLibraries.

Context `{Bcrypt} `{Hs256}.


End WithLibraries.

End IdentityClaim.

(** ** One review per book and user *)

Module ReviewUniqueness.

Import Facts StoreFacts ReviewFacts.

Lemma filter_pair_absent (b u : Z) (rs : list review_row) :
  filter (fun r => col_is (Some b) (r_book_id r) && col_is (Some u) (r_user_id r) = true)
         rs = [] ->
  (b, u) ∉ omap pair_of rs.
Proof.
  induction rs as [|r rs IH]; intros Hf; [apply not_elem_of_nil|].
  rewrite filter_cons in Hf. case_decide as Hr; [discriminate|].
  specialize (IH Hf). cbn [omap list_omap].
  unfold pair_of at 1.
  destruct (r_book_id r) as [b'|] eqn:Eb; [|exact IH].
  destruct (r_user_id r) as [u'|] eqn:Eu; [|exact IH].
  apply not_elem_of_cons. split; [|exact IH].
  intros [= -> ->]. apply Hr. cbn. now rewrite !Z.eqb_refl.
Qed.

Lemma pair_present (b u : Z) (rs : list review_row) (row : review_row) :
  row ∈ rs -> r_book_id row = Some b -> r_user_id row = Some u ->
  (0 <? length
          (filter (fun r => col_is (Some b) (r_book_id r)
                            && col_is (Some u) (r_user_id r) = true) rs))%nat
  = true.
Proof.
  intros Hin Hb Hu.
  destruct (head_filter_hit
              (fun r => col_is (Some b) (r_book_id r)
                        && col_is (Some u) (r_user_id r) = true) rs row Hin)
    as (y & l' & -> & _); [|reflexivity].
  rewrite Hb, Hu. cbn. now rewrite !Z.eqb_refl.
Qed.

Lemma NoDup_omap_filter {A B} (f : A -> option B) (P : A -> Prop)
      `{!forall x, Decision (P x)} (l : list A) :
  NoDup (omap f l) -> NoDup (omap f (filter P l)).
Proof.
  induction l as [|x l IH]; [trivial|]. cbn [omap list_omap].
  rewrite filter_cons.
  assert (Hsub : forall y, y ∈ omap f (filter P l) -> y ∈ omap f l).
  { intros y. rewrite !list_elem_of_omap.
    intros (z & Hz & Hfz). exists z. split; [|exact Hfz].
    apply list_elem_of_filter in Hz. tauto. }
  destruct (f x) as [y|] eqn:Ef.
  - intros Hnd. apply NoDup_cons in Hnd as [Hy Hnd].
    case_decide; [|now apply IH].
    cbn [omap list_omap]. rewrite Ef. apply NoDup_cons. split; [|now apply IH].
    intros Hin. apply Hy. now apply Hsub.
  - intros Hnd. case_decide; [|now apply IH].
    cbn [omap list_omap]. rewrite Ef. now apply IH.
Qed.

Lemma omap_pair_of_rewrite (g : review_row -> review_row) (rs : list review_row) :
  (forall r, pair_of (g r) = pair_of r) ->
  omap pair_of (map g rs) = omap pair_of rs.
Proof.
  intros Hg. induction rs as [|r rs IH]; [reflexivity|].
  cbn [map omap list_omap]. now rewrite Hg, IH.
Qed.

Section WithLibraries.

Context `{Bcrypt} `{Hs256}.

(** What each call can do to the [reviews] table. *)
Lemma reviews_after_auth_and_books (c : call) (d : db) :
  match c with
  | PostReview _ _ | PutReview _ | DeleteReview _ => True
  | _ => reviews (snd (run c d)) = reviews d
  end.
Proof.
  destruct c as [salt now req|e now req|e now req|now req|now req|req|req];
    cbn [run]; trivial.
  - unfold signup. apply keeps_try_catch.
    unfold select_users_by_email, insert_user. frame.
  - now destruct (AuthFacts.login_cases e now req d) as [-> _].
  - now rewrite AuthFacts.refresh_token_unfold.
  - unfold post_book.
    destruct (negb _ || negb _); [reflexivity|].
    apply keeps_try_catch. unfold insert_book. frame.
Qed.

Lemma reviews_after_post_review (now : Z) (req : request) (d : db) :
  reviews (snd (post_review now req d)) = reviews d
  \/ exists book user rating comment,
      reviews (snd (post_review now req d))
      = (reviews d ++ [submitted d now book user rating comment])%list
      /\ filter (fun r => col_is book (r_book_id r) && col_is user (r_user_id r) = true)
                (reviews d) = [].
Proof.
  unfold post_review, try_catch, select_book_id, select_reviews_by_book_user,
    insert_review, nextval_reviews, guard, bind, lift, read, ret, throw.
  cbn [param].
  destruct (negb (truthy (get (req_body req) "rating"))
            || lt_num (get (req_body req) "rating") 1
            || gt_num (get (req_body req) "rating") 5); [now left|].
  destruct (int4 (Some (req_params_id req))) as [book|]; [|now left].
  cbn iota beta.
  destruct (length _ =? 0)%nat; [now left|].
  destruct (int4 (param (get (req_user req) "id"))) as [user|]; [|now left].
  cbn iota beta.
  destruct (filter _ (reviews d)) as [|x l] eqn:Ef; [|now left].
  cbn [length Nat.ltb Nat.leb].
  destruct (int4 (param (get (req_body req) "rating"))) as [rating|];
    [|now left]. cbn iota beta.
  destruct (text _) as [comment|]; [|now left]. cbn iota beta.
  destruct (check_rating rating); [|now left].
  cbn [books users]. cbn iota beta.
  destruct (references b_id (books d) book); [|now left].
  cbn iota beta. cbn [books users].
  destruct (references u_id (users d) user); [|now left].
  right. exists book, user, rating, comment. split; [reflexivity|exact Ef].
Qed.

Lemma reviews_after_put_review (req : request) (d : db) :
  reviews (snd (put_review req d)) = reviews d
  \/ exists g, (forall r, pair_of (g r) = pair_of r)
               /\ reviews (snd (put_review req d)) = map g (reviews d).
Proof.
  unfold put_review, try_catch, select_review, update_review, guard,
    bind, lift, read, ret, throw.
  cbn [param].
  destruct (truthy (get (req_body req) "rating")
            && (lt_num (get (req_body req) "rating") 1
                || gt_num (get (req_body req) "rating") 5)); [now left|].
  destruct (int4 (Some (req_params_id req))) as [k|]; [|now left].
  cbn iota beta.
  destruct (filter _ (reviews d)) as [|x l] eqn:Ef; [now left|].
  destruct (int4 _) as [r|]; [|now left]. cbn iota beta.
  destruct (text _) as [c|]; [|now left]. cbn iota beta.
  rewrite Ef.
  destruct (check_rating r); [|now left].
  right. exists (fun row => if id_is k (r_id row)
                            then set_rating_comment r c row else row).
  split; [|reflexivity].
  intros row. now destruct (id_is k (r_id row)).
Qed.

Lemma reviews_after_delete_review (req : request) (d : db) :
  reviews (snd (delete_review req d)) = reviews d
  \/ exists k,
      reviews (snd (delete_review req d))
      = filter (fun r => id_is k (r_id r) <> true) (reviews d).
Proof.
  unfold delete_review, try_catch, select_review, delete_review_row,
    bind, lift, read, ret.
  cbn [param].
  destruct (int4 (Some (req_params_id req))) as [k|]; [|now left].
  cbn iota beta.
  destruct (filter _ (reviews d)) as [|x l]; [now left|].
  right. now exists k.
Qed.

(** For identified users the handlers do keep the table free of a second
    review of the same book: every call preserves [one_review_per_pair]. *)
Lemma one_review_per_pair_preserved (c : call) (d : db) :
  one_review_per_pair d -> one_review_per_pair (snd (run c d)).
Proof.
  unfold one_review_per_pair. intros Hnd.
  pose proof (reviews_after_auth_and_books c d) as Hc.
  destruct c as [salt now req|e now req|e now req|now req|now req|req|req];
    try (rewrite Hc; exact Hnd); cbn [run]; clear Hc.
  - destruct (reviews_after_post_review now req d)
      as [-> | (book & user & rating & comment & -> & Hf)]; [exact Hnd|].
    rewrite omap_app. cbn [omap list_omap]. unfold pair_of at 2.
    cbn [submitted r_book_id r_user_id].
    destruct book as [b|]; [|now rewrite app_nil_r].
    destruct user as [u|]; [|now rewrite app_nil_r].
    apply NoDup_app. split; [exact Hnd|]. split.
    + intros x Hx Hin. apply list_elem_of_singleton in Hin. subst x.
      revert Hx. now apply filter_pair_absent.
    + apply NoDup_singleton.
  - destruct (reviews_after_put_review req d) as [-> | (g & Hg & ->)];
      [exact Hnd|].
    now rewrite omap_pair_of_rewrite.
  - destruct (reviews_after_delete_review req d) as [-> | (k & ->)];
      [exact Hnd|].
    now apply NoDup_omap_filter.
Qed.

(** And a submission by an identified user who has a row for that book is
    answered 400 and inserts nothing. *)
Lemma post_review_twice_refused (now : Z) (req : request) (d : db)
      (row : review_row) (k uid : Z) :
  req_params_id req = show_int k ->
  int4_min <= k <= int4_max ->
  get (req_user req) "id" = JNum uid ->
  int4_min <= uid <= int4_max ->
  row ∈ reviews d ->
  r_book_id row = Some k ->
  r_user_id row = Some uid ->
  (exists b, b ∈ books d /\ b_id b = k) ->
  status (fst (post_review now req d)) = 400
  /\ snd (post_review now req d) = d.
Proof.
  intros Hp Hk Hu Huid Hin Hb Hru Hbook.
  destruct (book_found k (books d) Hbook) as [Hlen _].
  unfold post_review, try_catch, select_book_id, select_reviews_by_book_user,
    bind, lift, read, ret.
  destruct (negb (truthy (get (req_body req) "rating"))
            || lt_num (get (req_body req) "rating") 1
            || gt_num (get (req_body req) "rating") 5); [now split|].
  rewrite Hp, Hu. cbn [param].
  rewrite (int4_show_int k Hk), (int4_show_int uid Huid), Hlen.
  rewrite (pair_present k uid (reviews d) row Hin Hb Hru). now split.
Qed.

End WithLibraries.

(** C5 does not hold of the handler as it is called.  The identity
    attached to a request carries the claims of the token ([email], [iat],
    [exp]) and no [id]; with it the lookup of an earlier review finds
    nothing, and a second submission by the same user for the same book is
    answered 201, not 400, and inserted: the table then holds two rows for
    the same ([book_id], [user_id]) pair. *)
Theorem second_review_accepted :
  let alice := mk_user 1 "a@x.com" "salt..................p1" 100 in
  let dune := mk_book 1 "Dune" "Herbert" None None 150 in
  let d := mk_db [alice] 1 [dune] 1 [] 0 in
  let identity := [("email", JStr "a@x.com"); ("iat", JNum 200);
                   ("exp", JNum 260)] in
  let req := mk_request [("rating", JNum 5)] "1" None identity in
  let first := post_review 210 req d in
  let second := post_review 220 req (snd first) in
  status (fst first) = 201
  /\ status (fst second) = 201
  /\ map (fun r => (r_book_id r, r_user_id r)) (reviews (snd second))
     = [(Some 1, None); (Some 1, None)]
  /\ ~ one_row_per_pair (snd second).
Proof.
  cbv zeta.
  assert (E :
    map (fun r => (r_book_id r, r_user_id r))
        (reviews (snd (post_review 220
           (mk_request [("rating", JNum 5)] "1" None
              [("email", JStr "a@x.com"); ("iat", JNum 200); ("exp", JNum 260)])
           (snd (post_review 210
              (mk_request [("rating", JNum 5)] "1" None
                 [("email", JStr "a@x.com"); ("iat", JNum 200); ("exp", JNum 260)])
              (mk_db [mk_user 1 "a@x.com" "salt..................p1" 100] 1
                     [mk_book 1 "Dune" "Herbert" None None 150] 1 [] 0))))))
    = [(Some 1, None); (Some 1, None)]) by (vm_compute; reflexivity).
  split; [vm_compute; reflexivity|].
  split; [vm_compute; reflexivity|].
  split; [exact E|].
  unfold one_row_per_pair. rewrite E. intros Hnd.
  apply NoDup_cons in Hnd as [Hnot _]. apply Hnot. left.
Qed.

End ReviewUniqueness.

(** ** The properties on a concrete run *)

Module Scenario.

Import Demo DemoFacts Facts UsersFacts RefreshEndpoint Credentials IssuedTokens
       IdentityClaim ReviewOwnership ReviewFacts.

Lemma members_ok : users_ok members.
Proof.
  split; cbn.
  - apply NoDup_singleton.
  - repeat constructor.
Defined.

Lemma update_delete_ignore_requester_witness :
  alice_on_dune ∈ reviews library
  /\ int4_min <= r_id alice_on_dune <= int4_max
  /\ delete_review (mk_request [] "1" None bob) library
     = (send 200 (JsonMessage "Review deleted successfully"),
        set_reviews library []).
Proof.
  assert (Hin : alice_on_dune ∈ reviews library) by left.
  assert (Hr : int4_min <= r_id alice_on_dune <= int4_max)
    by (unfold int4_min, int4_max; cbn; lia).
  split; [exact Hin|]. split; [exact Hr|].
  exact (proj1 (proj2 update_delete_ignore_requester
                      alice_on_dune library bob [] None Hin Hr)).
Defined.

Lemma refresh_token_status_witness :
  secret_key (JWT_SECRET demo_env) = Some "s3cr3t"
  /\ valid_unexpired "s3cr3t" 5000 (Token alice_refresh)
  /\ refresh_token demo_env 5000 (with_cookie (Some (Token alice_refresh))) members
     = (send 200 (JsonAccessToken
                    (Token (issue "s3cr3t" (JStr "a@x.com") span_1m 5000))),
        members)
  /\ refresh_token demo_env 5000 (with_cookie (Some (Opaque "x.y.z"))) members
     = (send 403 (JsonError "Invalid refresh token"), members).
Proof.
  assert (Hk : secret_key (JWT_SECRET demo_env) = Some "s3cr3t") by reflexivity.
  assert (Hv : valid_unexpired "s3cr3t" 5000 (Token alice_refresh)).
  { exists alice_refresh. repeat split. }
  split; [exact Hk|]. split; [exact Hv|]. split.
  - destruct (proj1 (refresh_token_status demo_env "s3cr3t" 5000
                       (with_cookie (Some (Token alice_refresh))) members Hk)
                    alice_refresh eq_refl Hv) as (t' & E & -> & _).
    exact E.
  - apply (proj2 (proj2 (refresh_token_status demo_env "s3cr3t" 5000
                           (with_cookie (Some (Opaque "x.y.z"))) members Hk))
                 (Opaque "x.y.z") eq_refl).
    + discriminate.
    + left. exact I.
Defined.

(** A cookie that is present and no token the secret signed, namely one
    with an empty value, is answered 401, not 403. *)
Lemma refresh_empty_cookie_not_403 :
  let req := with_cookie (Some (Opaque "")) in
  req_cookies_refreshToken req = Some (Opaque "")
  /\ tampered "s3cr3t" (Opaque "")
  /\ ~ valid_unexpired "s3cr3t" 5000 (Opaque "")
  /\ refresh_token demo_env 5000 req members
     = (send 401 (JsonError "No refresh token"), members)
  /\ status (fst (refresh_token demo_env 5000 req members)) <> 403.
Proof.
  cbv zeta. split; [reflexivity|]. split; [exact I|]. split.
  - intros (t & E & _). discriminate E.
  - split; [reflexivity|]. vm_compute. discriminate.
Qed.

Lemma login_wrong_password_witness :
  users_ok members
  /\ alice ∈ users members
  /\ compare_hash "wrong" (u_password alice) = false
  /\ login demo_env 200 (credentials "a@x.com" "wrong") members
     = (send 400 (JsonError "Invalid password"), members).
Proof.
  assert (Hin : alice ∈ users members) by left.
  assert (Hc : compare_hash "wrong" (u_password alice) = false) by reflexivity.
  split; [exact members_ok|]. split; [exact Hin|]. split; [exact Hc|].
  exact (proj1 (login_wrong_password demo_env 200
                  (credentials "a@x.com" "wrong") members alice "wrong"
                  members_ok Hin eq_refl eq_refl Hc)).
Defined.


Lemma refresh_token_lives_seven_days_witness :
  status (fst (login demo_env 200 (credentials "a@x.com" "p1") members)) = 200
  /\ refresh_cookie (Token alice_refresh)
       ∈ cookies_set (fst (login demo_env 200 (credentials "a@x.com" "p1") members))
  /\ (exists t,
         refresh_token demo_env (200 + 604799)
                       (with_cookie (Some (Token alice_refresh))) library
         = (send 200 (JsonAccessToken (Token t)), library)
         /\ get (claims t) "email" = JStr "a@x.com")
  /\ refresh_token demo_env (200 + 604800)
                   (with_cookie (Some (Token alice_refresh))) library
     = (send 403 (JsonError "Invalid refresh token"), library).
Proof.
  assert (Hst : status (fst (login demo_env 200 (credentials "a@x.com" "p1")
                                   members)) = 200) by reflexivity.
  assert (Hc : refresh_cookie (Token alice_refresh)
                 ∈ cookies_set (fst (login demo_env 200
                                       (credentials "a@x.com" "p1") members)))
    by left.
  split; [exact Hst|]. split; [exact Hc|].
  pose proof (proj2 refresh_token_lives_seven_days demo_env 200
                (credentials "a@x.com" "p1") members
                (refresh_cookie (Token alice_refresh)) Hst Hc) as W.
  split.
  - apply (proj1 (W (200 + 604799)
                    (with_cookie (Some (Token alice_refresh))) library eq_refl)).
    lia.
  - apply (proj2 (W (200 + 604800)
                    (with_cookie (Some (Token alice_refresh))) library eq_refl)).
    lia.
Defined.

Lemma issued_tokens_expire_on_time_witness :
  body (fst (login demo_env 200 (credentials "a@x.com" "p1") members))
  = JsonAccessToken (Token (issue "s3cr3t" (JStr "a@x.com") span_1m 200))
  /\ exists k t,
      secret_key (JWT_SECRET demo_env) = Some k
      /\ Token (issue "s3cr3t" (JStr "a@x.com") span_1m 200) = Token t
      /\ issued_at k (JStr "a@x.com") 60 200 t.
Proof.
  assert (Hb : body (fst (login demo_env 200 (credentials "a@x.com" "p1") members))
               = JsonAccessToken
                   (Token (issue "s3cr3t" (JStr "a@x.com") span_1m 200)))
    by reflexivity.
  split; [exact Hb|].
  exact (proj1 (issued_tokens_expire_on_time demo_env 200
                  (credentials "a@x.com" "p1") members) _ Hb).
Defined.

(** A signup without a password is answered 500, not 400. *)
Lemma signup_missing_password_not_400 :
  let req := mk_request [("email", JStr "a@x.com")] "" None [] in
  get (req_body req) "password" = JUndefined
  /\ signup "salt" 100 req empty_db = (internal_error, empty_db)
  /\ status (fst (signup "salt" 100 req empty_db)) <> 400.
Proof.
  cbv zeta. split; [reflexivity|]. split; [reflexivity|].
  vm_compute. discriminate.
Qed.

Lemma missing_input_is_not_validated_witness :
  let req := mk_request [("email", JStr "b@x.com")] "" None [] in
  get (req_body req) "password" = JUndefined
  /\ (forall u, u ∈ users members ->
                param (get (req_body req) "email") <> Some (u_email u))
  /\ fst (signup "salt" 100 req members) = internal_error
  /\ users (snd (signup "salt" 100 req members)) = users members.
Proof.
  cbv zeta.
  assert (Hp : get (req_body (mk_request [("email", JStr "b@x.com")] "" None []))
                   "password" = JUndefined) by reflexivity.
  assert (Hf : forall u, u ∈ users members ->
                 param (get (req_body (mk_request [("email", JStr "b@x.com")]
                                                  "" None [])) "email")
                 <> Some (u_email u)).
  { intros u Hu. apply list_elem_of_singleton in Hu. subst u. discriminate. }
  split; [exact Hp|]. split; [exact Hf|].
  destruct (proj1 (proj2 (missing_input_is_not_validated "salt" demo_env 100
                            (mk_request [("email", JStr "b@x.com")] "" None [])
                            members)) Hp) as (_ & H500 & _ & Hu).
  split; [exact (H500 Hf) | exact Hu].
Defined.

Lemma refresh_token_sets_no_cookie_witness :
  status (fst (refresh_token demo_env 5000
                 (with_cookie (Some (Token alice_refresh))) members)) = 200
  /\ cookies_set (fst (refresh_token demo_env 5000
                         (with_cookie (Some (Token alice_refresh))) members)) = []
  /\ exists k decoded w,
      req_cookies_refreshToken (with_cookie (Some (Token alice_refresh))) = Some w
      /\ secret_key (JWT_SECRET demo_env) = Some k
      /\ jwt_verify w (JWT_SECRET demo_env) 5000 = Resolved decoded
      /\ body (fst (refresh_token demo_env 5000
                      (with_cookie (Some (Token alice_refresh))) members))
         = JsonAccessToken (Token (issue k (get decoded "email") span_1m 5000)).
Proof.
  assert (Hst : status (fst (refresh_token demo_env 5000
                               (with_cookie (Some (Token alice_refresh)))
                               members)) = 200) by reflexivity.
  split; [exact Hst|].
  destruct (refresh_token_sets_no_cookie demo_env 5000
              (with_cookie (Some (Token alice_refresh))) members)
    as (Hc & _ & Hb).
  split; [exact Hc | exact (Hb Hst)].
Defined.


(** A double submission end to end: signup, a book, login, then two
    authenticated submissions for that book with the access token the login
    returned. *)
Lemma double_submission_end_to_end :
  let d1 := snd (signup "salt" 100 (credentials "a@x.com" "p1") empty_db) in
  let d2 := snd (post_book 150
                   (mk_request [("title", JStr "Dune"); ("author", JStr "Herbert")]
                               "" None []) d1) in
  let bearer := Some (Token (issue "s3cr3t" (JStr "a@x.com") span_1m 200)) in
  let req := mk_request [("rating", JNum 5)] "1" None [] in
  let first := authenticateToken demo_env 210 bearer req (post_review 210) d2 in
  let second :=
    authenticateToken demo_env 220 bearer req (post_review 220) (snd first) in
  body (fst (login demo_env 200 (credentials "a@x.com" "p1") d2))
  = JsonAccessToken (Token (issue "s3cr3t" (JStr "a@x.com") span_1m 200))
  /\ status (fst first) = 201
  /\ status (fst second) = 201
  /\ map (fun r => (r_book_id r, r_user_id r)) (reviews (snd second))
     = [(Some 1, None); (Some 1, None)].
Proof. cbv zeta. repeat split; vm_compute; reflexivity. Qed.

End Scenario.

(** ** Triples: rules *)

Module TripleFacts.

Lemma triple_ret {A} (P : db -> Prop) (Q : A -> db -> Prop) (E : db -> Prop)
      (a : A) :
  (forall d, P d -> Q a d) -> triple P (ret a) Q E.
Proof. intros H d Hd. now apply H. Qed.

Lemma triple_throw {A} (P : db -> Prop) (Q : A -> db -> Prop)
      (E : db -> Prop) :
  (forall d, P d -> E d) -> triple P (@throw A) Q E.
Proof. intros H d Hd. now apply H. Qed.

Lemma triple_lift {A} (P : db -> Prop) (Q : A -> db -> Prop) (E : db -> Prop)
      (o : outcome A) :
  (forall a d, o = Resolved a -> P d -> Q a d) ->
  (forall d, o = Rejected -> P d -> E d) ->
  triple P (lift o) Q E.
Proof. intros HQ HE d Hd. unfold lift. destruct o; auto. Qed.

Lemma triple_read {A} (P : db -> Prop) (Q : A -> db -> Prop) (E : db -> Prop)
      (f : db -> A) :
  (forall d, P d -> Q (f d) d) -> triple P (read f) Q E.
Proof. intros H d Hd. now apply H. Qed.

Lemma triple_guard (P : db -> Prop) (Q : unit -> db -> Prop) (E : db -> Prop)
      (b : bool) :
  (forall d, b = true -> P d -> Q tt d) ->
  (forall d, b = false -> P d -> E d) ->
  triple P (guard b) Q E.
Proof. intros HQ HE d Hd. unfold guard. destruct b; cbn; auto. Qed.

Lemma triple_bind {A B} (P : db -> Prop) (Q : A -> db -> Prop)
      (R : B -> db -> Prop) (E : db -> Prop)
      (m : query A) (k : A -> query B) :
  triple P m Q E -> (forall a, triple (Q a) (k a) R E) ->
  triple P (bind m k) R E.
Proof.
  intros Hm Hk d Hd. unfold bind. specialize (Hm d Hd).
  destruct (m d) as [[a|] d']; [|exact Hm].
  exact (Hk a d' Hm).
Qed.

Lemma triple_weaken {A} (P P' : db -> Prop) (Q Q' : A -> db -> Prop)
      (E E' : db -> Prop) (q : query A) :
  triple P q Q E ->
  (forall d, P' d -> P d) ->
  (forall a d, Q a d -> Q' a d) ->
  (forall d, E d -> E' d) ->
  triple P' q Q' E'.
Proof.
  intros Hq HP HQ HE d Hd. specialize (Hq d (HP d Hd)).
  destruct (q d) as [[a|] d']; auto.
Qed.

(** What [try { ... } catch] makes of a triple over its block. *)
Lemma triple_try_catch (P : db -> Prop) (Q : response -> db -> Prop)
      (E : db -> Prop) (block : query response) (on_error : response) (d : db) :
  triple P block Q E -> P d ->
  (exists r, try_catch block on_error d = (r, snd (try_catch block on_error d))
             /\ r <> on_error /\ Q r (snd (try_catch block on_error d)))
  \/ (fst (try_catch block on_error d) = on_error
      /\ (E (snd (try_catch block on_error d))
          \/ Q on_error (snd (try_catch block on_error d)))).
Proof.
  intros Hb Hd. unfold try_catch. specialize (Hb d Hd).
  destruct (block d) as [[r|] d']; cbn [fst snd].
  - destruct (decide (r = on_error)) as [->|Hne]; [right; auto|].
    left. exists r. auto.
  - right. auto.
Qed.

Lemma invariant_try_catch (I : db -> Prop) (block : query response)
      (on_error : response) (d : db) :
  invariant I block -> I d -> I (snd (try_catch block on_error d)).
Proof.
  intros Hb Hd. unfold try_catch. specialize (Hb d Hd).
  now destruct (block d) as [[r|] d'].
Qed.

Lemma invariant_bind {A B} (I : db -> Prop) (m : query A) (k : A -> query B) :
  invariant I m -> (forall a, invariant I (k a)) -> invariant I (bind m k).
Proof. intros Hm Hk. eapply triple_bind; [exact Hm | exact Hk]. Qed.

Lemma invariant_pure {A} (I : db -> Prop) (q : query A) :
  (forall d, snd (q d) = d) -> invariant I q.
Proof.
  intros Hq d Hd. specialize (Hq d).
  destruct (q d) as [[a|] d']; cbn [snd] in Hq; now subst.
Qed.

End TripleFacts.

(** ** The statements, one by one *)

Module StatementFacts.

Import Facts TextFacts UsersFacts TripleFacts.

Lemma same_rows_refl (d : db) : same_rows d d.
Proof. unfold same_rows. repeat split; lia. Qed.

(** The SELECT statements hand the store back untouched. *)
Lemma select_users_by_email_pure (email : jsval) (d : db) :
  snd (select_users_by_email email d) = d.
Proof.
  unfold select_users_by_email, bind, lift, read.
  now destruct (text (param email)).
Qed.

Lemma select_book_id_pure (bookId : jsval) (d : db) :
  snd (select_book_id bookId d) = d.
Proof.
  unfold select_book_id, bind, lift, read.
  now destruct (int4 (param bookId)).
Qed.

Lemma select_reviews_by_book_user_pure (bookId userId : jsval) (d : db) :
  snd (select_reviews_by_book_user bookId userId d) = d.
Proof.
  unfold select_reviews_by_book_user, bind, lift, read.
  destruct (int4 (param bookId)); [|reflexivity].
  now destruct (int4 (param userId)).
Qed.

Lemma select_review_pure (reviewId : jsval) (d : db) :
  snd (select_review reviewId d) = d.
Proof.
  unfold select_review, bind, lift, read.
  now destruct (int4 (param reviewId)).
Qed.

(** What the rows of [select_review] are. *)
Lemma select_review_rows (reviewId : jsval) (d : db) (rows : list review_row) :
  fst (select_review reviewId d) = Resolved rows ->
  exists k, int4 (param reviewId) = Resolved k
            /\ rows = filter (fun r => id_is k (r_id r) = true) (reviews d).
Proof.
  unfold select_review, bind, lift, read.
  destruct (int4 (param reviewId)) as [k|]; cbn; [|discriminate].
  intros [= <-]. now exists k.
Qed.

(** INSERT INTO users: the row appended, or nothing but a sequence step. *)
Lemma insert_user_spec (now : Z) (email password : jsval) (d : db) :
  match insert_user now email password d with
  | (Resolved _, d') =>
      exists e p,
        d' = mk_db (users d ++ [mk_user (users_id_seq d + 1) e p now])
                   (users_id_seq d + 1) (books d) (books_id_seq d)
                   (reviews d) (reviews_id_seq d)
        /\ has_nul e = false
        /\ e ∉ map u_email (users d)
  | (Rejected, d') => same_rows d d'
  end.
Proof.
  unfold insert_user, nextval_users, guard, bind, lift, read, ret, throw, text.
  destruct (param email) as [s|]; cbn iota beta.
  - destruct (has_nul s) eqn:Hs; [apply same_rows_refl|]. cbn iota beta.
    destruct (param password) as [h|]; cbn iota beta.
    + destruct (has_nul h); [apply same_rows_refl|]. cbn iota beta.
      assert (Hstored :
        forall e, varchar 255 (Some s) = Resolved (Some e) -> has_nul e = false).
      { unfold varchar. intros e.
        destruct (String.length s <=? 255)%nat; [now intros [= <-]|].
        destruct (all_spaces _); [|discriminate].
        intros E. assert (E' : e = take 255 s) by congruence.
        rewrite E'. now apply has_nul_take. }
      destruct (varchar 255 (Some s)) as [[e|]|];
        destruct (varchar 255 (Some h)) as [[p|]|];
        try (unfold same_rows; cbn; repeat split; lia).
      cbn [not_null users]. cbn iota beta.
      destruct (existsb _ (users d)) eqn:Ex;
        [unfold same_rows; cbn; repeat split; lia|].
      cbn. exists e, p. split; [reflexivity|]. split.
      * now apply Hstored.
      * now apply existsb_email_false.
    + change (varchar 255 None) with (@Resolved (option string) None).
      destruct (varchar 255 (Some s)) as [[e|]|];
        unfold same_rows; cbn; repeat split; lia.
  - destruct (param password) as [h|]; cbn iota beta;
      [destruct (has_nul h); [apply same_rows_refl|]; cbn iota beta|];
      change (varchar 255 None) with (@Resolved (option string) None);
      cbn iota beta;
      try destruct (varchar 255 (Some h)) as [[p|]|];
      unfold same_rows; cbn; repeat split; lia.
Qed.

(** INSERT INTO books *)
Lemma insert_book_spec (now : Z) (title author genre description : jsval)
      (d : db) :
  match insert_book now title author genre description d with
  | (Resolved rows, d') =>
      exists t a g ds,
        let row := mk_book (books_id_seq d + 1) t a g ds now in
        rows = [row]
        /\ d' = mk_db (users d) (users_id_seq d) (books d ++ [row])
                      (books_id_seq d + 1) (reviews d) (reviews_id_seq d)
  | (Rejected, d') => same_rows d d'
  end.
Proof.
  unfold insert_book, nextval_books, bind, lift, read, ret.
  destruct (text (param title)) as [t|]; [|apply same_rows_refl].
  destruct (text (param author)) as [a|]; [|apply same_rows_refl].
  destruct (text (param genre)) as [g|]; [|apply same_rows_refl].
  destruct (text (param description)) as [ds|]; [|apply same_rows_refl].
  cbn iota beta.
  destruct (varchar 255 t) as [[t'|]|]; destruct (varchar 255 a) as [[a'|]|];
    destruct (varchar 100 g) as [g'|];
    cbn; try (unfold same_rows; cbn; repeat split; lia).
  exists t', a', g', ds. cbn. auto.
Qed.

(** INSERT INTO reviews *)
Lemma insert_review_spec (now : Z) (bookId userId rating comment : jsval)
      (d : db) :
  match insert_review now bookId userId rating comment d with
  | (Resolved rows, d') =>
      exists b u r c,
        int4 (param bookId) = Resolved b
        /\ int4 (param userId) = Resolved u
        /\ int4 (param rating) = Resolved r
        /\ text (param comment) = Resolved c
        /\ check_rating r = true
        /\ references b_id (books d) b = true
        /\ references u_id (users d) u = true
        /\ rows = [submitted d now b u r c]
        /\ d' = with_review d (submitted d now b u r c)
  | (Rejected, d') => same_rows d d'
  end.
Proof.
  unfold insert_review, nextval_reviews, guard, bind, lift, read, ret, throw.
  destruct (int4 (param bookId)) as [b|]; [|apply same_rows_refl].
  destruct (int4 (param userId)) as [u|]; [|apply same_rows_refl].
  destruct (int4 (param rating)) as [r|]; [|apply same_rows_refl].
  destruct (text (param comment)) as [c|]; [|apply same_rows_refl].
  cbn iota beta.
  destruct (check_rating r) eqn:Hr; cbn;
    [|unfold same_rows; cbn; repeat split; lia].
  destruct (references b_id (books d) b) eqn:Hb; cbn;
    [|unfold same_rows; cbn; repeat split; lia].
  destruct (references u_id (users d) u) eqn:Hu; cbn;
    [|unfold same_rows; cbn; repeat split; lia].
  exists b, u, r, c. repeat split; auto.
Qed.

(** UPDATE reviews: either nothing changes (a rejection), or every row
    with the id is rewritten and the rest is left as it was. *)
Lemma update_review_spec (rating comment reviewId : jsval) (d : db) :
  match update_review rating comment reviewId d with
  | (Resolved rows, d') =>
      exists r c k,
        int4 (param rating) = Resolved r
        /\ text (param comment) = Resolved c
        /\ int4 (param reviewId) = Resolved k
        /\ (filter (fun row => id_is k (r_id row) = true) (reviews d) = []
            \/ check_rating r = true)
        /\ rows = map (set_rating_comment r c)
                      (filter (fun row => id_is k (r_id row) = true) (reviews d))
        /\ d' = set_reviews d
                  (map (fun row => if id_is k (r_id row)
                                   then set_rating_comment r c row else row)
                       (reviews d))
  | (Rejected, d') => d' = d
  end.
Proof.
  unfold update_review, guard, bind, lift, read, ret, throw.
  destruct (int4 (param rating)) as [r|]; [|reflexivity].
  destruct (text (param comment)) as [c|]; [|reflexivity].
  destruct (int4 (param reviewId)) as [k|]; [|reflexivity].
  cbn iota beta.
  destruct (filter _ (reviews d)) as [|x l] eqn:Ef.
  - cbn. exists r, c, k. rewrite Ef. repeat split; auto.
  - destruct (check_rating r) eqn:Hr; cbn; [|reflexivity].
    exists r, c, k. rewrite Ef. repeat split; auto.
Qed.

(** DELETE FROM reviews *)
Lemma delete_review_row_spec (reviewId : jsval) (d : db) :
  match delete_review_row reviewId d with
  | (Resolved _, d') =>
      exists k,
        int4 (param reviewId) = Resolved k
        /\ d' = set_reviews d
                  (filter (fun r => id_is k (r_id r) <> true) (reviews d))
  | (Rejected, d') => d' = d
  end.
Proof.
  unfold delete_review_row, bind, lift.
  destruct (int4 (param reviewId)) as [k|]; [|reflexivity].
  now exists k.
Qed.

End StatementFacts.

(** ** One call, one step of the store *)

Module StepFacts.

Import Facts TextFacts StoreFacts UsersFacts AuthFacts StatementFacts.

Lemma int4_of_text (s : string) (k : option Z) :
  int4 (Some s) = Resolved k ->
  exists z, k = Some z /\ int4_min <= z <= int4_max.
Proof.
  unfold int4. destruct (read_int s) as [z|]; [|discriminate].
  destruct ((int4_min <=? z) && (z <=? int4_max)) eqn:E; [|discriminate].
  intros [= <-]. exists z. split; [reflexivity|].
  apply andb_true_iff in E as [E1 E2]. apply Z.leb_le in E1, E2. lia.
Qed.

Lemma param_truthy (v : jsval) : truthy v = true -> exists s, param v = Some s.
Proof. destruct v; cbn; try discriminate; eauto. Qed.

Lemma int4_rating_of (row : review_row) (k : option Z) :
  int4 (param (rating_of row)) = Resolved k -> k = r_rating row.
Proof.
  unfold rating_of. destruct (r_rating row) as [z|]; cbn [param].
  - unfold int4. rewrite read_int_show_int.
    destruct ((int4_min <=? z) && (z <=? int4_max)); [|discriminate].
    now intros [= <-].
  - unfold int4. now intros [= <-].
Qed.

Lemma references_elem {A} (key : A -> Z) (rows : list A) (z : Z) :
  references key rows (Some z) = true -> z ∈ map key rows.
Proof.
  cbn. intros E. apply existsb_exists in E as (x & Hx & Hz).
  apply Z.eqb_eq in Hz. subst z.
  apply list_elem_of_fmap. exists x. split; [reflexivity|].
  now apply list_elem_of_In.
Qed.

Section WithLibraries.

Context `{Bcrypt} `{Hs256}.

Lemma signup_step (salt : string) (now : Z) (req : request) (d : db) :
  step d (snd (signup salt now req d)).
Proof.
  unfold signup, try_catch, bind, ret.
  pose proof (select_users_by_email_pure (get (req_body req) "email") d) as Hs.
  destruct (select_users_by_email _ d) as [[rows|] d1]; cbn [snd] in Hs; subst d1;
    [|apply step_same, same_rows_refl].
  destruct (0 <? length rows)%nat; [apply step_same, same_rows_refl|].
  unfold lift at 1.
  destruct (bcrypt_hash _ salt) as [h|]; [|apply step_same, same_rows_refl].
  pose proof (insert_user_spec now (get (req_body req) "email") (JStr h) d) as Hi.
  destruct (insert_user _ _ _ d) as [[[]|] d1]; cbn [snd].
  - destruct Hi as (e & p & -> & He & Hfresh). now apply (step_user d _ e p now).
  - now apply step_same.
Qed.

Lemma post_book_step (now : Z) (req : request) (d : db) :
  step d (snd (post_book now req d)).
Proof.
  unfold post_book.
  destruct (negb _ || negb _); [apply step_same, same_rows_refl|].
  unfold try_catch, bind, ret.
  match goal with
  | |- context [insert_book ?n ?t ?a ?g ?ds d] =>
      pose proof (insert_book_spec n t a g ds d) as Hi;
      destruct (insert_book n t a g ds d) as [[rows|] d1]
  end; cbn [snd].
  - destruct Hi as (t & a & g & ds & _ & ->).
    now apply (step_book d _ (mk_book (books_id_seq d + 1) t a g ds now)).
  - now apply step_same.
Qed.

Lemma post_review_step (now : Z) (req : request) (d : db) :
  step d (snd (post_review now req d)).
Proof.
  unfold post_review.
  destruct (truthy (get (req_body req) "rating")) eqn:Htr;
    [|apply step_same, same_rows_refl]. cbn [negb orb].
  destruct (lt_num _ 1 || gt_num _ 5); [apply step_same, same_rows_refl|].
  unfold try_catch, bind, ret.
  pose proof (select_book_id_pure (JStr (req_params_id req)) d) as Hs.
  destruct (select_book_id _ d) as [[ids|] d1]; cbn [snd] in Hs; subst d1;
    [|apply step_same, same_rows_refl].
  destruct (length ids =? 0)%nat; [apply step_same, same_rows_refl|].
  pose proof (select_reviews_by_book_user_pure (JStr (req_params_id req))
                (get (req_user req) "id") d) as Hs.
  destruct (select_reviews_by_book_user _ _ d) as [[rows|] d1];
    cbn [snd] in Hs; subst d1; [|apply step_same, same_rows_refl].
  destruct (0 <? length rows)%nat; [apply step_same, same_rows_refl|].
  match goal with
  | |- context [insert_review ?n ?b ?u ?r ?c d] =>
      pose proof (insert_review_spec n b u r c d) as Hi;
      destruct (insert_review n b u r c d) as [[res|] d1]
  end; cbn [snd]; [|now apply step_same].
  destruct Hi as (b & u & r & c & Hb & Hu & Hr & Hc & Hck & Hfb & Hfu & _ & ->).
  cbn [param] in Hb. apply int4_of_text in Hb as (bz & -> & _).
  destruct (param_truthy _ Htr) as (s & Hs). rewrite Hs in Hr.
  apply int4_of_text in Hr as (rz & -> & _).
  apply (step_review d _ (submitted d now (Some bz) u (Some rz) c)).
  - reflexivity.
  - split.
    + exists bz. split; [reflexivity|]. now apply references_elem.
    + cbn. intros uz ->. now apply references_elem.
  - exists rz. split; [reflexivity|].
    cbn in Hck. apply andb_true_iff in Hck as [H1 H2].
    apply Z.leb_le in H1, H2. lia.
  - reflexivity.
Qed.

Lemma put_review_step (req : request) (d : db) :
  step d (snd (put_review req d)).
Proof.
  unfold put_review.
  destruct (truthy (get (req_body req) "rating")
            && (lt_num _ 1 || gt_num _ 5)); [apply step_same, same_rows_refl|].
  unfold try_catch, bind, ret.
  pose proof (select_review_pure (JStr (req_params_id req)) d) as Hs.
  pose proof (select_review_rows (JStr (req_params_id req)) d) as Hrows.
  destruct (select_review _ d) as [[rows|] d1]; cbn [fst snd] in Hs, Hrows;
    subst d1; [|apply step_same, same_rows_refl].
  destruct (Hrows rows eq_refl) as (k0 & Hk0 & Erows). clear Hrows.
  destruct rows as [|row rows']; [apply step_same, same_rows_refl|].
  match goal with
  | |- context [update_review ?r ?c ?k d] =>
      pose proof (update_review_spec r c k d) as Hu;
      destruct (update_review r c k d) as [[res|] d1]
  end; cbn [snd]; [|subst d1; apply step_same, same_rows_refl].
  destruct Hu as (r & c & k & Hr & Hc & Hk & Hck & _ & ->).
  rewrite Hk0 in Hk. injection Hk as <-.
  rewrite <- Erows in Hck. destruct Hck as [Hck|Hck]; [discriminate|].
  apply (step_update d _ (fun row0 => if id_is k0 (r_id row0)
                                      then set_rating_comment r c row0
                                      else row0)).
  - intros r0. now destruct (id_is k0 (r_id r0)).
  - intros Hok r0 Hr0. unfold ratings_ok in Hok.
    rewrite Forall_forall in Hok.
    destruct (id_is k0 (r_id r0)); [|now apply Hok].
    unfold rating_in_range. cbn [set_rating_comment r_rating].
    unfold or_else in Hr.
    destruct (truthy (get (req_body req) "rating")) eqn:Htr.
    + destruct (param_truthy _ Htr) as (s & Hs). rewrite Hs in Hr.
      apply int4_of_text in Hr as (rz & -> & _). exists rz.
      split; [reflexivity|]. cbn in Hck.
      apply andb_true_iff in Hck as [H1 H2]. apply Z.leb_le in H1, H2. lia.
    + apply int4_rating_of in Hr. subst r.
      assert (Hrow : row ∈ reviews d).
      { assert (Hin : row ∈ row :: rows') by left.
        rewrite Erows in Hin. apply list_elem_of_filter in Hin. tauto. }
      exact (Hok row Hrow).
  - reflexivity.
Qed.

Lemma delete_review_step (req : request) (d : db) :
  step d (snd (delete_review req d)).
Proof.
  unfold delete_review, try_catch, bind, ret.
  pose proof (select_review_pure (JStr (req_params_id req)) d) as Hs.
  destruct (select_review _ d) as [[rows|] d1]; cbn [snd] in Hs; subst d1;
    [|apply step_same, same_rows_refl].
  destruct rows as [|row rows']; [apply step_same, same_rows_refl|].
  pose proof (delete_review_row_spec (JStr (req_params_id req)) d) as Hd.
  destruct (delete_review_row _ d) as [[[]|] d1]; cbn [snd];
    [|subst d1; apply step_same, same_rows_refl].
  destruct Hd as (k & _ & ->). now eapply step_delete.
Qed.

(** Every call of the API is one step of the store. *)
Lemma run_step (c : call) (d : db) : step d (snd (run c d)).
Proof.
  destruct c as [salt now req|e now req|e now req|now req|now req|req|req];
    cbn [run].
  - apply signup_step.
  - destruct (login_cases e now req d) as [-> _]. apply step_same, same_rows_refl.
  - rewrite refresh_token_unfold. apply step_same, same_rows_refl.
  - apply post_book_step.
  - apply post_review_step.
  - apply put_review_step.
  - apply delete_review_step.
Qed.

End WithLibraries.

End StepFacts.

(** ** Invariants of the store under the calls of the API *)

Module StoreInvariants.

Import Facts StepFacts.

Lemma NoDup_map_filter {A B} (f : A -> B) (P : A -> Prop)
      `{!forall x, Decision (P x)} (l : list A) :
  NoDup (map f l) -> NoDup (map f (filter P l)).
Proof.
  induction l as [|x l IH]; [trivial|]. cbn [map]. intros Hnd.
  apply NoDup_cons in Hnd as [Hx Hnd]. rewrite filter_cons.
  case_decide; [|now apply IH]. cbn [map]. apply NoDup_cons.
  split; [|now apply IH].
  intros Hin. apply Hx. apply list_elem_of_fmap in Hin as (y & E & Hy).
  apply list_elem_of_filter in Hy as [_ Hy].
  apply list_elem_of_fmap. now exists y.
Qed.

Lemma Forall_filter_keep {A} (Q P : A -> Prop)
      `{!forall x, Decision (P x)} (l : list A) :
  Forall Q l -> Forall Q (filter P l).
Proof.
  rewrite !Forall_forall. intros Hall x Hx.
  apply list_elem_of_filter in Hx as [_ Hx]. now apply Hall.
Qed.

Lemma keys_ok_step (d d' : db) : step d d' -> keys_ok d -> keys_ok d'.
Proof.
  intros Hstep ((Hun & Hub) & (Hbn & Hbb) & (Hrn & Hrb)).
  assert (Hfresh : forall {A} (key : A -> Z) (rows : list A) (n : Z),
             Forall (fun x => key x <= n) rows -> n + 1 ∉ map key rows).
  { intros A key rows n Hall Hin. apply list_elem_of_fmap in Hin as (x & E & Hx).
    rewrite Forall_forall in Hall. specialize (Hall x Hx). lia. }
  assert (Hmono : forall {A} (key : A -> Z) (rows : list A) (n m : Z),
             n <= m -> Forall (fun x => key x <= n) rows ->
             Forall (fun x => key x <= m) rows).
  { intros A key rows n m Hle HF. eapply Forall_impl; [exact HF|].
    intros x Hx. cbn in Hx. lia. }
  destruct Hstep as [(Eu & Eb & Er & Su & Sb & Sr)
                    | e p now He Hf -> | row Hid -> | row Hid _ _ ->
                    | g Hg _ -> | P HP ->];
    unfold keys_ok; cbn [users books reviews users_id_seq books_id_seq
                         reviews_id_seq set_reviews].
  - rewrite Eu, Eb, Er. repeat split; eauto.
  - repeat split; auto.
    + rewrite map_app. cbn [map u_id]. apply NoDup_app.
      split; [exact Hun|]. split; [|apply NoDup_singleton].
      intros x Hx Hin. apply list_elem_of_singleton in Hin. subst x.
      revert Hx. now apply Hfresh.
    + apply Forall_app. split; [|repeat constructor; cbn; lia].
      eapply Hmono; [|exact Hub]. lia.
  - repeat split; auto.
    + rewrite map_app. cbn [map]. apply NoDup_app.
      split; [exact Hbn|]. split; [|apply NoDup_singleton].
      intros x Hx Hin. apply list_elem_of_singleton in Hin. subst x.
      rewrite Hid in Hx. revert Hx. now apply Hfresh.
    + apply Forall_app. split; [|repeat constructor; lia].
      eapply Hmono; [|exact Hbb]. lia.
  - repeat split; auto.
    + rewrite map_app. cbn [map]. apply NoDup_app.
      split; [exact Hrn|]. split; [|apply NoDup_singleton].
      intros x Hx Hin. apply list_elem_of_singleton in Hin. subst x.
      rewrite Hid in Hx. revert Hx. now apply Hfresh.
    + apply Forall_app. split; [|repeat constructor; lia].
      eapply Hmono; [|exact Hrb]. lia.
  - repeat split; auto.
    + rewrite <- list_fmap_compose.
      erewrite list_fmap_ext; [exact Hrn|]. intros i r _. cbn. apply Hg.
    + apply Forall_fmap. eapply Forall_impl; [exact Hrb|].
      intros r Hr. cbn. now rewrite (proj1 (Hg r)).
  - repeat split; auto.
    + now apply NoDup_map_filter.
    + now apply Forall_filter_keep.
Qed.

Lemma refers_grown (d d' : db) (r : review_row) :
  grown d d' -> refers d r -> refers d' r.
Proof.
  intros [(us & Eu) (bs & Eb)] [(b & Hb & Hin) Hu]. split.
  - exists b. split; [exact Hb|]. rewrite Eb, map_app.
    apply elem_of_app. now left.
  - intros u Hru. rewrite Eu, map_app. apply elem_of_app. left. now apply Hu.
Qed.

Lemma grown_refl (d : db) : grown d d.
Proof. split; exists []; now rewrite app_nil_r. Qed.

(** Users and books are only ever appended. *)
Lemma grown_step (d d' : db) : step d d' -> grown d d'.
Proof.
  intros [(Eu & Eb & _) | e p now _ _ -> | row _ -> | row _ _ _ ->
         | g _ _ -> | P HP ->]; unfold grown; cbn.
  - rewrite Eu, Eb. apply grown_refl.
  - split; [eexists; reflexivity | exists []; now rewrite app_nil_r].
  - split; [exists []; now rewrite app_nil_r | eexists; reflexivity].
  - apply grown_refl.
  - apply grown_refl.
  - apply grown_refl.
Qed.

Lemma grown_trans (d1 d2 d3 : db) : grown d1 d2 -> grown d2 d3 -> grown d1 d3.
Proof.
  intros [(us & Eu) (bs & Eb)] [(us' & Eu') (bs' & Eb')]. split.
  - exists (us ++ us')%list. now rewrite Eu', Eu, app_assoc.
  - exists (bs ++ bs')%list. now rewrite Eb', Eb, app_assoc.
Qed.

Lemma refs_ok_step (d d' : db) : step d d' -> refs_ok d -> refs_ok d'.
Proof.
  intros Hstep Hok. pose proof (grown_step d d' Hstep) as Hg.
  unfold refs_ok in *.
  assert (Hold : Forall (refers d') (reviews d)).
  { eapply Forall_impl; [exact Hok|]. intros r. now apply refers_grown. }
  destruct Hstep as [(_ & _ & Er & _) | e p now _ _ E | row _ E
                    | row _ Hrow _ E | g Hgk _ E | P HP E].
  - now rewrite Er.
  - subst d'. exact Hold.
  - subst d'. exact Hold.
  - subst d'. cbn [reviews]. apply Forall_app. split; [exact Hold|].
    constructor; [|constructor]. now apply (refers_grown d).
  - subst d'. cbn [reviews set_reviews]. apply Forall_fmap.
    eapply Forall_impl; [exact Hold|]. intros r [(b & Hb & Hin) Hu]. cbn.
    destruct (Hgk r) as (_ & Eb & Eu & _). split.
    + exists b. now rewrite Eb.
    + intros u. rewrite Eu. apply Hu.
  - subst d'. cbn [reviews set_reviews].
    now apply Forall_filter_keep.
Qed.

Lemma ratings_ok_step (d d' : db) : step d d' -> ratings_ok d -> ratings_ok d'.
Proof.
  intros Hstep Hok. unfold ratings_ok.
  destruct Hstep as [(_ & _ & Er & _) | e p now _ _ -> | row _ ->
                    | row _ _ Hrow -> | g _ Hg -> | P HP ->];
    cbn [reviews set_reviews]; try exact Hok.
  - now rewrite Er.
  - apply Forall_app. split; [exact Hok|]. now repeat constructor.
  - apply Forall_fmap. apply Forall_forall. intros r Hr. now apply Hg.
  - now apply Forall_filter_keep.
Qed.

Section WithLibraries.

Context `{Bcrypt} `{Hs256}.

Lemma run_all_invariant (I : db -> Prop) :
  (forall d d', step d d' -> I d -> I d') ->
  forall (cs : list call) (d : db), I d -> I (run_all cs d).
Proof.
  intros Hstep cs. induction cs as [|c cs IH]; intros d Hd; [exact Hd|].
  cbn [run_all fold_left]. apply IH. eapply Hstep; [apply run_step | exact Hd].
Qed.

(** In each table the ids are pairwise distinct and never beyond the
    sequence: so it is of the empty store, and every call keeps it so. *)
Theorem primary_keys_kept (cs : list call) (d : db) :
  keys_ok d -> keys_ok (run_all cs d).
Proof. apply run_all_invariant. exact keys_ok_step. Qed.

(** Every review names a stored book and, when it names a user, a stored
    user; every call keeps it so. *)
Theorem foreign_keys_kept (cs : list call) (d : db) :
  refs_ok d -> refs_ok (run_all cs d).
Proof. apply run_all_invariant. exact refs_ok_step. Qed.

(** Every stored review has a rating, between 1 and 5; every call keeps it
    so: no submission or update stores a missing or out-of-range rating. *)
Theorem ratings_kept (cs : list call) (d : db) :
  ratings_ok d -> ratings_ok (run_all cs d).
Proof. apply run_all_invariant. exact ratings_ok_step. Qed.

Lemma run_all_grown (cs : list call) (d : db) : grown d (run_all cs d).
Proof.
  revert d. induction cs as [|c cs IH]; intros d; [apply grown_refl|].
  cbn [run_all fold_left]. eapply grown_trans; [|apply IH].
  apply grown_step, run_step.
Qed.

(** No call removes or changes a user or a book: after any calls the
    users and the books of before are still there, first and in order. *)
Theorem users_and_books_only_grow (cs : list call) (d : db) :
  (exists us, users (run_all cs d) = (users d ++ us)%list)
  /\ (exists bs, books (run_all cs d) = (books d ++ bs)%list).
Proof. exact (run_all_grown cs d). Qed.

End WithLibraries.

End StoreInvariants.

(** ** Path parameters that are no integers *)

Module InputFacts.

Lemma uint_of_char_no_digit (c : ascii) (d : option Decimal.uint) :
  is_digit c = false -> DecimalString.uint_of_char c d = None.
Proof.
  destruct d as [d|]; [|reflexivity].
  destruct c as [[] [] [] [] [] [] [] []]; try reflexivity; discriminate.
Qed.

Lemma uint_of_string_no_digit (s : string) :
  no_digit s = true -> NilZero.uint_of_string s = None.
Proof.
  destruct s as [|c s]; [reflexivity|]. cbn [no_digit].
  intros Hs. apply andb_true_iff in Hs as [Hc _].
  apply negb_true_iff in Hc.
  unfold NilZero.uint_of_string. cbn [NilEmpty.uint_of_string].
  now apply uint_of_char_no_digit.
Qed.

(** A text without a digit is no integer. *)
Lemma read_int_no_digit (s : string) : no_digit s = true -> read_int s = None.
Proof.
  intros Hs. unfold read_int.
  destruct s as [|c s]; [reflexivity|].
  pose proof Hs as Hcs. cbn [no_digit] in Hs.
  apply andb_true_iff in Hs as [Hc Ht].
  assert (E : NilZero.int_of_string (String c s) = None).
  { unfold NilZero.int_of_string.
    destruct (Ascii.eqb c "-").
    - now rewrite (uint_of_string_no_digit s Ht).
    - now rewrite (uint_of_string_no_digit _ Hcs). }
  rewrite E.
  destruct (Ascii.eqb_spec c "+") as [-> | Hne].
  - now rewrite (uint_of_string_no_digit s Ht).
  - destruct c as [[] [] [] [] [] [] [] []]; try reflexivity.
    now contradict Hne.
Qed.

Lemma int4_no_digit (s : string) : no_digit s = true -> int4 (Some s) = Rejected.
Proof. intros Hs. unfold int4. now rewrite (read_int_no_digit s Hs). Qed.

End InputFacts.

(** ** The review handlers, case by case *)

Module ReviewHandlers.

Import Facts StoreFacts ReviewFacts ReviewUniqueness StatementFacts StepFacts InputFacts.

Lemma rating_accepted (z : Z) :
  1 <= z <= 5 ->
  truthy (JNum z) = true
  /\ lt_num (JNum z) 1 = false
  /\ gt_num (JNum z) 5 = false
  /\ int4 (param (JNum z)) = Resolved (Some z)
  /\ check_rating (Some z) = true.
Proof.
  intros Hz. repeat split.
  - cbn. apply negb_true_iff, Z.eqb_neq. lia.
  - unfold lt_num. cbn. apply Z.ltb_ge. lia.
  - unfold gt_num. cbn. apply Z.ltb_ge. lia.
  - cbn [param]. apply int4_show_int. unfold int4_min, int4_max. lia.
  - cbn. apply andb_true_iff. split; apply Z.leb_le; lia.
Qed.

Lemma filter_id_absent {A} (key : A -> Z) (k : Z) (l : list A) :
  (forall x, x ∈ l -> key x <> k) ->
  filter (fun x => id_is (Some k) (key x) = true) l = [].
Proof.
  induction l as [|x l IH]; intros Hno; [reflexivity|].
  rewrite filter_cons_False.
  - apply IH. intros y Hy. apply Hno. now right.
  - intros E. apply id_is_true in E. injection E as E.
    apply (Hno x); [left | now symmetry].
Qed.

Lemma filter_id_unique {A} (key : A -> Z) (x : A) (l : list A) :
  NoDup (map key l) -> x ∈ l ->
  filter (fun y => id_is (Some (key x)) (key y) = true) l = [x].
Proof.
  induction l as [|y l IH]; intros Hnd Hin; [now apply elem_of_nil in Hin|].
  cbn [map] in Hnd. apply NoDup_cons in Hnd as [Hy Hnd].
  apply elem_of_cons in Hin as [-> | Hin].
  - rewrite filter_cons_True by (now apply id_is_true). f_equal.
    apply filter_id_absent. intros z Hz E. apply Hy. rewrite <- E.
    apply list_elem_of_fmap. now exists z.
  - rewrite filter_cons_False; [now apply IH|].
    intros E. apply id_is_true in E. injection E as E. apply Hy.
    rewrite <- E. apply list_elem_of_fmap. now exists x.
Qed.

(** POST /books/:id/reviews refuses, in this order: a rating that is
    missing, zero or outside 1..5 (400, before any statement is sent); a
    path parameter without a digit (the SELECT rejects: 500); an
    integer that is the id of no book (404).  Nothing is stored in any of
    these cases. *)
Theorem post_review_refusals (now : Z) (req : request) (d : db) :
  (get (req_body req) "rating" = JUndefined
   \/ get (req_body req) "rating" = JNull
   \/ (exists n, get (req_body req) "rating" = JNum n /\ (n < 1 \/ 5 < n)) ->
   post_review now req d
   = (send 400 (JsonError "Rating must be between 1 and 5"), d))
  /\
  (forall z,
      get (req_body req) "rating" = JNum z -> 1 <= z <= 5 ->
      (no_digit (req_params_id req) = true ->
       post_review now req d = (internal_error, d))
      /\ (forall k,
             req_params_id req = show_int k ->
             int4_min <= k <= int4_max ->
             (forall b, b ∈ books d -> b_id b <> k) ->
             post_review now req d
             = (send 404 (JsonError "Book not found"), d))).
Proof.
  split.
  - intros [E | [E | (n & E & Hn)]]; unfold post_review; rewrite E;
      [reflexivity | reflexivity |].
    assert (Hbad : negb (truthy (JNum n)) || lt_num (JNum n) 1
                   || gt_num (JNum n) 5 = true).
    { unfold lt_num, gt_num. cbn. destruct Hn as [Hn | Hn].
      - assert (L : (n <? 1) = true) by (apply Z.ltb_lt; lia).
        rewrite L. now rewrite orb_true_r.
      - assert (L : (5 <? n) = true) by (apply Z.ltb_lt; lia).
        rewrite L. now rewrite !orb_true_r. }
    now rewrite Hbad.
  - intros z E Hz.
    destruct (rating_accepted z Hz) as (Htr & Hlt & Hgt & _).
    split.
    + intros Hbad. unfold post_review. rewrite E, Htr, Hlt, Hgt. cbn [negb orb].
      unfold try_catch, select_book_id, bind, lift. cbn [param].
      now rewrite (int4_no_digit _ Hbad).
    + intros k Hp Hk Hno. unfold post_review.
      rewrite E, Htr, Hlt, Hgt. cbn [negb orb].
      unfold try_catch, select_book_id, bind, lift, read, ret. cbn [param].
      rewrite Hp, (int4_show_int k Hk).
      now rewrite (filter_id_absent b_id k (books d) Hno).
Qed.




Lemma put_guard_passes (rating : jsval) :
  rating = JUndefined \/ (exists z, rating = JNum z /\ 1 <= z <= 5) ->
  truthy rating && (lt_num rating 1 || gt_num rating 5) = false.
Proof.
  intros [-> | (z & -> & Hz)]; [reflexivity|].
  destruct (rating_accepted z Hz) as (_ & -> & -> & _). apply andb_false_r.
Qed.

Lemma review_not_found_at (req : request) (d : db) (k : Z) :
  req_params_id req = show_int k ->
  int4_min <= k <= int4_max ->
  (forall r, r ∈ reviews d -> r_id r <> k) ->
  delete_review req d
  = (send 404 (JsonError "Review not found or not yours to delete"), d)
  /\ (get (req_body req) "rating" = JUndefined
      \/ (exists z, get (req_body req) "rating" = JNum z /\ 1 <= z <= 5) ->
      put_review req d
      = (send 404 (JsonError "Review not found or not yours to edit"), d)).
Proof.
  intros Hp Hk Hno. split.
  - unfold delete_review, try_catch, select_review, bind, lift, read, ret.
    cbn [param]. rewrite Hp, (int4_show_int k Hk).
    now rewrite (filter_id_absent r_id k (reviews d) Hno).
  - intros Hr. unfold put_review. rewrite (put_guard_passes _ Hr).
    unfold try_catch, select_review, bind, lift, read, ret.
    cbn [param]. rewrite Hp, (int4_show_int k Hk).
    now rewrite (filter_id_absent r_id k (reviews d) Hno).
Qed.

(** PUT and DELETE /books/reviews/:id on an id that no review has are
    answered 404, and on a path parameter without a digit 500 (the SELECT
    rejects); the store is left as it was. *)
Theorem review_not_found (req : request) (d : db) :
  (forall k,
      req_params_id req = show_int k ->
      int4_min <= k <= int4_max ->
      (forall r, r ∈ reviews d -> r_id r <> k) ->
      delete_review req d
      = (send 404 (JsonError "Review not found or not yours to delete"), d)
      /\ (get (req_body req) "rating" = JUndefined
          \/ (exists z, get (req_body req) "rating" = JNum z /\ 1 <= z <= 5) ->
          put_review req d
          = (send 404 (JsonError "Review not found or not yours to edit"), d)))
  /\
  (no_digit (req_params_id req) = true ->
   delete_review req d = (internal_error, d)
   /\ (get (req_body req) "rating" = JUndefined
       \/ (exists z, get (req_body req) "rating" = JNum z /\ 1 <= z <= 5) ->
       put_review req d = (internal_error, d))).
Proof.
  split.
  - intros k. apply review_not_found_at.
  - intros Hbad. split.
    + unfold delete_review, try_catch, select_review, bind, lift.
      cbn [param]. now rewrite (int4_no_digit _ Hbad).
    + intros Hr. unfold put_review. rewrite (put_guard_passes _ Hr).
      unfold try_catch, select_review, bind, lift.
      cbn [param]. now rewrite (int4_no_digit _ Hbad).
Qed.

(** PUT looks at the rating with [rating && ...] and [rating || ...]: a
    rating that is falsy (missing, null, 0, false, the empty string) is
    never refused and never stored; two requests for the same id, with the
    same comment and falsy ratings, do the same. *)
Theorem put_review_falsy_rating (req1 req2 : request) (d : db) :
  req_params_id req1 = req_params_id req2 ->
  get (req_body req1) "comment" = get (req_body req2) "comment" ->
  truthy (get (req_body req1) "rating") = false ->
  truthy (get (req_body req2) "rating") = false ->
  put_review req1 d = put_review req2 d
  /\ status (fst (put_review req1 d)) <> 400.
Proof.
  intros Hp Hc H1 H2.
  assert (E : put_review req1 d = put_review req2 d).
  { unfold put_review, or_else. now rewrite Hp, Hc, H1, H2. }
  split; [exact E|].
  unfold put_review, or_else. rewrite H1. cbn [andb].
  unfold try_catch, bind, ret.
  destruct (select_review _ d) as [[[|row rows]|] d1]; cbn iota beta;
    try (cbn; discriminate).
  match goal with
  | |- context [update_review ?r ?c ?k d1] =>
      destruct (update_review r c k d1) as [[res|] d2]
  end; cbn; discriminate.
Qed.

Lemma same_id_same_row (rs : list review_row) (x y : review_row) :
  NoDup (map r_id rs) -> x ∈ rs -> y ∈ rs -> r_id x = r_id y -> x = y.
Proof.
  induction rs as [|r rs IH]; intros Hnd Hx Hy E; [now apply elem_of_nil in Hx|].
  cbn [map] in Hnd. apply NoDup_cons in Hnd as [Hr Hnd].
  apply elem_of_cons in Hx as [-> | Hx]; apply elem_of_cons in Hy as [-> | Hy].
  - reflexivity.
  - exfalso. apply Hr. rewrite E. apply list_elem_of_fmap. now exists y.
  - exfalso. apply Hr. rewrite <- E. apply list_elem_of_fmap. now exists x.
  - now apply IH.
Qed.

(** PUT /books/reviews/:id is a partial update.  On a stored review it
    answers 200 with the row in which the rating, if the body has one, and
    the comment, if the body has the property at all, are replaced, and
    everything else (id, book, user, creation time) is kept; no other row
    of the table changes. *)
Theorem put_review_partial (req : request) (d : db) (row : review_row)
        (rating : option Z) (comment : option (option string)) :
  NoDup (map r_id (reviews d)) ->
  row ∈ reviews d ->
  req_params_id req = show_int (r_id row) ->
  int4_min <= r_id row <= int4_max ->
  get (req_body req) "rating"
  = match rating with Some z => JNum z | None => JUndefined end ->
  (forall z, rating = Some z -> 1 <= z <= 5) ->
  get (req_body req) "comment"
  = match comment with
    | Some (Some c) => JStr c
    | Some None => JNull
    | None => JUndefined
    end ->
  (forall c, comment = Some (Some c) -> has_nul c = false) ->
  check_rating (r_rating row) = true ->
  (forall c, r_comment row = Some c -> has_nul c = false) ->
  let row' := set_rating_comment (merged_rating rating row)
                                 (merged_comment comment row) row in
  put_review req d
  = (send 200 (JsonReview (Some row')),
     set_reviews d (map (fun r => if decide (r = row) then row' else r)
                        (reviews d))).
Proof.
  intros Hnd Hin Hp Hk Hr Hz Hc Hclean Hold Holdc. cbv zeta.
  pose proof (filter_id_unique r_id row (reviews d) Hnd Hin) as Hf.
  assert (Hguard : truthy (get (req_body req) "rating")
                   && (lt_num (get (req_body req) "rating") 1
                       || gt_num (get (req_body req) "rating") 5) = false).
  { apply put_guard_passes. rewrite Hr. destruct rating as [z|]; [|now left].
    right. exists z. split; [reflexivity|]. now apply Hz. }
  assert (Hrat : int4 (param (or_else (get (req_body req) "rating")
                                      (rating_of row)))
                 = Resolved (merged_rating rating row)
                 /\ check_rating (merged_rating rating row) = true).
  { rewrite Hr. destruct rating as [z|]; cbn [merged_rating].
    - destruct (rating_accepted z (Hz z eq_refl)) as (Htr & _ & _ & Hi & Hck).
      unfold or_else. rewrite Htr. now split.
    - unfold or_else. cbn [truthy]. split; [|exact Hold].
      unfold rating_of. destruct (r_rating row) as [z0|] eqn:E0; [|reflexivity].
      cbn [param]. apply int4_show_int. cbn in Hold.
      apply andb_true_iff in Hold as [H1 H2]. apply Z.leb_le in H1, H2.
      unfold int4_min, int4_max. lia. }
  destruct Hrat as [Hrat Hck].
  assert (Hcom : text (param (if decide (get (req_body req) "comment" <> JUndefined)
                              then get (req_body req) "comment"
                              else comment_of row))
                 = Resolved (merged_comment comment row)).
  { rewrite Hc. destruct comment as [[c|]|]; cbn [merged_comment].
    - rewrite decide_True by discriminate. cbn [param text].
      now rewrite (Hclean c eq_refl).
    - rewrite decide_True by discriminate. reflexivity.
    - rewrite decide_False by (intros E; now apply E).
      unfold comment_of. destruct (r_comment row) as [c|] eqn:Ec; [|reflexivity].
      cbn [param text]. now rewrite (Holdc c eq_refl). }
  unfold put_review. rewrite Hguard.
  unfold try_catch, select_review, update_review, guard, bind, lift, read, ret.
  cbn [param]. rewrite Hp, (int4_show_int _ Hk), Hf.
  rewrite Hrat, Hcom, Hf, Hck. cbn [map head]. do 2 f_equal.
  apply map_ext_in. intros r Hr'. apply list_elem_of_In in Hr'.
  destruct (decide (r = row)) as [-> | Hne].
  - cbn. now rewrite Z.eqb_refl.
  - destruct (id_is (Some (r_id row)) (r_id r)) eqn:E; [|reflexivity].
    exfalso. apply Hne. apply id_is_true in E. injection E as E.
    now apply (same_id_same_row (reviews d)).
Qed.

(** DELETE /books/reviews/:id removes the review and nothing else, and
    only once: the same request again is answered 404, and so is a PUT for
    that id. *)
Theorem delete_review_once (req : request) (d : db) (row : review_row) :
  NoDup (map r_id (reviews d)) ->
  row ∈ reviews d ->
  req_params_id req = show_int (r_id row) ->
  int4_min <= r_id row <= int4_max ->
  let d1 := snd (delete_review req d) in
  fst (delete_review req d)
  = send 200 (JsonMessage "Review deleted successfully")
  /\ (row ∉ reviews d1)
  /\ (forall r, r ∈ reviews d1 <-> (r ∈ reviews d /\ r <> row))
  /\ users d1 = users d /\ books d1 = books d
  /\ delete_review req d1
     = (send 404 (JsonError "Review not found or not yours to delete"), d1)
  /\ (get (req_body req) "rating" = JUndefined
      \/ (exists z, get (req_body req) "rating" = JNum z /\ 1 <= z <= 5) ->
      put_review req d1
      = (send 404 (JsonError "Review not found or not yours to edit"), d1)).
Proof.
  intros Hnd Hin Hp Hk. cbv zeta.
  pose proof (filter_id_unique r_id row (reviews d) Hnd Hin) as Hf.
  assert (E : delete_review req d
              = (send 200 (JsonMessage "Review deleted successfully"),
                 set_reviews d (filter (fun r => id_is (Some (r_id row)) (r_id r) <> true)
                                       (reviews d)))).
  { unfold delete_review, try_catch, select_review, delete_review_row,
      bind, lift, read, ret.
    cbn [param]. now rewrite Hp, (int4_show_int _ Hk), Hf. }
  rewrite E. cbn [fst snd].
  assert (Hmem : forall r,
             r ∈ reviews (set_reviews d
                            (filter (fun r => id_is (Some (r_id row)) (r_id r) <> true)
                                    (reviews d)))
             <-> r ∈ reviews d /\ r <> row).
  { intros r. cbn [reviews set_reviews]. rewrite list_elem_of_filter. split.
    - intros [Hid Hr]. split; [exact Hr|]. intros ->. apply Hid.
      now apply id_is_true.
    - intros [Hr Hne]. split; [|exact Hr]. intros Hid. apply Hne.
      apply id_is_true in Hid. injection Hid as Hid.
      now apply (same_id_same_row (reviews d)). }
  assert (Hgone : forall r,
             r ∈ reviews (set_reviews d
                            (filter (fun r => id_is (Some (r_id row)) (r_id r) <> true)
                                    (reviews d)))
             -> r_id r <> r_id row).
  { intros r Hr E'. cbn [reviews set_reviews] in Hr.
    apply list_elem_of_filter in Hr as [Hid _]. apply Hid.
    apply id_is_true. now rewrite E'. }
  split; [reflexivity|]. split.
  { intros Hrow. apply Hmem in Hrow as [_ Hne]. now apply Hne. }
  split; [exact Hmem|]. split; [reflexivity|]. split; [reflexivity|].
  pose proof (review_not_found_at req _ (r_id row) Hp Hk Hgone) as [Hd Hu].
  split; [exact Hd | exact Hu].
Qed.

End ReviewHandlers.

(** ** Books, accounts and sessions, case by case *)

Module AccountHandlers.

Import Facts TextFacts StoreFacts UsersFacts AuthFacts TokenFacts
       StatementFacts StepFacts StoreInvariants ReviewFacts ReviewHandlers.




Section WithLibraries.

Context `{Bcrypt} `{Hs256}.

(** Login tells an unknown email from a wrong password: for an email sent
    as a text and a password sent as a text, the answer is 400 "Invalid
    email" exactly when no stored user has that email. *)
Theorem login_tells_unknown_email (e : env) (now : Z) (req : request) (d : db)
        (email password : string) :
  get (req_body req) "email" = JStr email ->
  get (req_body req) "password" = JStr password ->
  has_nul email = false ->
  (fst (login e now req d) = send 400 (JsonError "Invalid email")
   <-> forall u, u ∈ users d -> u_email u <> email).
Proof.
  intros He Hp Hclean.
  unfold login, try_catch, select_users_by_email, bind, lift, read, ret.
  rewrite He, Hp. cbn [param text]. rewrite Hclean.
  destruct (filter (fun u => u_email u = email) (users d)) as [|u us] eqn:Ef.
  - split; [|reflexivity]. intros _ u Hu E.
    eapply filter_nil_not_elem_of; [exact Ef | exact E | exact Hu].
  - split.
    + cbn [bcrypt_compare]. unfold jwt_sign.
      destruct (compare_hash password (u_password u)); cbn;
        [destruct (secret_key (JWT_SECRET e)); cbn|]; discriminate.
    + intros Hno. exfalso.
      assert (Hu : u ∈ filter (fun u => u_email u = email) (users d))
        by (rewrite Ef; left).
      apply list_elem_of_filter in Hu as [Eu Hu]. exact (Hno u Hu Eu).
Qed.

(** An email, once registered, stays taken: after any calls whatever, a
    signup with the email of a stored user is answered 400 "Email already
    exists" and changes nothing. *)
Theorem email_stays_taken (cs : list call) (d : db) (u : user_row)
        (salt : string) (now : Z) (req : request) :
  u ∈ users d ->
  has_nul (u_email u) = false ->
  param (get (req_body req) "email") = Some (u_email u) ->
  signup salt now req (run_all cs d)
  = (send 400 (JsonError "Email already exists"), run_all cs d).
Proof.
  intros Hin Hclean He.
  apply (signup_email_taken salt now req (run_all cs d) u); [|exact Hclean|exact He].
  destruct (run_all_grown cs d) as [(us & ->) _].
  apply elem_of_app. now left.
Qed.

Lemma last_cons_default (t t0 : Z) (rest : list Z) :
  List.last (t :: rest) t0 = List.last rest t.
Proof.
  revert t t0. induction rest as [|r rest IH]; intros t t0; [reflexivity|].
  change (List.last (t :: r :: rest) t0) with (List.last (r :: rest) t0).
  now rewrite !IH.
Qed.

(** The refresh handler takes any token the secret signed, an access token
    as well as a refresh token.  So an access token presented as the
    [refreshToken] cookie within its minute is exchanged for a new one, and
    a run of such exchanges, each within a minute of the one before, never
    ends: no refresh token is needed, and the seven days do not bound it. *)
Theorem access_token_renews_itself (e : env) (k : string) (email : jsval)
        (t0 : Z) (clocks : list Z) (d : db) :
  secret_key (JWT_SECRET e) = Some k ->
  each_within_a_minute t0 clocks ->
  renew_repeatedly e (Token (issue k email span_1m t0)) clocks d
  = Some (Token (issue k email span_1m (List.last clocks t0))).
Proof.
  intros Hk. revert t0. induction clocks as [|t rest IH]; intros t0 Hc.
  - reflexivity.
  - destruct Hc as [Ht Hrest]. cbn [renew_repeatedly].
    rewrite refresh_token_unfold. cbn [req_cookies_refreshToken wire_truthy fst].
    rewrite (jwt_verify_issued k _ _ _ _ _ Hk).
    change span_1m with 60.
    rewrite (proj2 (Z.ltb_lt _ _) Ht), Hk. cbn [body send].
    rewrite get_signed_email. change 60 with span_1m.
    rewrite (IH t Hrest). now rewrite (last_cons_default t t0 rest).
Qed.

(** The cookie login sets: named [refreshToken], HTTP-only, SameSite
    strict, not marked Secure, and with a [maxAge] (in milliseconds) that is
    exactly the lifetime of the token it carries. *)
Theorem refresh_cookie_attributes (e : env) (now : Z) (req : request) (d : db)
        (c : cookie) :
  c ∈ cookies_set (fst (login e now req d)) ->
  c_name c = "refreshToken"
  /\ c_httpOnly c = true
  /\ c_sameSite c = "strict"
  /\ c_secure c = false
  /\ exists t iat exp,
      c_value c = Token t
      /\ get (claims t) "iat" = JNum iat
      /\ get (claims t) "exp" = JNum exp
      /\ c_maxAge c = 1000 * (exp - iat)
      /\ cookies_set (fst (login e now req d)) = [c].
Proof.
  intros Hc.
  destruct (login_cases e now req d) as [_ [E | [E | [E | (k & Hk & E)]]]];
    rewrite E in Hc |- *; cbn [cookies_set send internal_error] in Hc |- *;
    try (now apply elem_of_nil in Hc).
  apply list_elem_of_singleton in Hc. subst c.
  cbn [refresh_cookie c_name c_httpOnly c_sameSite c_secure c_value c_maxAge].
  repeat split.
  eexists _, now, (now + span_7d). split; [reflexivity|].
  cbn [issue claims]. rewrite get_signed_iat, get_signed_exp.
  repeat split. unfold span_7d. lia.
Qed.

End WithLibraries.

End AccountHandlers.

(** ** LOWER and LIKE *)

Module LikeFacts.

Import Facts.

Lemma lower_app (a b : string) : lower (a ++ b) = (lower a ++ lower b)%string.
Proof.
  induction a as [|c a IH]; [reflexivity|].
  change (String c a ++ b)%string with (String c (a ++ b)).
  cbn [lower]. now rewrite IH.
Qed.

Lemma lower_ascii_wildcard (c : ascii) :
  wildcard (lower_ascii c) = wildcard c
  /\ Ascii.eqb (lower_ascii c) "%" = Ascii.eqb c "%"
  /\ Ascii.eqb (lower_ascii c) zero = Ascii.eqb c zero.
Proof. destruct c as [[] [] [] [] [] [] [] []]; repeat split. Qed.

Lemma plain_lower (s : string) : plain (lower s) = plain s.
Proof.
  induction s as [|c s IH]; [reflexivity|]. cbn [lower plain].
  now rewrite IH, (proj1 (lower_ascii_wildcard c)).
Qed.

Lemma all_percent_lower (s : string) : all_percent (lower s) = all_percent s.
Proof.
  induction s as [|c s IH]; [reflexivity|]. cbn [lower all_percent].
  now rewrite IH, (proj1 (proj2 (lower_ascii_wildcard c))).
Qed.

Lemma has_nul_lower (s : string) : has_nul (lower s) = has_nul s.
Proof.
  induction s as [|c s IH]; [reflexivity|].
  cbn [lower]. change (has_nul (String ?a ?t)) with (Ascii.eqb a zero || has_nul t).
  now rewrite IH, (proj2 (proj2 (lower_ascii_wildcard c))).
Qed.

Lemma has_nul_app (a b : string) :
  has_nul (a ++ b) = has_nul a || has_nul b.
Proof.
  induction a as [|c a IH]; [reflexivity|].
  change (has_nul (String c a ++ b)) with (Ascii.eqb c zero || has_nul (a ++ b)).
  change (has_nul (String c a)) with (Ascii.eqb c zero || has_nul a).
  now rewrite IH, orb_assoc.
Qed.

(** The pattern the handlers send for a keyword. *)
Lemma has_nul_wrapped (k : string) :
  has_nul ("%" ++ k ++ "%") = has_nul k.
Proof.
  change ("%" ++ k ++ "%")%string with (String "%" (k ++ "%")).
  change (has_nul (String ?a ?t)) with (Ascii.eqb a zero || has_nul t).
  rewrite has_nul_app. cbn [Ascii.eqb Bool.eqb zero orb].
  change (has_nul "%") with false. now rewrite orb_false_r.
Qed.

Lemma lower_wrapped (k : string) :
  lower ("%" ++ k ++ "%") = ("%" ++ lower k ++ "%")%string.
Proof.
  change ("%" ++ k ++ "%")%string with (String "%" (k ++ "%")).
  cbn [lower]. now rewrite lower_app.
Qed.

(** No pattern that ends in [%] ends in a lone backslash. *)
Lemma tokens_closed (n : nat) (k : string) :
  (String.length k <= n)%nat -> is_Some (tokens (k ++ "%")).
Proof.
  revert k. induction n as [|n IH]; intros k Hn.
  - destruct k; [now eexists | cbn in Hn; lia].
  - destruct k as [|c k]; [now eexists|].
    cbn [String.length] in Hn.
    change (String c k ++ "%")%string with (String c (k ++ "%")).
    cbn [tokens].
    assert (Hk : is_Some (tokens (k ++ "%"))) by (apply IH; lia).
    destruct (Ascii.eqb c "\").
    + destruct k as [|c' k']; [now eexists|].
      change (String c' k' ++ "%")%string with (String c' (k' ++ "%")).
      cbn iota.
      assert (Hk' : is_Some (tokens (k' ++ "%")))
        by (apply IH; cbn [String.length] in Hn; lia).
      destruct Hk' as [ts ->]. now eexists.
    + destruct Hk as [ts ->].
      destruct (Ascii.eqb c "%"); [now eexists|].
      destruct (Ascii.eqb c "_"); now eexists.
Qed.

Lemma tokens_wrapped (k : string) :
  exists ts, tokens ("%" ++ k ++ "%") = Some (Any :: ts).
Proof.
  destruct (tokens_closed (String.length k) k (le_n _)) as [ts E].
  exists ts. change ("%" ++ k ++ "%")%string with (String "%" (k ++ "%")).
  cbn [tokens Ascii.eqb Bool.eqb]. now rewrite E.
Qed.

Lemma tokens_plain (k r : string) :
  plain k = true ->
  tokens (k ++ r) = (fun ts => (lits k ++ ts)%list) <$> tokens r.
Proof.
  induction k as [|c k IH]; intros Hp.
  - change ("" ++ r)%string with r. now destruct (tokens r).
  - cbn [plain] in Hp. apply andb_true_iff in Hp as [Hc Hp].
    change (String c k ++ r)%string with (String c (k ++ r)).
    cbn [tokens]. unfold wildcard in Hc.
    apply negb_true_iff, orb_false_iff in Hc as [Hc H3].
    apply orb_false_iff in Hc as [H1 H2].
    rewrite H1, H2, H3, (IH Hp). now destruct (tokens r).
Qed.

Lemma tokens_wrapped_plain (k : string) :
  plain k = true ->
  tokens ("%" ++ k ++ "%") = Some (Any :: (lits k ++ [Any])%list).
Proof.
  intros Hp. change ("%" ++ k ++ "%")%string with (String "%" (k ++ "%")).
  cbn [tokens Ascii.eqb Bool.eqb]. now rewrite (tokens_plain k "%" Hp).
Qed.

Lemma matches_any (ts : list tok) (s : string) :
  matches (Any :: ts) s
  = matches ts s
    || match s with
       | String _ s' => matches (Any :: ts) s'
       | EmptyString => false
       end.
Proof. destruct s; reflexivity. Qed.

Lemma matches_any_only (s : string) : matches [Any] s = true.
Proof.
  induction s as [|c s IH]; [reflexivity|].
  rewrite matches_any, IH. apply orb_true_r.
Qed.

Lemma matches_lits (k : string) (s : string) :
  matches (lits k ++ [Any]) s = String.prefix k s.
Proof.
  revert s. induction k as [|c k IH]; intros s.
  - cbn [lits list_ascii_of_string map app]. rewrite matches_any_only.
    now destruct s.
  - destruct s as [|c' s]; [reflexivity|].
    change (lits (String c k)) with (Lit c :: lits k).
    cbn [app matches String.prefix]. rewrite IH.
    destruct (Ascii.eqb_spec c c') as [->|Hne].
    + now destruct (ascii_dec c' c').
    + now destruct (ascii_dec c c').
Qed.

Lemma matches_contains (k s : string) :
  matches (Any :: (lits k ++ [Any])%list) s = contains k s.
Proof.
  induction s as [|c s IH].
  - rewrite matches_any, matches_lits. reflexivity.
  - rewrite matches_any, matches_lits, IH. reflexivity.
Qed.

(** A keyword without wildcards is looked for as it stands, letter case
    apart. *)
Lemma pattern_plain (k : string) :
  plain k = true -> has_nul k = false ->
  pattern (Some ("%" ++ k ++ "%")%string)
  = Resolved (Some (Any :: (lits (lower k) ++ [Any])%list)).
Proof.
  intros Hp Hn. unfold pattern. cbn [text]. rewrite has_nul_wrapped, Hn.
  rewrite lower_wrapped, tokens_wrapped_plain; [reflexivity|].
  now rewrite plain_lower.
Qed.

Lemma lower_like_plain (k : string) (column : option string) :
  lower_like column (Some (Any :: (lits (lower k) ++ [Any])%list))
  = mentions k column.
Proof.
  destruct column as [s|]; [|reflexivity]. cbn [lower_like mentions].
  apply matches_contains.
Qed.

(** What [contains] decides. *)
Lemma prefix_app (k s : string) :
  String.prefix k s = true <-> exists b, s = (k ++ b)%string.
Proof.
  revert s. induction k as [|c k IH]; intros s.
  - split; [intros _; now exists s | intros _; now destruct s].
  - destruct s as [|c' s]; cbn [String.prefix].
    + split; [discriminate | intros (b & E); discriminate E].
    + destruct (ascii_dec c c') as [->|Hne].
      * rewrite IH. split; intros (b & E); exists b.
        -- now rewrite E.
        -- now injection E.
      * split; [discriminate|]. intros (b & E). injection E as E1 E2.
        now contradict Hne.
Qed.

Lemma contains_app (k s : string) :
  contains k s = true <-> exists a b, s = (a ++ k ++ b)%string.
Proof.
  induction s as [|c s IH].
  - cbn [contains]. rewrite orb_false_r, prefix_app. split.
    + intros (b & E). now exists "", b.
    + intros (a & b & E). destruct a; [now exists b | discriminate E].
  - cbn [contains]. rewrite orb_true_iff, prefix_app, IH. split.
    + intros [(b & E) | (a & b & E)].
      * now exists "", b.
      * exists (String c a), b. now rewrite E.
    + intros (a & b & E). destruct a as [|c' a].
      * left. now exists b.
      * right. injection E as _ E. now exists a, b.
Qed.

(** A keyword of nothing but [%] is met by every text. *)
Lemma tokens_all_percent (k : string) :
  all_percent k = true ->
  tokens k = Some (repeat Any (String.length k)).
Proof.
  induction k as [|c k IH]; [reflexivity|]. cbn [all_percent].
  intros Hp. apply andb_true_iff in Hp as [Hc Hp].
  apply Ascii.eqb_eq in Hc. subst c.
  cbn [tokens Ascii.eqb Bool.eqb String.length repeat]. now rewrite (IH Hp).
Qed.

Lemma matches_repeat_any (n : nat) (s : string) :
  matches (repeat Any (S n)) s = true.
Proof.
  induction n as [|n IH].
  - apply matches_any_only.
  - change (repeat Any (S (S n))) with (Any :: repeat Any (S n)).
    rewrite matches_any, IH. reflexivity.
Qed.

Lemma all_percent_plain_nul (k : string) :
  all_percent k = true -> has_nul k = false.
Proof.
  induction k as [|c k IH]; [reflexivity|]. cbn [all_percent].
  intros Hp. apply andb_true_iff in Hp as [Hc Hp].
  apply Ascii.eqb_eq in Hc. subst c.
  change (has_nul (String ?a ?t)) with (Ascii.eqb a zero || has_nul t).
  now rewrite (IH Hp).
Qed.

End LikeFacts.

(** ** GET /books/search *)

Module SearchFacts.

Import Facts LikeFacts.

Lemma filter_all {A} (P : A -> Prop) `{!forall x, Decision (P x)} (l : list A) :
  (forall x, x ∈ l -> P x) -> filter P l = l.
Proof.
  induction l as [|x l IH]; intros Hall; [reflexivity|].
  rewrite filter_cons_True by (apply Hall; left).
  f_equal. apply IH. intros y Hy. apply Hall. now right.
Qed.

(** GET /books/search answers 400 when the [query] parameter is missing or
    empty, 500 when the keyword has a NUL character (the store refuses the
    text), and 200 in every other case, whatever the keyword: no keyword
    makes a pattern the store cannot read.  The rows of a 200 are stored
    books, none more often than the table has it, and the store is left as
    it was. *)
Theorem get_search_outcomes (req : read_request) (d : db) :
  let v := get (rq_query req) "query" in
  a_status (fst (get_search req d))
  = (if truthy v then if has_nul (to_string v) then 500 else 200 else 400)
  /\ snd (get_search req d) = d
  /\ (a_status (fst (get_search req d)) = 200 ->
      exists rows,
        a_body (fst (get_search req d)) = FoundBooks rows
        /\ rows ⊆+ books d).
Proof.
  cbv zeta. unfold get_search.
  destruct (truthy (get (rq_query req) "query")); cbn [negb];
    [|split; [reflexivity|]; split; [reflexivity|]; cbn; discriminate].
  unfold try_read, search_books, bind, lift, read, ret, pattern.
  cbn [text]. rewrite has_nul_wrapped.
  destruct (has_nul (to_string (get (rq_query req) "query")));
    [split; [reflexivity|]; split; [reflexivity|]; cbn; discriminate|].
  rewrite lower_wrapped.
  destruct (tokens_wrapped (lower (to_string (get (rq_query req) "query"))))
    as [ts ->].
  cbn [fst snd a_status a_body].
  split; [reflexivity|]. split; [reflexivity|]. intros _.
  eexists. split; [reflexivity|]. apply sublist_submseteq, sublist_filter.
Qed.

(** Over titles and authors in ASCII, an ASCII keyword without [%], [_]
    and backslash finds the books whose title or author has it somewhere,
    the case of the letters apart; the SELECT has no ORDER BY, so that the
    rows are stated up to their order. *)
Theorem get_search_keyword (req : read_request) (d : db) (k : string) :
  get (rq_query req) "query" = JStr k ->
  k <> "" ->
  plain k = true ->
  has_nul k = false ->
  ascii_text k = true ->
  Forall (fun b => ascii_text (b_title b) && ascii_text (b_author b) = true)
         (books d) ->
  exists rows,
    get_search req d = (mk_answer 200 (FoundBooks rows), d)
    /\ rows ≡ₚ filter (fun b => mentions k (Some (b_title b))
                                || mentions k (Some (b_author b)) = true)
                      (books d).
Proof.
  intros Hq Hne Hp Hn _ _. unfold get_search. rewrite Hq. cbn [truthy].
  apply String.eqb_neq in Hne. rewrite Hne. cbn [negb to_string].
  unfold try_read, search_books, bind, lift, read, ret.
  rewrite (pattern_plain k Hp Hn). eexists. split; [reflexivity|].
  erewrite list_filter_iff; [reflexivity|].
  intros b. now rewrite !lower_like_plain.
Qed.

(** The keyword goes into the pattern as it is: one made of [%] alone
    finds every book. *)
Theorem get_search_percent (req : read_request) (d : db) (k : string) :
  get (rq_query req) "query" = JStr k ->
  k <> "" ->
  all_percent k = true ->
  exists rows,
    get_search req d = (mk_answer 200 (FoundBooks rows), d)
    /\ rows ≡ₚ books d.
Proof.
  intros Hq Hne Hp. unfold get_search. rewrite Hq. cbn [truthy].
  apply String.eqb_neq in Hne. rewrite Hne. cbn [negb to_string].
  unfold try_read, search_books, bind, lift, read, ret, pattern.
  cbn [text]. rewrite has_nul_wrapped, (all_percent_plain_nul k Hp).
  rewrite lower_wrapped.
  assert (Hall : all_percent ("%" ++ lower k ++ "%") = true).
  { change ("%" ++ lower k ++ "%")%string with (String "%" (lower k ++ "%")).
    cbn [all_percent Ascii.eqb Bool.eqb andb].
    rewrite <- (all_percent_lower k) in Hp. revert Hp.
    generalize (lower k). intros s. induction s as [|c s IH]; [reflexivity|].
    change (String c s ++ "%")%string with (String c (s ++ "%")).
    cbn [all_percent]. intros Hs. apply andb_true_iff in Hs as [-> Hs].
    now apply IH. }
  rewrite (tokens_all_percent _ Hall).
  change ("%" ++ lower k ++ "%")%string with (String "%" (lower k ++ "%")).
  cbn [String.length]. eexists. split; [reflexivity|].
  rewrite filter_all; [reflexivity|]. intros b _. cbn [lower_like].
  now rewrite matches_repeat_any.
Qed.

End SearchFacts.

(** ** GET /books *)

Module ListingFacts.

Import Facts LikeFacts.

Lemma show_int_not_empty (n : Z) : String.eqb (show_int n) "" = false.
Proof.
  apply String.eqb_neq. intros E.
  pose proof (read_int_show_int n) as R. rewrite E in R. discriminate R.
Qed.

Lemma to_number_given (v : jsval) (default n : Z) :
  given v default n -> to_number (default_to v (JNum default)) = Some n.
Proof.
  intros [[-> ->] | ->]; [reflexivity|]. cbn [default_to to_number].
  now rewrite show_int_not_empty, read_int_show_int.
Qed.

Lemma param_given (v : jsval) (default n : Z) :
  given v default n -> param (default_to v (JNum default)) = Some (show_int n).
Proof. now intros [[-> ->] | ->]. Qed.

Lemma int8_show_int (n : Z) :
  exact n -> int8 (Some (show_int n)) = Resolved (Some n).
Proof.
  intros [Hlo Hhi]. unfold int8. rewrite read_int_show_int.
  assert (L : (int8_min <=? n) = true)
    by (apply Z.leb_le; unfold int8_min; lia).
  assert (U : (n <=? int8_max) = true)
    by (apply Z.leb_le; unfold int8_max; lia).
  now rewrite L, U.
Qed.

(** The placeholders of the text the handler builds and the parameters it
    pushes line up. *)
Lemma wrapped_keyword (v : jsval) :
  ((fun k => Some ("%" ++ k ++ "%")%string) <$> keyword v)
  = if truthy v then Some (Some ("%" ++ to_string v ++ "%")%string) else None.
Proof. unfold keyword. now destruct (truthy v). Qed.

Lemma optional_pattern_any (v : jsval) :
  optional_pattern ((fun k => Some ("%" ++ k ++ "%")%string) <$> keyword v)
  = Rejected
  \/ exists f,
      optional_pattern ((fun k => Some ("%" ++ k ++ "%")%string) <$> keyword v)
      = Resolved f.
Proof.
  destruct (optional_pattern _) as [f|]; [right; now exists f | now left].
Qed.

Lemma optional_pattern_plain (v : jsval) :
  (forall k, keyword v = Some k -> plain k = true /\ has_nul k = false) ->
  exists f,
    optional_pattern ((fun k => Some ("%" ++ k ++ "%")%string) <$> keyword v)
    = Resolved f
    /\ forall column, passes column f = wanted (keyword v) column.
Proof.
  intros Hk. destruct (keyword v) as [k|]; cbn [fmap option_fmap option_map].
  - destruct (Hk k eq_refl) as [Hp Hn]. cbn [optional_pattern].
    rewrite (pattern_plain k Hp Hn). eexists. split; [reflexivity|].
    intros column. cbn [passes wanted]. apply lower_like_plain.
  - exists None. now split.
Qed.

Lemma limit_offset_counts {A} (n o : Z) (rows : list A) :
  0 <= n -> 0 <= o ->
  limit_offset (Some n) (Some o) rows
  = Resolved (firstn (Z.to_nat n) (skipn (Z.to_nat o) rows)).
Proof.
  intros Hn Ho. unfold limit_offset.
  assert (L : (n <? 0) = false) by (apply Z.ltb_ge; lia).
  assert (O : (o <? 0) = false) by (apply Z.ltb_ge; lia).
  now rewrite L, O.
Qed.

Lemma limit_offset_negative {A} (n o : Z) (rows : list A) :
  n < 0 \/ o < 0 -> limit_offset (Some n) (Some o) rows = Rejected.
Proof.
  intros Hneg. unfold limit_offset.
  destruct Hneg as [Hn | Ho].
  - now rewrite (proj2 (Z.ltb_lt _ _) Hn).
  - rewrite (proj2 (Z.ltb_lt _ _) Ho). now rewrite orb_true_r.
Qed.

Lemma limit_offset_sublist {A} (l o : option Z) (rows rows' : list A) :
  limit_offset l o rows = Resolved rows' -> rows' `sublist_of` rows.
Proof.
  unfold limit_offset. destruct (_ || _); [discriminate|].
  intros [= <-].
  assert (Ho : match o with
               | Some z => skipn (Z.to_nat z) rows
               | None => rows
               end `sublist_of` rows)
    by (destruct o; [apply sublist_drop | reflexivity]).
  destruct l; [|exact Ho].
  etransitivity; [apply sublist_take | exact Ho].
Qed.

#[local] Instance not_older_total {A} (created_at : A -> Z) :
  Total (not_older created_at).
Proof. intros a b. unfold not_older. lia. Qed.

#[local] Instance not_older_trans {A} (created_at : A -> Z) :
  Transitive (not_older created_at).
Proof. intros a b c. unfold not_older. lia. Qed.

Lemma newest_first_sorted {A} (created_at : A -> Z) (rows : list A) :
  StronglySorted (not_older created_at) (newest_first created_at rows).
Proof. apply StronglySorted_merge_sort; apply _. Qed.

Lemma newest_first_rows {A} (created_at : A -> Z) (rows : list A) :
  newest_first created_at rows ≡ₚ rows.
Proof. apply merge_sort_Permutation. Qed.

Lemma StronglySorted_sublist {A} (R : relation A) (k l : list A) :
  k `sublist_of` l -> StronglySorted R l -> StronglySorted R k.
Proof.
  induction 1 as [|x k l Hs IH|x k l Hs IH]; intros Hl.
  - constructor.
  - apply StronglySorted_inv in Hl as [Hl Hx]. constructor; [now apply IH|].
    apply Forall_forall. intros y Hy.
    apply (proj1 (Forall_forall _ _) Hx). eapply elem_of_sublist; eauto.
  - apply StronglySorted_inv in Hl as [Hl _]. now apply IH.
Qed.

Lemma same_key_same_row {A} (key : A -> Z) (l : list A) (x y : A) :
  NoDup (map key l) -> x ∈ l -> y ∈ l -> key x = key y -> x = y.
Proof.
  induction l as [|r l IH]; intros Hnd Hx Hy E; [now apply elem_of_nil in Hx|].
  cbn [map] in Hnd. apply NoDup_cons in Hnd as [Hr Hnd].
  apply elem_of_cons in Hx as [-> | Hx]; apply elem_of_cons in Hy as [-> | Hy].
  - reflexivity.
  - exfalso. apply Hr. rewrite E. apply list_elem_of_fmap. now exists y.
  - exfalso. apply Hr. rewrite <- E. apply list_elem_of_fmap. now exists x.
  - now apply IH.
Qed.

(** With no two rows created at the same instant, there is one way to put
    rows newest first. *)
Lemma newest_first_unique {A} (created_at : A -> Z) (all rows sorted : list A) :
  NoDup (map created_at all) ->
  rows `sublist_of` all ->
  sorted ≡ₚ rows ->
  StronglySorted (not_older created_at) sorted ->
  newest_first created_at rows = sorted.
Proof.
  intros Hnd Hsub Hperm Hsorted.
  apply (StronglySorted_unique_strong (not_older created_at)).
  - intros x y Hx Hy Hxy Hyx. unfold not_older in Hxy, Hyx.
    apply (same_key_same_row created_at all); [exact Hnd | | | lia].
    + eapply elem_of_sublist; [|exact Hsub].
      now rewrite <- (newest_first_rows created_at rows).
    + eapply elem_of_sublist; [|exact Hsub]. now rewrite <- Hperm.
  - apply newest_first_sorted.
  - exact Hsorted.
  - now rewrite newest_first_rows, Hperm.
Qed.

Lemma statement_runs (q : obj) :
  (sql (list_books_statement q) = books_all
   \/ sql (list_books_statement q) = books_by_author
   \/ sql (list_books_statement q) = books_by_genre
   \/ sql (list_books_statement q) = books_by_author_and_genre)
  /\ db_query_books (list_books_statement q)
     = select_books_page
         ((fun k => Some ("%" ++ k ++ "%")%string) <$> keyword (get q "author"))
         ((fun k => Some ("%" ++ k ++ "%")%string) <$> keyword (get q "genre"))
         (param (default_to (get q "limit") (JNum 10)))
         (param_num (mul_num (sub_num (to_number (default_to (get q "page") (JNum 1)))
                                      (Some 1))
                             (to_number (default_to (get q "limit") (JNum 10))))).
Proof.
  rewrite !wrapped_keyword. unfold list_books_statement.
  destruct (truthy (get q "author")), (truthy (get q "genre")).
  - split; [right; right; right; reflexivity | reflexivity].
  - split; [right; left; reflexivity | reflexivity].
  - split; [right; right; left; reflexivity | reflexivity].
  - split; [left; reflexivity | reflexivity].
Qed.

Lemma params_given (q : obj) (p n : Z) :
  given (get q "page") 1 p ->
  given (get q "limit") 10 n ->
  params (list_books_statement q)
  = (pushed (keyword (get q "author")) ++ pushed (keyword (get q "genre"))
       ++ [Some (show_int n); Some (show_int ((p - 1) * n))])%list.
Proof.
  intros Hp Hn. unfold list_books_statement, keyword.
  rewrite (to_number_given _ _ _ Hp), (to_number_given _ _ _ Hn).
  rewrite (param_given _ _ _ Hn). cbn [sub_num mul_num]. unfold param_num.
  destruct (truthy (get q "author")), (truthy (get q "genre")); reflexivity.
Qed.

(** For a page [p] and a limit [n] left out or sent in decimal digits, on
    which the arithmetic of the handler is exact, and whatever the author
    and genre parameters: the text [router.get('/')] builds is one of four
    the store can read, and its placeholders and its parameters line up:
    the author keyword, if any, then the genre keyword, if any, then the
    limit [n] and the offset [(p - 1) * n]. *)
Theorem list_books_statement_runs (q : obj) (p n : Z) :
  given (get q "page") 1 p ->
  given (get q "limit") 10 n ->
  exact p -> exact n -> exact ((p - 1) * n) ->
  (sql (list_books_statement q) = books_all
   \/ sql (list_books_statement q) = books_by_author
   \/ sql (list_books_statement q) = books_by_genre
   \/ sql (list_books_statement q) = books_by_author_and_genre)
  /\ params (list_books_statement q)
     = (pushed (keyword (get q "author")) ++ pushed (keyword (get q "genre"))
          ++ [Some (show_int n); Some (show_int ((p - 1) * n))])%list
  /\ db_query_books (list_books_statement q)
     = select_books_page
         ((fun k => Some ("%" ++ k ++ "%")%string) <$> keyword (get q "author"))
         ((fun k => Some ("%" ++ k ++ "%")%string) <$> keyword (get q "genre"))
         (Some (show_int n))
         (Some (show_int ((p - 1) * n))).
Proof.
  intros Hp Hn _ _ _.
  split; [exact (proj1 (statement_runs q))|].
  split; [exact (params_given q p n Hp Hn)|].
  rewrite (proj2 (statement_runs q)).
  rewrite (to_number_given _ _ _ Hp), (to_number_given _ _ _ Hn).
  now rewrite (param_given _ _ _ Hn).
Qed.

(** GET /books with a page [p] of at least 1 and a limit [n] of at least
    0, each left out or sent in decimal digits, and ASCII keywords without
    wildcards, over authors and genres in ASCII: the answer is 200 with the
    numbers [p] and [n] and, of the books whose author and genre have the
    keywords (letter case apart), newest first, the [n] that come after the
    first [(p - 1) * n].  No two books are taken to be created at the same
    instant, which leaves one order. *)
Theorem get_books_page (req : read_request) (d : db) (p n : Z)
        (rows : list book_row) :
  let q := rq_query req in
  given (get q "page") 1 p ->
  given (get q "limit") 10 n ->
  1 <= p -> 0 <= n ->
  exact p -> exact n -> exact ((p - 1) * n) ->
  (forall k, keyword (get q "author") = Some k ->
             plain k = true /\ has_nul k = false) ->
  (forall k, keyword (get q "genre") = Some k ->
             plain k = true /\ has_nul k = false) ->
  (forall k, keyword (get q "author") = Some k -> ascii_text k = true) ->
  (forall k, keyword (get q "genre") = Some k -> ascii_text k = true) ->
  Forall (fun b => ascii_text (b_author b) && ascii_column (b_genre b) = true)
         (books d) ->
  NoDup (map b_created_at (books d)) ->
  rows ≡ₚ filter (fun b => listed (get q "author") (get q "genre") b = true)
                 (books d) ->
  StronglySorted (not_older b_created_at) rows ->
  get_books req d
  = (mk_answer 200
       (PageOfBooks (Some p) (Some n)
          (firstn (Z.to_nat n) (skipn (Z.to_nat ((p - 1) * n)) rows))),
     d).
Proof.
  cbv zeta. intros Hp Hn Hp1 Hn0 Ep En Eo Ha Hg _ _ _ Hnd Hperm Hsorted.
  unfold get_books. cbv zeta.
  rewrite (proj2 (statement_runs (rq_query req))).
  rewrite (to_number_given _ _ _ Hp), (to_number_given _ _ _ Hn).
  rewrite (param_given _ _ _ Hn). cbn [sub_num mul_num]. unfold param_num.
  destruct (optional_pattern_plain _ Ha) as (fa & Efa & Hfa).
  destruct (optional_pattern_plain _ Hg) as (fg & Efg & Hfg).
  unfold try_read, select_books_page, bind, lift, read, ret.
  rewrite Efa, Efg, (int8_show_int n En), (int8_show_int _ Eo).
  rewrite (limit_offset_counts n ((p - 1) * n)) by nia.
  cbn iota beta. do 5 f_equal.
  apply (newest_first_unique b_created_at (books d)); [exact Hnd | | | exact Hsorted].
  - apply sublist_filter.
  - rewrite Hperm. erewrite list_filter_iff; [reflexivity|]. intros b.
    unfold listed. now rewrite Hfa, Hfg.
Qed.

(** A page below 1 with a positive limit makes a negative OFFSET, and a
    negative limit a negative LIMIT: the store refuses either, and the
    answer is 500, whatever else the query string has. *)
Theorem get_books_bad_page (req : read_request) (d : db) (p n : Z) :
  let q := rq_query req in
  given (get q "page") 1 p ->
  given (get q "limit") 10 n ->
  exact p -> exact n -> exact ((p - 1) * n) ->
  n < 0 \/ (p <= 0 /\ 0 < n) ->
  get_books req d = (read_failed, d).
Proof.
  cbv zeta. intros Hp Hn Ep En Eo Hbad.
  unfold get_books. cbv zeta.
  rewrite (proj2 (statement_runs (rq_query req))).
  rewrite (to_number_given _ _ _ Hp), (to_number_given _ _ _ Hn).
  rewrite (param_given _ _ _ Hn). cbn [sub_num mul_num]. unfold param_num.
  unfold try_read, select_books_page, bind, lift, read, ret.
  destruct (optional_pattern_any (get (rq_query req) "author"))
    as [-> | (fa & ->)]; [reflexivity|].
  destruct (optional_pattern_any (get (rq_query req) "genre"))
    as [-> | (fg & ->)]; [reflexivity|].
  rewrite (int8_show_int n En), (int8_show_int _ Eo).
  cbn iota beta. rewrite limit_offset_negative; [reflexivity|].
  destruct Hbad as [Hneg | [Hp0 Hn0]]; [now left | right; nia].
Qed.

(** GET /books never changes the store and answers 200 or 500, whatever
    the author and genre parameters, for a page [p] and a limit [n] left
    out or sent in decimal digits.  A 200 carries [p] and [n], which then
    make a limit and an offset that are not negative, and at most [n]
    books; they are stored books, none more often than the table has it,
    and come newest first. *)
Theorem get_books_answers (req : read_request) (d : db) (p n : Z) :
  let q := rq_query req in
  given (get q "page") 1 p ->
  given (get q "limit") 10 n ->
  exact p -> exact n -> exact ((p - 1) * n) ->
  snd (get_books req d) = d
  /\ (fst (get_books req d) = read_failed
      \/ exists rows,
          fst (get_books req d)
          = mk_answer 200 (PageOfBooks (Some p) (Some n) rows)
          /\ 0 <= n
          /\ 0 <= (p - 1) * n
          /\ (length rows <= Z.to_nat n)%nat
          /\ rows ⊆+ books d
          /\ StronglySorted (not_older b_created_at) rows).
Proof.
  cbv zeta. intros Hp Hn Ep En Eo.
  unfold get_books. cbv zeta.
  rewrite (proj2 (statement_runs (rq_query req))).
  rewrite (to_number_given _ _ _ Hp), (to_number_given _ _ _ Hn).
  rewrite (param_given _ _ _ Hn). cbn [sub_num mul_num]. unfold param_num.
  unfold try_read, select_books_page, bind, lift, read, ret.
  destruct (optional_pattern_any (get (rq_query req) "author"))
    as [-> | (fa & ->)]; [split; [reflexivity | now left]|].
  destruct (optional_pattern_any (get (rq_query req) "genre"))
    as [-> | (fg & ->)]; [split; [reflexivity | now left]|].
  rewrite (int8_show_int n En), (int8_show_int _ Eo). cbn iota beta.
  destruct (Z_lt_dec n 0) as [Hneg | Hpos].
  { rewrite limit_offset_negative by now left.
    split; [reflexivity | now left]. }
  destruct (Z_lt_dec ((p - 1) * n) 0) as [Hoff | Hoff].
  { rewrite limit_offset_negative by now right.
    split; [reflexivity | now left]. }
  rewrite (limit_offset_counts n ((p - 1) * n)) by lia.
  split; [reflexivity|]. right. eexists. split; [reflexivity|].
  split; [lia|]. split; [lia|]. split; [apply firstn_le_length|].
  assert (Hsub : forall l : list book_row,
             firstn (Z.to_nat n) (skipn (Z.to_nat ((p - 1) * n)) l)
             `sublist_of` l).
  { intros l. etransitivity; [apply sublist_take | apply sublist_drop]. }
  split.
  - etransitivity; [apply sublist_submseteq, Hsub|].
    rewrite newest_first_rows. apply sublist_submseteq, sublist_filter.
  - eapply StronglySorted_sublist; [apply Hsub | apply newest_first_sorted].
Qed.

End ListingFacts.

(** ** GET /books/:id *)

Module DetailFacts.

Import Facts InputFacts ReviewFacts ReviewHandlers LikeFacts ListingFacts.

Lemma round_div_near (n c : Z) :
  0 <= n -> 0 < c -> 2 * Z.abs (round_div n c * c - n) <= c.
Proof.
  intros Hn Hc. unfold round_div.
  rewrite (proj2 (Z.leb_le 0 n) Hn).
  pose proof (Z.div_mod (2 * n + c) (2 * c)) as E.
  pose proof (Z.mod_pos_bound (2 * n + c) (2 * c)) as B.
  set (q := (2 * n + c) / (2 * c)) in *.
  set (r := (2 * n + c) mod (2 * c)) in *.
  assert (E' : 2 * n + c = 2 * c * q + r) by (apply E; lia).
  assert (B' : 0 <= r < 2 * c) by (apply B; lia).
  lia.
Qed.

Lemma round_div_between (n c lo hi : Z) :
  0 <= n -> 0 < c -> lo * c <= n <= hi * c -> lo <= round_div n c <= hi.
Proof.
  intros Hn Hc [Hlo Hhi]. unfold round_div.
  rewrite (proj2 (Z.leb_le 0 n) Hn). split.
  - apply Z.div_le_lower_bound; lia.
  - apply Z.lt_succ_r. apply Z.div_lt_upper_bound; lia.
Qed.

Lemma sum_of_between (l : list Z) :
  Forall (fun z => 1 <= z <= 5) l ->
  Z.of_nat (length l) <= sum_of l <= 5 * Z.of_nat (length l).
Proof.
  induction 1 as [|z l Hz _ IH]; [cbn; lia|].
  cbn [length sum_of fold_right]. fold (sum_of l). lia.
Qed.

Lemma ratings_of_filter (k : Z) (d : db) :
  omap r_rating
       (filter (fun r => col_is (Some k) (r_book_id r) = true) (reviews d))
  = ratings_of k d.
Proof.
  unfold ratings_of. f_equal. apply list_filter_iff. intros r.
  unfold col_is. destruct (r_book_id r) as [b|]; [|split; discriminate].
  rewrite Z.eqb_eq. split; congruence.
Qed.

Lemma ratings_of_in_range (k : Z) (d : db) :
  ratings_ok d -> Forall (fun z => 1 <= z <= 5) (ratings_of k d).
Proof.
  intros Hok. apply Forall_forall. intros z Hz.
  apply list_elem_of_omap in Hz as (r & Hr & Ez).
  apply list_elem_of_filter in Hr as [_ Hr].
  destruct (proj1 (Forall_forall _ _) Hok r Hr) as (z' & Ez' & Hz').
  congruence.
Qed.

(** The average of a book: NULL without ratings; with ratings between 1
    and 5, a number of hundredths between 100 and 500 that is off the
    exact average by half a hundredth at most. *)
Lemma select_average_rating_spec (k : Z) (d : db) :
  ratings_ok d ->
  int4_min <= k <= int4_max ->
  exists average,
    select_average_rating (JStr (show_int k)) d = (Resolved average, d)
    /\ (ratings_of k d = [] -> average = None)
    /\ (ratings_of k d <> [] ->
        exists a, average = Some a
                  /\ 100 <= a <= 500
                  /\ 2 * Z.abs (a * Z.of_nat (length (ratings_of k d))
                                - 100 * sum_of (ratings_of k d))
                     <= Z.of_nat (length (ratings_of k d))).
Proof.
  intros Hok Hk.
  unfold select_average_rating, bind, lift, read, ret, throw. cbn [param].
  rewrite (int4_show_int k Hk), ratings_of_filter.
  pose proof (sum_of_between _ (ratings_of_in_range k d Hok)) as Hsum.
  destruct (ratings_of k d) as [|z zs] eqn:E.
  - exists None. split; [reflexivity|]. split; [reflexivity|]. now intros [].
  - set (l := z :: zs) in *.
    assert (Hl : 0 < Z.of_nat (length l)) by (cbn [l length]; lia).
    pose proof (round_div_between (100 * sum_of l) (Z.of_nat (length l))
                                  100 500) as Hb.
    pose proof (round_div_near (100 * sum_of l) (Z.of_nat (length l))) as Hn.
    set (a := round_div (100 * sum_of l) (Z.of_nat (length l))) in *.
    assert (Ha : 100 <= a <= 500) by (apply Hb; lia).
    assert (Hfit : (Z.abs a <? 10 ^ 10) = true) by (apply Z.ltb_lt; lia).
    exists (Some a). cbn iota beta. rewrite Hfit.
    split; [reflexivity|]. split; [discriminate|]. intros _.
    exists a. split; [reflexivity|]. split; [exact Ha|]. apply Hn; lia.
Qed.

(** The reviews of a book as listed: at most the limit, and each the join
    of a stored review of the book with the stored user it names. *)
Lemma select_book_reviews_spec (k n o : Z) (d : db) :
  int4_min <= k <= int4_max ->
  exact n -> exact o -> 0 <= n -> 0 <= o ->
  exists listed,
    select_book_reviews (JStr (show_int k)) (Some (show_int n))
                        (Some (show_int o)) d
    = (Resolved listed, d)
    /\ (length listed <= Z.to_nat n)%nat
    /\ StronglySorted (not_older v_created_at) listed
    /\ forall v, v ∈ listed ->
                 exists r u, r ∈ reviews d /\ u ∈ users d
                             /\ r_book_id r = Some k
                             /\ r_user_id r = Some (u_id u)
                             /\ v = view r u.
Proof.
  intros Hk En Eo Hn Ho.
  unfold select_book_reviews, bind, lift, read, ret. cbn [param].
  rewrite (int4_show_int k Hk), (int8_show_int n En), (int8_show_int o Eo).
  rewrite (limit_offset_counts n o) by assumption.
  eexists. split; [reflexivity|]. split; [apply firstn_le_length|].
  assert (Hsub : forall A (l : list A),
             firstn (Z.to_nat n) (skipn (Z.to_nat o) l) `sublist_of` l).
  { intros A l. etransitivity; [apply sublist_take | apply sublist_drop]. }
  split.
  - eapply StronglySorted_sublist; [apply Hsub | apply newest_first_sorted].
  - intros v Hv. eapply elem_of_sublist in Hv; [|apply Hsub].
    rewrite newest_first_rows in Hv.
    apply list_elem_of_In, in_flat_map in Hv as (r & Hr & Hv).
    apply list_elem_of_In, list_elem_of_filter in Hr as [Hb Hr].
    apply in_map_iff in Hv as (u & <- & Hu).
    apply list_elem_of_In, list_elem_of_filter in Hu as [Hid Hu].
    exists r, u. split; [exact Hr|]. split; [exact Hu|].
    unfold col_is in Hb, Hid.
    destruct (r_book_id r) as [b|]; [|discriminate].
    destruct (r_user_id r) as [w|]; [|discriminate].
    apply Z.eqb_eq in Hb, Hid. subst. now repeat split.
Qed.

(** GET /books/:id for a stored book, with a review page [p] of at least
    1 and a review limit [n] of at least 0, each left out or sent in
    decimal digits: the answer is 200 with the book, the two numbers, the
    average and a page of reviews.  The average is 0 when the book has no
    rating; otherwise, with all ratings between 1 and 5, it lies between 1
    and 5 and is the exact average rounded to a hundredth.  The page has at
    most [n] reviews, newest first, each a stored review of this book
    joined with the stored user it names: a review without a user counts
    in the average and is never listed.  The ratings of the book are taken
    to be fewer than 10^13, below which the sixteen digits AVG carries into
    the cast do not show. *)
Theorem get_book_detail (req : read_request) (d : db) (book : book_row)
        (p n : Z) :
  let q := rq_query req in
  let k := b_id book in
  NoDup (map b_id (books d)) ->
  ratings_ok d ->
  Z.of_nat (length (ratings_of k d)) < 10 ^ 13 ->
  book ∈ books d ->
  rq_params_id req = show_int k ->
  int4_min <= k <= int4_max ->
  given (get q "reviewPage") 1 p ->
  given (get q "reviewLimit") 5 n ->
  1 <= p -> 0 <= n ->
  exact p -> exact n -> exact ((p - 1) * n) ->
  exists average listed,
    get_book req d
    = (mk_answer 200 (BookDetail book average listed (Some p) (Some n)), d)
    /\ (ratings_of k d = [] -> average = 0)
    /\ (ratings_of k d <> [] ->
        100 <= average <= 500
        /\ 2 * Z.abs (average * Z.of_nat (length (ratings_of k d))
                      - 100 * sum_of (ratings_of k d))
           <= Z.of_nat (length (ratings_of k d)))
    /\ (length listed <= Z.to_nat n)%nat
    /\ StronglySorted (not_older v_created_at) listed
    /\ forall v, v ∈ listed ->
                 exists r u, r ∈ reviews d /\ u ∈ users d
                             /\ r_book_id r = Some k
                             /\ r_user_id r = Some (u_id u)
                             /\ v = view r u.
Proof.
  cbv zeta. intros Hnd Hok _ Hin Hid Hk Hp Hn Hp1 Hn0 Ep En Eo.
  destruct (select_average_rating_spec (b_id book) d Hok Hk)
    as (average & Eavg & Hnone & Hsome).
  assert (Ho : 0 <= (p - 1) * n) by nia.
  destruct (select_book_reviews_spec (b_id book) n ((p - 1) * n) d
                                     Hk En Eo Hn0 Ho)
    as (listed & Elist & Hlen & Hsorted & Hmem).
  exists (match average with Some a => a | None => 0 end), listed.
  split.
  - unfold get_book. cbv zeta.
    rewrite (to_number_given _ _ _ Hp), (to_number_given _ _ _ Hn).
    rewrite (param_given _ _ _ Hn). cbn [sub_num mul_num]. unfold param_num.
    rewrite Hid. unfold try_read, bind.
    assert (Ebook : select_book (JStr (show_int (b_id book))) d
                    = (Resolved [book], d)).
    { unfold select_book, bind, lift, read. cbn [param].
      rewrite (int4_show_int _ Hk). cbn iota beta.
      now rewrite (filter_id_unique b_id book (books d) Hnd Hin). }
    rewrite Ebook. cbn iota beta. rewrite Eavg. cbn iota beta.
    rewrite Elist. reflexivity.
  - split.
    + intros E. now rewrite (Hnone E).
    + split; [|now repeat split].
      intros E. destruct (Hsome E) as (a & -> & Ha & Hround). now split.
Qed.

(** GET /books/:id on an id that no book has is answered 404, and on a
    path parameter without a digit 500 (the SELECT rejects), whatever the
    query string; the store is left as it was. *)
Theorem get_book_missing (req : read_request) (d : db) :
  (forall k,
      rq_params_id req = show_int k ->
      int4_min <= k <= int4_max ->
      (forall b, b ∈ books d -> b_id b <> k) ->
      get_book req d = (mk_answer 404 (ReadError "Book not found"), d))
  /\ (no_digit (rq_params_id req) = true ->
      get_book req d = (read_failed, d)).
Proof.
  split.
  - intros k Hid Hk Hno. unfold get_book. cbv zeta.
    unfold try_read, select_book, bind, lift, read, ret. cbn [param].
    rewrite Hid, (int4_show_int k Hk). cbn iota beta.
    now rewrite (filter_id_absent b_id k (books d) Hno).
  - intros Hbad. unfold get_book. cbv zeta.
    unfold try_read, select_book, bind, lift. cbn [param].
    now rewrite (int4_no_digit _ Hbad).
Qed.


End DetailFacts.

(** ** The properties above at work on the demo store *)

Module Cases.

Import Demo DemoReads DemoFacts Facts StoreInvariants ReviewHandlers
       AccountHandlers SearchFacts ListingFacts DetailFacts.

Lemma library_keys_ok : keys_ok library.
Proof.
  unfold keys_ok. cbn.
  split; [|split];
    (split; [apply NoDup_singleton | apply Forall_singleton; cbn; lia]).
Defined.

Lemma library_refs_ok : refs_ok library.
Proof.
  unfold refs_ok. cbn. apply Forall_singleton. split.
  - exists 1. split; [reflexivity | left].
  - intros u [= <-]. left.
Defined.

Lemma library_ratings_ok : ratings_ok library.
Proof.
  unfold ratings_ok. cbn. apply Forall_singleton.
  exists 4. split; [reflexivity | lia].
Defined.

Lemma primary_keys_kept_witness :
  keys_ok library /\ keys_ok (run_all traffic library).
Proof.
  split; [exact library_keys_ok|].
  exact (primary_keys_kept traffic library library_keys_ok).
Defined.

Lemma foreign_keys_kept_witness :
  refs_ok library /\ refs_ok (run_all traffic library).
Proof.
  split; [exact library_refs_ok|].
  exact (foreign_keys_kept traffic library library_refs_ok).
Defined.

Lemma ratings_kept_witness :
  ratings_ok library /\ ratings_ok (run_all traffic library).
Proof.
  split; [exact library_ratings_ok|].
  exact (ratings_kept traffic library library_ratings_ok).
Defined.

Lemma post_review_refusals_witness :
  post_review 300 (reviewing [("rating", JNum 6)] "1" bob) library
  = (send 400 (JsonError "Rating must be between 1 and 5"), library)
  /\ post_review 300 (reviewing [("rating", JNum 5)] "dune" bob) library
     = (internal_error, library)
  /\ post_review 300 (reviewing [("rating", JNum 5)] "7" bob) library
     = (send 404 (JsonError "Book not found"), library).
Proof.
  split; [|split].
  - apply (proj1 (post_review_refusals 300
                    (reviewing [("rating", JNum 6)] "1" bob) library)).
    right. right. exists 6. split; [reflexivity | lia].
  - apply (proj1 (proj2 (post_review_refusals 300
                           (reviewing [("rating", JNum 5)] "dune" bob) library)
                        5 eq_refl ltac:(lia))).
    reflexivity.
  - apply (proj2 (proj2 (post_review_refusals 300
                           (reviewing [("rating", JNum 5)] "7" bob) library)
                        5 eq_refl ltac:(lia)) 7 eq_refl).
    + unfold int4_min, int4_max. lia.
    + intros b Hb. apply list_elem_of_singleton in Hb. subst b. discriminate.
Defined.


Lemma review_not_found_witness :
  delete_review (reviewing [] "9" bob) library
  = (send 404 (JsonError "Review not found or not yours to delete"), library)
  /\ put_review (reviewing [("rating", JNum 3)] "9" bob) library
     = (send 404 (JsonError "Review not found or not yours to edit"), library)
  /\ delete_review (reviewing [] "last" bob) library = (internal_error, library).
Proof.
  assert (Hno : forall r, r ∈ reviews library -> r_id r <> 9).
  { intros r Hr. apply list_elem_of_singleton in Hr. subst r. discriminate. }
  assert (Hk : int4_min <= 9 <= int4_max) by (unfold int4_min, int4_max; lia).
  split; [|split].
  - exact (proj1 (proj1 (review_not_found (reviewing [] "9" bob) library)
                        9 eq_refl Hk Hno)).
  - apply (proj2 (proj1 (review_not_found
                           (reviewing [("rating", JNum 3)] "9" bob) library)
                        9 eq_refl Hk Hno)).
    right. exists 3. split; [reflexivity | lia].
  - exact (proj1 (proj2 (review_not_found (reviewing [] "last" bob) library)
                        eq_refl)).
Defined.

Lemma put_review_falsy_rating_witness :
  put_review (reviewing [("rating", JNum 0)] "1" bob) library
  = put_review (reviewing [] "1" bob) library
  /\ status (fst (put_review (reviewing [("rating", JNum 0)] "1" bob) library))
     <> 400.
Proof.
  apply put_review_falsy_rating; reflexivity.
Defined.

Lemma put_review_partial_witness :
  put_review (reviewing [("rating", JNum 2)] "1" bob) library
  = (send 200 (JsonReview (Some (mk_review 1 (Some 1) (Some 1) (Some 2)
                                           (Some "fine") 160))),
     set_reviews library [mk_review 1 (Some 1) (Some 1) (Some 2)
                                    (Some "fine") 160]).
Proof.
  assert (E := put_review_partial (reviewing [("rating", JNum 2)] "1" bob)
                 library alice_on_dune (Some 2) None).
  cbv zeta in E. rewrite E; clear E.
  - reflexivity.
  - cbn. apply NoDup_singleton.
  - left.
  - reflexivity.
  - unfold int4_min, int4_max. cbn. lia.
  - reflexivity.
  - intros z [= <-]. lia.
  - reflexivity.
  - discriminate.
  - reflexivity.
  - intros c [= <-]. reflexivity.
Defined.

Lemma delete_review_once_witness :
  let req := reviewing [] "1" bob in
  NoDup (map r_id (reviews library))
  /\ fst (delete_review req library)
     = send 200 (JsonMessage "Review deleted successfully")
  /\ (alice_on_dune ∉ reviews (snd (delete_review req library)))
  /\ delete_review req (snd (delete_review req library))
     = (send 404 (JsonError "Review not found or not yours to delete"),
        snd (delete_review req library)).
Proof.
  cbv zeta.
  assert (Hnd : NoDup (map r_id (reviews library)))
    by (cbn; apply NoDup_singleton).
  assert (Hin : alice_on_dune ∈ reviews library) by left.
  assert (Hk : int4_min <= r_id alice_on_dune <= int4_max)
    by (unfold int4_min, int4_max; cbn; lia).
  destruct (delete_review_once (reviewing [] "1" bob) library alice_on_dune
                               Hnd Hin eq_refl Hk)
    as (H200 & Hgone & _ & _ & _ & Hagain & _).
  split; [exact Hnd|]. split; [exact H200|]. split; [exact Hgone | exact Hagain].
Defined.


Lemma login_tells_unknown_email_witness :
  fst (login demo_env 200 (credentials "nobody@x.com" "p1") members)
  = send 400 (JsonError "Invalid email").
Proof.
  apply (login_tells_unknown_email demo_env 200
           (credentials "nobody@x.com" "p1") members "nobody@x.com" "p1");
    try reflexivity.
  intros u Hu. apply list_elem_of_singleton in Hu. subst u. discriminate.
Defined.

Lemma email_stays_taken_witness :
  alice ∈ users library
  /\ signup "pepper" 400 (credentials "a@x.com" "p9") (run_all traffic library)
     = (send 400 (JsonError "Email already exists"), run_all traffic library).
Proof.
  assert (Hin : alice ∈ users library) by left.
  split; [exact Hin|].
  exact (email_stays_taken traffic library alice "pepper" 400
           (credentials "a@x.com" "p9") Hin eq_refl eq_refl).
Defined.

Lemma access_token_renews_itself_witness :
  each_within_a_minute 200 [259; 318; 377]
  /\ renew_repeatedly demo_env
       (Token (issue "s3cr3t" (JStr "a@x.com") span_1m 200))
       [259; 318; 377] members
     = Some (Token (issue "s3cr3t" (JStr "a@x.com") span_1m 377)).
Proof.
  assert (Hc : each_within_a_minute 200 [259; 318; 377])
    by (cbn; repeat split; lia).
  split; [exact Hc|].
  exact (access_token_renews_itself demo_env "s3cr3t" (JStr "a@x.com") 200
           [259; 318; 377] members eq_refl Hc).
Defined.

Lemma refresh_cookie_attributes_witness :
  let c := refresh_cookie (Token alice_refresh) in
  c ∈ cookies_set (fst (login demo_env 200 (credentials "a@x.com" "p1") members))
  /\ c_name c = "refreshToken"
  /\ c_httpOnly c = true
  /\ c_sameSite c = "strict"
  /\ c_secure c = false.
Proof.
  cbv zeta.
  assert (Hc : refresh_cookie (Token alice_refresh)
                 ∈ cookies_set (fst (login demo_env 200
                                       (credentials "a@x.com" "p1") members)))
    by left.
  destruct (refresh_cookie_attributes demo_env 200 (credentials "a@x.com" "p1")
              members (refresh_cookie (Token alice_refresh)) Hc)
    as (Hn & Hh & Hs & Hsec & _).
  now repeat split.
Defined.

Lemma get_search_outcomes_witness :
  exists rows,
    a_body (fst (get_search (asking [("query", JStr "e")] "") shelf))
    = FoundBooks rows
    /\ rows ⊆+ books shelf.
Proof.
  exact (proj2 (proj2 (get_search_outcomes (asking [("query", JStr "e")] "")
                         shelf)) eq_refl).
Defined.

Lemma get_search_keyword_witness :
  exists rows,
    get_search (asking [("query", JStr "AUSTEN")] "") shelf
    = (mk_answer 200 (FoundBooks rows), shelf)
    /\ rows ≡ₚ [emma; persuasion].
Proof.
  apply (get_search_keyword (asking [("query", JStr "AUSTEN")] "") shelf
           "AUSTEN" eq_refl ltac:(discriminate) eq_refl eq_refl eq_refl).
  repeat constructor.
Defined.

Lemma get_search_percent_witness :
  exists rows,
    get_search (asking [("query", JStr "%%")] "") shelf
    = (mk_answer 200 (FoundBooks rows), shelf)
    /\ rows ≡ₚ [dune; emma; persuasion].
Proof.
  exact (get_search_percent (asking [("query", JStr "%%")] "") shelf "%%"
           eq_refl ltac:(discriminate) eq_refl).
Defined.

Lemma get_books_page_witness :
  let q := [("page", JStr "2"); ("limit", JStr "1"); ("genre", JStr "NOVEL")] in
  NoDup (map b_created_at (books shelf))
  /\ StronglySorted (not_older b_created_at) [persuasion; emma]
  /\ get_books (asking q "") shelf
     = (mk_answer 200 (PageOfBooks (Some 2) (Some 1) [emma]), shelf).
Proof.
  cbv zeta.
  assert (Hnd : NoDup (map b_created_at (books shelf))).
  { cbn. repeat (apply NoDup_cons; split;
                 [intros Hin; repeat (apply elem_of_cons in Hin as [Hin | Hin];
                                        [discriminate Hin|]);
                  now apply elem_of_nil in Hin|]).
    apply NoDup_nil_2. }
  assert (Hs : StronglySorted (not_older b_created_at) [persuasion; emma]).
  { repeat constructor. unfold not_older. cbn. lia. }
  split; [exact Hnd|]. split; [exact Hs|].
  assert (E := get_books_page
                 (asking [("page", JStr "2"); ("limit", JStr "1");
                          ("genre", JStr "NOVEL")] "")
                 shelf 2 1 [persuasion; emma]).
  cbv zeta in E. rewrite E; clear E.
  - reflexivity.
  - right. reflexivity.
  - right. reflexivity.
  - lia.
  - lia.
  - unfold exact. lia.
  - unfold exact. lia.
  - unfold exact. lia.
  - intros k [=].
  - intros k [= <-]. split; reflexivity.
  - intros k [=].
  - intros k [= <-]. reflexivity.
  - repeat constructor.
  - exact Hnd.
  - apply Permutation_swap.
  - exact Hs.
Defined.

Lemma list_books_statement_runs_witness :
  let q := [("page", JStr "3"); ("limit", JStr "20"); ("genre", JStr "novel")] in
  sql (list_books_statement q) = books_by_genre
  /\ params (list_books_statement q) = [Some "%novel%"; Some "20"; Some "40"].
Proof.
  cbv zeta.
  destruct (list_books_statement_runs
              [("page", JStr "3"); ("limit", JStr "20"); ("genre", JStr "novel")]
              3 20) as (_ & E & _).
  - right. reflexivity.
  - right. reflexivity.
  - unfold exact. lia.
  - unfold exact. lia.
  - unfold exact. lia.
  - split; [reflexivity | exact E].
Defined.

Lemma get_books_answers_witness :
  let req := asking [("limit", JStr "2"); ("author", JStr "a_s%")] "" in
  snd (get_books req shelf) = shelf
  /\ (fst (get_books req shelf) = read_failed
      \/ exists rows,
          fst (get_books req shelf)
          = mk_answer 200 (PageOfBooks (Some 1) (Some 2) rows)
          /\ (length rows <= 2)%nat
          /\ rows ⊆+ books shelf).
Proof.
  cbv zeta.
  destruct (get_books_answers
              (asking [("limit", JStr "2"); ("author", JStr "a_s%")] "")
              shelf 1 2) as [Hd Ha].
  - left. split; reflexivity.
  - right. reflexivity.
  - unfold exact. lia.
  - unfold exact. lia.
  - unfold exact. lia.
  - split; [exact Hd|]. destruct Ha as [E | (rows & E & _ & _ & Hl & Hs & _)].
    + now left.
    + right. exists rows. now repeat split.
Defined.

Lemma get_books_bad_page_witness :
  get_books (asking [("page", JStr "0")] "") shelf = (read_failed, shelf).
Proof.
  apply (get_books_bad_page (asking [("page", JStr "0")] "") shelf 0 10).
  - right. reflexivity.
  - left. split; reflexivity.
  - unfold exact. lia.
  - unfold exact. lia.
  - unfold exact. lia.
  - right. lia.
Defined.

Lemma get_book_detail_witness :
  exists average listed,
    get_book (asking [] "1") library
    = (mk_answer 200 (BookDetail dune average listed (Some 1) (Some 5)), library)
    /\ 100 <= average <= 500
    /\ (length listed <= 5)%nat.
Proof.
  destruct (get_book_detail (asking [] "1") library dune 1 5)
    as (average & listed & E & _ & Hav & Hlen & _).
  - cbn. apply NoDup_singleton.
  - exact library_ratings_ok.
  - reflexivity.
  - left.
  - reflexivity.
  - unfold int4_min, int4_max. cbn. lia.
  - left. split; reflexivity.
  - left. split; reflexivity.
  - lia.
  - lia.
  - unfold exact. lia.
  - unfold exact. lia.
  - unfold exact. lia.
  - exists average, listed. split; [exact E|]. split; [|exact Hlen].
    apply Hav. discriminate.
Defined.

Lemma get_book_missing_witness :
  get_book (asking [] "7") library
  = (mk_answer 404 (ReadError "Book not found"), library)
  /\ get_book (asking [] "latest") library = (read_failed, library).
Proof.
  split.
  - apply (proj1 (get_book_missing (asking [] "7") library) 7 eq_refl).
    + unfold int4_min, int4_max. lia.
    + intros b Hb. apply list_elem_of_singleton in Hb. subst b. discriminate.
  - exact (proj2 (get_book_missing (asking [] "latest") library) eq_refl).
Defined.


End Cases.
